(** * Booking-System: availability computation and booking commit

    A shallow embedding of [apps/api/src/bookings.ts] (the booking router:
    [GET /bookings/availability] and [POST /bookings]) together with the
    part of the Luxon [DateTime] API and of the Prisma storage layer that
    the router calls, and the properties of the booking core proved (or
    refuted) on that embedding.  The authentication middleware
    ([middleware.ts]), the administrator's routes that create services and
    windows ([admin.ts]) and the earlier version of the booking handler are
    embedded too, for the properties that relate them to the booking flow.

    Conventions.
    - A JavaScript [Date] and a Luxon timestamp are a [Z]: milliseconds
      since the Unix epoch.
    - A Luxon [DateTime] in the zone Europe/Oslo is the pair ([ts], [o]) that
      Luxon itself stores: the timestamp and the UTC offset in minutes.  The
      cached calendar fields [c] of Luxon are represented by the local
      timestamp [ts + o * 60000] they encode.
    - The zone is a function [offset : Z -> Z] (Luxon's [zone.offset(ts)],
      in minutes).  Its values come from the IANA time zone database at run
      time; the development is parametric in it. *)

From Stdlib Require Import ZArith List String Ascii Bool Lia Sorted Permutation.
Import ListNotations.

Open Scope Z_scope.

(** ** Booking rules (the constants of bookings.ts) *)

Record HourMinute : Type := { hour : Z; minute : Z }.

Definition DAY_START : HourMinute := {| hour := 8; minute := 0 |}.
Definition DAY_END : HourMinute := {| hour := 15; minute := 0 |}.
Definition SESSION_MIN : Z := 15.
Definition BUFFER_MIN : Z := 5.
Definition STEP_MIN : Z := SESSION_MIN + BUFFER_MIN.

(** ** Strings on the wire: "YYYY-MM-DD" and "HH:mm" *)

Module Wire.

(** The value of a character matched by the regular expression [\d]. *)
Definition digitValue (c : ascii) : option Z :=
  let n := Z.of_nat (nat_of_ascii c) in
  if (48 <=? n) && (n <=? 57) then Some (n - 48) else None.

Definition digitChar (k : Z) : ascii := ascii_of_nat (Z.to_nat (48 + k)).

Definition number2 (a b : ascii) : option Z :=
  match digitValue a, digitValue b with
  | Some x, Some y => Some (10 * x + y)
  | _, _ => None
  end.

Definition number4 (a b c d : ascii) : option Z :=
  match number2 a b, number2 c d with
  | Some x, Some y => Some (100 * x + y)
  | _, _ => None
  end.

(** [/^\d{4}-\d{2}-\d{2}$/.test(date)] followed by
    [date.split("-").map(Number)]: the three numbers when the string has
    the shape, [None] when the regular expression rejects it. *)
Definition dateFields (date : string) : option (Z * Z * Z) :=
  match list_ascii_of_string date with
  | [y1; y2; y3; y4; "-"%char; m1; m2; "-"%char; d1; d2] =>
      match number4 y1 y2 y3 y4, number2 m1 m2, number2 d1 d2 with
      | Some y, Some m, Some d => Some (y, m, d)
      | _, _, _ => None
      end
  | _ => None
  end.

(** [/^\d{2}:\d{2}$/] followed by [time.split(":").map(Number)]. *)
Definition timeFields (time : string) : option (Z * Z) :=
  match list_ascii_of_string time with
  | [h1; h2; ":"%char; m1; m2] =>
      match number2 h1 h2, number2 m1 m2 with
      | Some hh, Some mm => Some (hh, mm)
      | _, _ => None
      end
  | _ => None
  end.

(** Luxon's two-digit, zero-padded fields [HH] and [mm]. *)
Definition pad2 (n : Z) : string :=
  String (digitChar (n / 10)) (String (digitChar (n mod 10)) EmptyString).

Definition formatHHmm (hh mm : Z) : string :=
  (pad2 hh ++ ":" ++ pad2 mm)%string.

End Wire.

(** ** The part of Luxon used by the router *)

Module Luxon.

Definition MS_PER_MINUTE : Z := 60000.
Definition MS_PER_HOUR : Z := 3600000.
Definition MS_PER_DAY : Z := 86400000.

Definition isLeapYear (y : Z) : bool :=
  (y mod 4 =? 0) && (negb (y mod 100 =? 0) || (y mod 400 =? 0)).

Definition daysInMonth (y m : Z) : Z :=
  if m =? 2 then (if isLeapYear y then 29 else 28)
  else if (m =? 4) || (m =? 6) || (m =? 9) || (m =? 11) then 30
  else 31.

(** Days from 1970-01-01 to the given day of the proleptic Gregorian
    calendar (what [Date.UTC(y, m - 1, d) / 86400000] is). *)
Definition daysFromCivil (y m d : Z) : Z :=
  let y' := if m <=? 2 then y - 1 else y in
  let era := y' / 400 in
  let yoe := y' - era * 400 in
  let mp := if m <=? 2 then m + 9 else m - 3 in
  let doy := (153 * mp + 2) / 5 + d - 1 in
  let doe := yoe * 365 + yoe / 4 - yoe / 100 + doy in
  era * 146097 + doe - 719468.

(** [objToLocalTS]: the local timestamp of calendar fields whose second
    and millisecond are zero. *)
Definition objToLocalTS (y m d hh mm : Z) : Z :=
  daysFromCivil y m d * MS_PER_DAY + (hh * 60 + mm) * MS_PER_MINUTE.

(** [hasInvalidGregorianData] and [hasInvalidTimeData]: the fields form a
    date-time Luxon accepts.  24:00 is accepted and means the next
    midnight. *)
Definition validFields (y m d hh mm : Z) : bool :=
  ((1 <=? m) && (m <=? 12))
  && ((1 <=? d) && (d <=? daysInMonth y m))
  && (((0 <=? hh) && (hh <=? 23)) || ((hh =? 24) && (mm =? 0)))
  && ((0 <=? mm) && (mm <=? 59)).

Record DateTime : Type := { ts : Z; o : Z }.

(** The local timestamp the calendar fields of a [DateTime] encode. *)
Definition localTS (dt : DateTime) : Z := ts dt + o dt * MS_PER_MINUTE.

(** [Math.round(num / den)] for a positive [den]: halves round up. *)
Definition roundDiv (num den : Z) : Z := (2 * num + den) / (2 * den).

Section Zone.

(** Luxon's [zone.offset(ts)]: minutes east of UTC at instant [ts]. *)
Variable offset : Z -> Z.

(** [fixOffset(localTS, o, tz)]: the instant of a local timestamp,
    starting from the guess that the offset is [o0]. *)
Definition fixOffset (l o0 : Z) : Z * Z :=
  let utcGuess := l - o0 * MS_PER_MINUTE in
  let o2 := offset utcGuess in
  if o0 =? o2 then (utcGuess, o0)
  else
    let utcGuess' := utcGuess - (o2 - o0) * MS_PER_MINUTE in
    let o3 := offset utcGuess' in
    if o2 =? o3 then (utcGuess', o2)
    else (l - Z.min o2 o3 * MS_PER_MINUTE, Z.max o2 o3).

Definition ofLocal (l o0 : Z) : DateTime :=
  let (t, o') := fixOffset l o0 in {| ts := t; o := o' |}.

(** [DateTime.fromObject({year, month, day, hour, minute}, {zone})];
    [None] is an invalid [DateTime].  [tsNow] is [Settings.now()], whose
    offset is the first guess. *)
Definition fromObject (tsNow : Z) (y m d hh mm : Z) : option DateTime :=
  if validFields y m d hh mm
  then Some (ofLocal (objToLocalTS y m d hh mm) (offset tsNow))
  else None.

(** [dt.set({hour, minute})]: same local day, second and millisecond. *)
Definition set (dt : DateTime) (hm : HourMinute) : DateTime :=
  let l := localTS dt in
  ofLocal ((l / MS_PER_DAY) * MS_PER_DAY
           + (hour hm * 60 + minute hm) * MS_PER_MINUTE
           + l mod MS_PER_MINUTE)
          (o dt).

(** [dt.plus({minutes: n})] ([adjustTime]), for a result inside the range of
    a JS Date ([|ts| <= 8.64e15]).  The router adds at most 30 sessions of 20
    minutes, or 21 grid steps, to a time of a four-digit year, which stays
    far inside that range; beyond it Luxon answers an invalid DateTime, which
    this record does not represent. *)
Definition plusMinutes (dt : DateTime) (n : Z) : DateTime :=
  let (t, o1) := fixOffset (localTS dt) (o dt) in
  if n =? 0 then {| ts := t; o := o1 |}
  else {| ts := t + n * MS_PER_MINUTE;
          o := offset (t + n * MS_PER_MINUTE) |}.

(** [DateTime.now().setZone(zone)]. *)
Definition nowIn (tsNow : Z) : DateTime :=
  {| ts := tsNow; o := offset tsNow |}.

End Zone.

(** [Math.round(a.diff(b, "minutes").minutes)]. *)
Definition roundedDiffMinutes (a b : DateTime) : Z :=
  roundDiv (ts a - ts b) MS_PER_MINUTE.

(** [a < b] and [a > b] on [DateTime] compare [valueOf()]. *)
Definition ltb (a b : DateTime) : bool := ts a <? ts b.
Definition gtb (a b : DateTime) : bool := ts b <? ts a.

(** [dt.toUTC().toJSDate()]. *)
Definition toJSDate (dt : DateTime) : Z := ts dt.

(** [dt.toFormat("HH:mm")]. *)
Definition toFormatHHmm (dt : DateTime) : string :=
  Wire.formatHHmm ((localTS dt / MS_PER_HOUR) mod 24)
                  ((localTS dt / MS_PER_MINUTE) mod 60).

End Luxon.

(** Europe/Oslo in 2026: UTC+2 from 2026-03-29T01:00Z to 2026-10-25T01:00Z,
    UTC+1 otherwise.  Used for the concrete runs. *)
Definition oslo2026 (t : Z) : Z :=
  if (1774746000000 <=? t) && (t <? 1792890000000) then 120 else 60.

(** ** Data model (the Prisma migration) *)

Inductive BookingStatus : Type := PENDING | CONFIRMED | CANCELLED.

Definition isCancelled (s : BookingStatus) : bool :=
  match s with CANCELLED => true | _ => false end.

Record Service : Type :=
  { service_id : string; isActive : bool; durationMin : Z }.

Record AvailabilitySlot : Type :=
  { slot_serviceId : string; slot_startAt : Z; slot_endAt : Z }.

Record Booking : Type :=
  { id : nat;
    userId : string;
    serviceId : string;
    startAt : Z;
    endAt : Z;
    status : BookingStatus;
    note : option string }.

(** The database: rows in insertion order.  Booking rows are never deleted
    by the booking router. *)
Record Db : Type :=
  { services : list Service;
    slots : list AvailabilitySlot;
    bookings : list Booking }.

Definition withBookings (db : Db) (bs : list Booking) : Db :=
  {| services := services db; slots := slots db; bookings := bs |}.

(** The keys and indexes the migration declares. *)
Inductive IndexKind : Type := PrimaryKey | UniqueIndex | PlainIndex.

Record IndexDecl : Type :=
  { idx_table : string; idx_columns : list string; idx_kind : IndexKind }.

Definition migrationIndexes : list IndexDecl :=
  [ {| idx_table := "User"; idx_columns := ["id"%string]; idx_kind := PrimaryKey |};
    {| idx_table := "Service"; idx_columns := ["id"%string]; idx_kind := PrimaryKey |};
    {| idx_table := "AvailabilitySlot"; idx_columns := ["id"%string];
       idx_kind := PrimaryKey |};
    {| idx_table := "Booking"; idx_columns := ["id"%string]; idx_kind := PrimaryKey |};
    {| idx_table := "User"; idx_columns := ["email"%string]; idx_kind := UniqueIndex |};
    {| idx_table := "AvailabilitySlot";
       idx_columns := ["serviceId"%string; "startAt"%string];
       idx_kind := PlainIndex |};
    {| idx_table := "Booking";
       idx_columns := ["serviceId"%string; "startAt"%string];
       idx_kind := PlainIndex |};
    {| idx_table := "Booking";
       idx_columns := ["userId"%string; "createdAt"%string];
       idx_kind := PlainIndex |} ].

Definition enforcesUniqueness (k : IndexKind) : bool :=
  match k with PlainIndex => false | _ => true end.

(** Does the migration declare a key or unique index on table [t] whose
    columns are all among [cols]?  (Such an index would make the rows of [t]
    unique on [cols].) *)
Definition declaresUniqueOn (t : string) (cols : list string) : bool :=
  existsb (fun i =>
             String.eqb (idx_table i) t
             && enforcesUniqueness (idx_kind i)
             && forallb (fun c => existsb (String.eqb c) cols) (idx_columns i))
          migrationIndexes.

(** ** The Prisma queries of the router *)

Module Prisma.

(** [orderBy: { startAt: "asc" }], as a stable insertion sort on a key:
    rows with equal keys stay in table order (the database may return them
    in any order). *)
Section OrderBy.
Context {A : Type} (key : A -> Z).

Fixpoint insertAsc (x : A) (l : list A) : list A :=
  match l with
  | [] => [x]
  | y :: l' => if key y <=? key x then y :: insertAsc x l' else x :: l
  end.

Definition orderByAsc (l : list A) : list A :=
  fold_right insertAsc [] (rev l).
End OrderBy.

Definition inDates (d : Z) (ds : list Z) : bool := existsb (Z.eqb d) ds.

(** [service.findUnique({ where: { id } })]. *)
Definition serviceFindUnique (db : Db) (sid : string) : option Service :=
  find (fun s => String.eqb (service_id s) sid) (services db).

(** [availabilitySlot.findMany({ where: { serviceId, startAt: { lt },
    endAt: { gt } }, orderBy: { startAt: "asc" } })]. *)
Definition slotsOverlapping (db : Db) (sid : string) (lt gt : Z)
  : list AvailabilitySlot :=
  orderByAsc slot_startAt
    (filter (fun s => String.eqb (slot_serviceId s) sid
                      && (slot_startAt s <? lt) && (gt <? slot_endAt s))
            (slots db)).

(** [booking.findMany({ where: { serviceId, status: { not: "CANCELLED" },
    startAt: { gte, lt } }, select: { startAt } })]. *)
Definition bookedStarts (db : Db) (sid : string) (gte lt : Z) : list Z :=
  map startAt
    (filter (fun b => String.eqb (serviceId b) sid
                      && negb (isCancelled (status b))
                      && (gte <=? startAt b) && (startAt b <? lt))
            (bookings db)).

(** [tx.booking.findMany({ where: { serviceId, status: { not:
    "CANCELLED" }, startAt: { in: startsUtc } } })]. *)
Definition findConflicts (bs : list Booking) (sid : string)
           (startsUtc : list Z) : list Booking :=
  filter (fun b => String.eqb (serviceId b) sid
                   && negb (isCancelled (status b))
                   && inDates (startAt b) startsUtc)
         bs.

(** The identifier given to the next inserted row: larger than every
    identifier in the table. *)
Definition nextId (bs : list Booking) : nat :=
  S (fold_right (fun b m => Nat.max (id b) m) O bs).

Fixpoint withIds (n : nat) (rows : list Booking) : list Booking :=
  match rows with
  | [] => []
  | r :: rows' =>
      {| id := n; userId := userId r; serviceId := serviceId r;
         startAt := startAt r; endAt := endAt r; status := status r;
         note := note r |} :: withIds (S n) rows'
  end.

(** [tx.booking.createMany({ data: rows })]: the table after the insert
    (the [id] field of [rows] is ignored, identifiers are generated). *)
Definition createMany (bs : list Booking) (rows : list Booking)
  : list Booking :=
  bs ++ withIds (nextId bs) rows.

(** [tx.booking.findMany({ where: { userId, serviceId, startAt: { in:
    startsUtc } }, orderBy: { startAt: "asc" } })]. *)
Definition findByUserAndStarts (bs : list Booking) (uid sid : string)
           (startsUtc : list Z) : list Booking :=
  orderByAsc startAt
    (filter (fun b => String.eqb (userId b) uid
                      && String.eqb (serviceId b) sid
                      && inDates (startAt b) startsUtc)
            bs).

End Prisma.

(** An exception thrown by the storage layer while the insert runs. *)
Inductive StorageError : Type :=
| UniqueConstraintViolation   (* Prisma error code P2002 *)
| OtherStorageError.

(** ** The booking router (bookings.ts) *)

(** The [message] of a 400 response of [POST /bookings]. *)
Inductive Message : Type :=
| MsgInvalidDate        (* "Invalid date/startTime" *)
| MsgNotAligned         (* "startTime must be aligned to 20-minute slots from 08:00 ..." *)
| MsgBeforeOpening      (* "Start time is before opening hours (08:00)." *)
| MsgExceedsClosing     (* "Selected sessions exceed opening hours (must end by 15:00 Oslo time)." *)
| MsgInThePast          (* "Cannot book a time in the past" *)
| MsgDuration           (* "Service duration must be 15 minutes for this booking flow" *)
| MsgNotWithinAvailability. (* "Selected time is not within admin availability for this service" *)

(** The result of [validateWithinBusinessHours]: [{ ok: true }] or
    [{ ok: false, message }]. *)
Inductive HoursCheck : Type :=
| HoursOk
| HoursFail (message : Message).

(** The body of [POST /bookings] as received (JSON). *)
Record BookingBody : Type :=
  { body_serviceId : string;
    body_date : string;
    body_startTime : string;
    body_sessions : Z;
    body_note : option string }.

(** A row of the [conflicts] list ([select: { id, startAt }]). *)
Record ConflictView : Type := { conflict_id : nat; conflict_startAt : Z }.

(** A row of the [bookings] list
    ([select: { id, startAt, endAt, status }]). *)
Record BookingView : Type :=
  { view_id : nat; view_startAt : Z; view_endAt : Z;
    view_status : BookingStatus }.

Definition conflictView (b : Booking) : ConflictView :=
  {| conflict_id := id b; conflict_startAt := startAt b |}.

Definition bookingView (b : Booking) : BookingView :=
  {| view_id := id b; view_startAt := startAt b; view_endAt := endAt b;
     view_status := status b |}.

Inductive PostResponse : Type :=
| Post400Schema                                     (* 400 { errors } *)
| Post401                                           (* 401 "Unauthorized" *)
| Post400 (message : Message)                       (* 400 { message } *)
| Post404                                           (* 404 "Service not found or inactive" *)
| Post409 (conflicts : list ConflictView)           (* 409 { message, conflicts } *)
| Post201 (count : nat) (created : list BookingView) (* 201 { message, count, bookings } *)
| Post500.                                          (* 500 "Server error" *)

Inductive AvailabilityResponse : Type :=
| Avail400ServiceId             (* 400 "serviceId is required" *)
| Avail400Date                  (* 400 "date must be YYYY-MM-DD" *)
| Avail404                      (* 404 "Service not found or inactive" *)
| Avail400Duration              (* 400 "Service duration must be 15 minutes" *)
| Avail200 (times : list string) (* 200 { serviceId, date, times } *)
| AvailNoResponse.              (* the handler throws, nothing is sent *)

(** A transaction of [POST /bookings]: the values its callback closes over,
    and where it is: before its conflict query, after a conflict query that
    found nothing, or finished. *)
Inductive TxPhase : Type := BeforeCheck | AfterCheck | Finished.

Record Tx : Type :=
  { tx_userId : string;
    tx_serviceId : string;
    tx_note : option string;
    tx_startsUtc : list Z;
    tx_phase : TxPhase }.

Definition atPhase (t : Tx) (p : TxPhase) : Tx :=
  {| tx_userId := tx_userId t; tx_serviceId := tx_serviceId t;
     tx_note := tx_note t; tx_startsUtc := tx_startsUtc t; tx_phase := p |}.

(** The outcome of the callback given to [prisma.$transaction]. *)
Inductive TxResult : Type :=
| TxConflicts (conflicts : list Booking)
| TxCreated (count : nat) (created : list Booking).

Section Router.

(** The zone Europe/Oslo ([OSLO_TZ]). *)
Variable offset : Z -> Z.

Definition sessionEnd (startAt : Z) : Z := startAt + SESSION_MIN * 60 * 1000.

(** [createBookingSchema.safeParse(req.body).success]: the shape of the
    body.  The length of a string is its number of characters here; zod
    counts UTF-16 code units, the same number for a note in ASCII. *)
Definition createBookingSchema (b : BookingBody) : bool :=
  (1 <=? Z.of_nat (String.length (body_serviceId b)))
  && (match Wire.dateFields (body_date b) with Some _ => true | None => false end)
  && (match Wire.timeFields (body_startTime b) with Some _ => true | None => false end)
  && ((1 <=? body_sessions b) && (body_sessions b <=? 30))
  && match body_note b with
     | Some n => Z.of_nat (String.length n) <=? 500
     | None => true
     end.

(** [parseOsloDateTime(date, time)] on strings of the schema's shape;
    [None] is an invalid [DateTime]. *)
Definition parseOsloDateTime (tsNow : Z) (date time : string)
  : option Luxon.DateTime :=
  match Wire.dateFields date, Wire.timeFields time with
  | Some (y, m, d), Some (hh, mm) => Luxon.fromObject offset tsNow y m d hh mm
  | _, _ => None
  end.

Definition isAlignedToStep (dt : Luxon.DateTime) : bool :=
  let dayStart := Luxon.set offset dt DAY_START in
  let diffMin := Luxon.roundedDiffMinutes dt dayStart in
  (0 <=? diffMin) && (Z.rem diffMin STEP_MIN =? 0).

Definition validateWithinBusinessHours (start : Luxon.DateTime) (sessions : Z)
  : HoursCheck :=
  let dayStart := Luxon.set offset start DAY_START in
  let dayEnd := Luxon.set offset start DAY_END in
  if Luxon.ltb start dayStart then HoursFail MsgBeforeOpening
  else
    let lastStart := Luxon.plusMinutes offset start ((sessions - 1) * STEP_MIN) in
    let lastEnd := Luxon.plusMinutes offset lastStart SESSION_MIN in
    if Luxon.gtb lastEnd dayEnd then HoursFail MsgExceedsClosing
    else HoursOk.

(** The loop [for (let i = 0; i < sessions; i++)]. *)
Definition buildSessionStartsUtc (startOslo : Luxon.DateTime) (sessions : Z)
  : list Z :=
  map (fun i => Luxon.toJSDate
                  (Luxon.plusMinutes offset startOslo (Z.of_nat i * STEP_MIN)))
      (seq 0 (Z.to_nat sessions)).

Definition isSessionCoveredBySlots (startAt endAt : Z)
           (slots : list AvailabilitySlot) : bool :=
  existsb (fun s => (slot_startAt s <=? startAt) && (endAt <=? slot_endAt s))
          slots.

(** *** GET /bookings/availability *)

(** The loop [for (let t = dayStartOslo; t < dayEndOslo; t = t.plus({
    minutes: STEP_MIN }))], with the pushes onto [times] in order.  [None]
    when [fuel] iterations did not reach the end of the loop. *)
Fixpoint gridWalk (fuel : nat) (t dayEndOslo : Luxon.DateTime)
         (slots : list AvailabilitySlot) (bookedSet : list Z)
  : option (list string) :=
  match fuel with
  | O => None
  | S fuel' =>
      if Luxon.ltb t dayEndOslo then
        let startUtc := Luxon.toJSDate t in
        let endUtc := startUtc + SESSION_MIN * 60 * 1000 in
        let covered :=
          existsb (fun s => (slot_startAt s <=? startUtc)
                            && (endUtc <=? slot_endAt s)) slots in
        let rest :=
          gridWalk fuel' (Luxon.plusMinutes offset t STEP_MIN) dayEndOslo
                   slots bookedSet in
        if negb covered then rest
        else if Prisma.inDates startUtc bookedSet then rest
        else option_map (cons (Luxon.toFormatHHmm t)) rest
      else Some []
  end.

(** Iterations that suffice for the walk from [a] to [b]: every
    iteration moves [t] forward by [STEP_MIN] minutes. *)
Definition walkFuel (a b : Luxon.DateTime) : nat :=
  S (S (Z.to_nat ((Luxon.ts b - Luxon.ts a) / (STEP_MIN * Luxon.MS_PER_MINUTE)))).

Definition getAvailability (tsNow : Z) (db : Db) (serviceId date : string)
  : AvailabilityResponse :=
  if (String.length serviceId =? 0)%nat then Avail400ServiceId
  else
    match Wire.dateFields date with
    | None => Avail400Date
    | Some (y, m, d) =>
        match Prisma.serviceFindUnique db serviceId with
        | None => Avail404
        | Some service =>
            if negb (isActive service) then Avail404
            else if negb (durationMin service =? SESSION_MIN) then Avail400Duration
            else
              match Luxon.fromObject offset tsNow y m d (hour DAY_START) (minute DAY_START),
                    Luxon.fromObject offset tsNow y m d (hour DAY_END) (minute DAY_END)
              with
              | Some dayStartOslo, Some dayEndOslo =>
                  let dayStartUtc := Luxon.toJSDate dayStartOslo in
                  let dayEndUtc := Luxon.toJSDate dayEndOslo in
                  let slots :=
                    Prisma.slotsOverlapping db serviceId dayEndUtc dayStartUtc in
                  let bookedSet :=
                    Prisma.bookedStarts db serviceId dayStartUtc dayEndUtc in
                  match gridWalk (walkFuel dayStartOslo dayEndOslo)
                                 dayStartOslo dayEndOslo slots bookedSet with
                  | Some times => Avail200 times
                  | None => AvailNoResponse
                  end
              | _, _ =>
                  (* an invalid Date reaches the queries, which reject *)
                  AvailNoResponse
              end
        end
    end.

(** *** POST /bookings *)

(** The rows given to [createMany]. *)
Definition newRows (userId serviceId : string) (note : option string)
           (startsUtc : list Z) : list Booking :=
  map (fun startAt =>
         {| id := O; userId := userId; serviceId := serviceId;
            startAt := startAt; endAt := sessionEnd startAt;
            status := CONFIRMED; note := note |})
      startsUtc.

(** The first statement of the transaction: the conflict query. *)
Definition txCheck (bs : list Booking) (serviceId : string)
           (startsUtc : list Z) : list Booking :=
  Prisma.findConflicts bs serviceId startsUtc.

(** The rest of the transaction, run when there is no conflict:
    [createMany], then the query for the rows to return.  The table after
    the insert and the callback's result. *)
Definition txInsert (bs : list Booking) (userId serviceId : string)
           (note : option string) (startsUtc : list Z)
  : list Booking * TxResult :=
  let rows := newRows userId serviceId note startsUtc in
  let bs' := Prisma.createMany bs rows in
  (bs', TxCreated (List.length rows)
                  (Prisma.findByUserAndStarts bs' userId serviceId startsUtc)).

(** [prisma.$transaction(async (tx) => ...)] with no other transaction
    running.  [insertFault] is the exception the storage layer throws
    during [createMany], if any; a thrown exception rolls the transaction
    back and is the [inl] result.  The queries of the transaction (the
    conflict query and the query for the created rows) are taken to answer:
    an exception thrown by one of them is caught by the same handler,
    answered 500 with nothing stored, and is not represented here. *)
Definition transaction (insertFault : option StorageError)
           (bs : list Booking) (userId serviceId : string)
           (note : option string) (startsUtc : list Z)
  : list Booking * (StorageError + TxResult) :=
  let conflicts := txCheck bs serviceId startsUtc in
  if (0 <? List.length conflicts)%nat then (bs, inr (TxConflicts conflicts))
  else
    match insertFault with
    | Some e => (bs, inl e)
    | None =>
        let (bs', r) := txInsert bs userId serviceId note startsUtc in
        (bs', inr r)
    end.

(** The handler of [POST /bookings] up to the transaction (its steps 1 to
    5.1), after [requireAuth]: [user] is [req.user?.userId], [tsNow] the
    reading of the clock.  Either the response of the step that rejects
    the request, or the transaction to run. *)
Definition validateRequest (tsNow : Z) (db : Db) (user : option string)
           (body : BookingBody) : PostResponse + Tx :=
  if negb (createBookingSchema body) then inl Post400Schema
  else
    match user with
    | None => inl Post401
    | Some userId =>
        let serviceId := body_serviceId body in
        let sessions := body_sessions body in
        match parseOsloDateTime tsNow (body_date body) (body_startTime body) with
        | None => inl (Post400 MsgInvalidDate)
        | Some startOslo =>
            if negb (isAlignedToStep startOslo) then inl (Post400 MsgNotAligned)
            else
              match validateWithinBusinessHours startOslo sessions with
              | HoursFail message => inl (Post400 message)
              | HoursOk =>
                  if Luxon.ltb startOslo (Luxon.nowIn offset tsNow)
                  then inl (Post400 MsgInThePast)
                  else
                    match Prisma.serviceFindUnique db serviceId with
                    | None => inl Post404
                    | Some service =>
                        if negb (isActive service) then inl Post404
                        else if negb (durationMin service =? SESSION_MIN)
                        then inl (Post400 MsgDuration)
                        else
                          let startsUtc := buildSessionStartsUtc startOslo sessions in
                          let firstStartUtc := hd 0 startsUtc in
                          let lastStartUtc := last startsUtc 0 in
                          let lastEndUtc := sessionEnd lastStartUtc in
                          let candidateSlots :=
                            Prisma.slotsOverlapping db serviceId lastEndUtc firstStartUtc in
                          if negb (forallb (fun startAt =>
                                              isSessionCoveredBySlots
                                                startAt (sessionEnd startAt) candidateSlots)
                                           startsUtc)
                          then inl (Post400 MsgNotWithinAvailability)
                          else
                            inr {| tx_userId := userId; tx_serviceId := serviceId;
                                   tx_note := body_note body;
                                   tx_startsUtc := startsUtc;
                                   tx_phase := BeforeCheck |}
                    end
              end
        end
    end.

(** The handler of [POST /bookings] when no other request is running: the
    response and the database afterwards. *)
Definition postBookings (tsNow : Z) (insertFault : option StorageError)
           (db : Db) (user : option string) (body : BookingBody)
  : PostResponse * Db :=
  match validateRequest tsNow db user body with
  | inl response => (response, db)
  | inr t =>
      match transaction insertFault (bookings db) (tx_userId t) (tx_serviceId t)
                        (tx_note t) (tx_startsUtc t) with
      | (_, inl _) => (Post500, db)
      | (_, inr (TxConflicts conflicts)) =>
          (Post409 (map conflictView conflicts), db)
      | (bs', inr (TxCreated count created)) =>
          (Post201 count (map bookingView created), withBookings db bs')
      end
  end.

End Router.

(** ** Concurrent requests

    Requests run concurrently and interleave at every [await].  The
    transaction of [POST /bookings] is opened without an isolation level, so
    PostgreSQL runs it at READ COMMITTED: its conflict query reads the
    committed table, and its rows become visible to the other transactions
    when it commits.  (Rows written but not yet committed are invisible to
    every other transaction, so the insert is placed at the commit.) *)

(** The next statement of a running transaction, on the committed table:
    the table afterwards and the transaction's new state. *)
Definition stepTx (bs : list Booking) (t : Tx) : list Booking * Tx :=
  match tx_phase t with
  | BeforeCheck =>
      if (0 <? List.length (txCheck bs (tx_serviceId t) (tx_startsUtc t)))%nat
      then (bs, atPhase t Finished)
      else (bs, atPhase t AfterCheck)
  | AfterCheck =>
      (fst (txInsert bs (tx_userId t) (tx_serviceId t) (tx_note t) (tx_startsUtc t)),
       atPhase t Finished)
  | Finished => (bs, t)
  end.

Fixpoint replaceNth {A : Type} (n : nat) (x : A) (l : list A) : list A :=
  match l, n with
  | [], _ => []
  | _ :: l', O => x :: l'
  | y :: l', S n' => y :: replaceNth n' x l'
  end.

(** The committed table and the running transactions, after the
    transaction numbered [i] runs one statement. *)
Definition stepPool (i : nat) (s : list Booking * list Tx) : list Booking * list Tx :=
  match nth_error (snd s) i with
  | Some t => let (bs', t') := stepTx (fst s) t in (bs', replaceNth i t' (snd s))
  | None => s
  end.

(** A schedule: which transaction runs its next statement, in order. *)
Definition runSchedule (schedule : list nat) (s : list Booking * list Tx)
  : list Booking * list Tx :=
  fold_left (fun s i => stepPool i s) schedule s.

(** ** Zones that change offset at 01:00 UTC

    Europe/Oslo follows the European rule (in the time zone database, since
    1980): the offset is one or two hours, and it changes only at 01:00 UTC.
    So between 01:00 UTC of one day and 01:00 UTC of the next the offset is
    constant.  The properties that depend on the zone are proved for every
    zone of this kind. *)

Definition EuropeanZone (offset : Z -> Z) : Prop :=
  (forall t, 60 <= offset t <= 120)
  /\ (forall u t,
         u * Luxon.MS_PER_DAY + Luxon.MS_PER_HOUR <= t
           < (u + 1) * Luxon.MS_PER_DAY + Luxon.MS_PER_HOUR ->
         offset t = offset (u * Luxon.MS_PER_DAY + Luxon.MS_PER_HOUR)).

(** The offset in force on day [D] from 01:00 UTC on. *)
Definition dayOffset (offset : Z -> Z) (D : Z) : Z :=
  offset (D * Luxon.MS_PER_DAY + Luxon.MS_PER_HOUR).

(** The [DateTime] of minute [M] of local day [D], for a daytime minute. *)
Definition atMinute (offset : Z -> Z) (D M : Z) : Luxon.DateTime :=
  {| Luxon.ts := (D * 1440 + M - dayOffset offset D) * Luxon.MS_PER_MINUTE;
     Luxon.o := dayOffset offset D |}.

(** Minute of the day of the constants [DAY_START] and [DAY_END]. *)
Definition minuteOfDay (hm : HourMinute) : Z := hour hm * 60 + minute hm.

(** A [DateTime] on local day [D] at the whole minute [M]. *)
Definition onDay (dt : Luxon.DateTime) (D M : Z) : Prop :=
  Luxon.localTS dt = (D * 1440 + M) * 60000
  /\ 0 <= M < 1440 /\ 60 <= Luxon.o dt <= 120.

(** A [DateTime] whose offset is the zone's offset at its timestamp. *)
Definition consistent (offset : Z -> Z) (dt : Luxon.DateTime) : Prop :=
  Luxon.o dt = offset (Luxon.ts dt).

(** ** The grid of the availability computation *)

(** The grid of candidate start times, as minutes of the day: from
    [DAY_START], every [STEP_MIN] minutes, before [DAY_END]. *)
Definition gridMinute (k : nat) : Z :=
  minuteOfDay DAY_START + STEP_MIN * Z.of_nat k.

Definition gridSize : nat := 21.

Definition gridMinutes : list Z := map gridMinute (seq 0 gridSize).

(** The time-of-day string of a minute of the day. *)
Definition formatMinute (M : Z) : string := Wire.formatHHmm (M / 60) (M mod 60).

(** The instant of minute [M] of local day [D]. *)
Definition instantOf (offset : Z -> Z) (D M : Z) : Z :=
  Luxon.ts (atMinute offset D M).

(** A calendar date Luxon accepts. *)
Definition validDate (y m d : Z) : bool :=
  ((1 <=? m) && (m <=? 12)) && ((1 <=? d) && (d <=? Luxon.daysInMonth y m)).

(** A candidate is offered when some window contains its session and its
    start instant is not booked. *)
Definition offered (windows : list AvailabilitySlot) (booked : list Z)
           (startUtc : Z) : bool :=
  isSessionCoveredBySlots startUtc (sessionEnd startUtc) windows
  && negb (Prisma.inDates startUtc booked).

(** ** The bookings and their invariant *)

(** The rows a commit inserts, as they are stored. *)
Definition insertedRows (bs : list Booking) (uid sid : string)
           (nt : option string) (starts : list Z) : list Booking :=
  Prisma.withIds (Prisma.nextId bs) (newRows uid sid nt starts).

Definition slotKey (b : Booking) : string * Z := (serviceId b, startAt b).

Definition liveBookings (bs : list Booking) : list Booking :=
  filter (fun b => negb (isCancelled (status b))) bs.

(** Among the bookings that are not cancelled, (service, start instant) is
    unique. *)
Definition noDoubleBooking (bs : list Booking) : Prop :=
  NoDup (map slotKey (liveBookings bs)).

(** Modelled from the spec: the cancellation path, which is not under src/
    ("transitions to CANCELLED by an out-of-scope cancellation path; never
    physically deleted"): the booking with the given [id] becomes
    CANCELLED. *)
Definition cancelBooking (bid : nat) (bs : list Booking) : list Booking :=
  map (fun b =>
         if Nat.eqb (id b) bid
         then {| id := id b; userId := userId b; serviceId := serviceId b;
                 startAt := startAt b; endAt := endAt b; status := CANCELLED;
                 note := note b |}
         else b)
      bs.

(** The databases reached when requests are handled one after another:
    from no bookings, by [POST /bookings], by cancellations, and by the
    administrator's changes to services and windows. *)
Inductive reachable (offset : Z -> Z) : Db -> Prop :=
| reach_empty : forall svcs wins,
    reachable offset {| services := svcs; slots := wins; bookings := [] |}
| reach_post : forall db tsNow fault user body,
    reachable offset db ->
    reachable offset (snd (postBookings offset tsNow fault db user body))
| reach_cancel : forall db bid,
    reachable offset db ->
    reachable offset (withBookings db (cancelBooking bid (bookings db)))
| reach_admin : forall db svcs wins,
    reachable offset db ->
    reachable offset {| services := svcs; slots := wins; bookings := bookings db |}.

(** The time of day an instant shows on the wire: [res.json] writes a [Date]
    with [toJSON], the ISO string in UTC. *)
Definition utcTimeOfDay (t : Z) : string :=
  Wire.formatHHmm ((t / Luxon.MS_PER_HOUR) mod 24) ((t / Luxon.MS_PER_MINUTE) mod 60).

(** The local time of day of an instant in the zone. *)
Definition localTimeOfDay (offset : Z -> Z) (t : Z) : string :=
  Luxon.toFormatHHmm (Luxon.nowIn offset t).

(** ** Requests *)

Definition noteAccepted (nt : option string) : Prop :=
  match nt with
  | Some n => Z.of_nat (String.length n) <= 500
  | None => True
  end.

Definition bodyFor (sid date time : string) (sessions : Z) (nt : option string)
  : BookingBody :=
  {| body_serviceId := sid; body_date := date; body_startTime := time;
     body_sessions := sessions; body_note := nt |}.

(** ** The order of the validation steps

    The validation pipeline in the order the specification lists it
    (Booking Committer, steps 1 to 7): each step is a check of its own on
    the request, and the request is rejected with the error of the first
    step that fails.  Each step is the check the handler makes at that
    place; for step 1 this is Luxon's [isValid], which is about the
    calendar fields alone. *)

Inductive HoursReason : Type := BeforeOpening | ExceedsClosing.

Inductive Rejection : Type :=
| InvalidInput
| NotOnGrid
| OutsideBusinessHours (reason : HoursReason)
| InThePast
| ServiceUnavailable
| NotWithinAvailability.

(** The rejection a response of the handler stands for. *)
Definition rejectionOf (r : PostResponse) : option Rejection :=
  match r with
  | Post400 MsgInvalidDate => Some InvalidInput
  | Post400 MsgNotAligned => Some NotOnGrid
  | Post400 MsgBeforeOpening => Some (OutsideBusinessHours BeforeOpening)
  | Post400 MsgExceedsClosing => Some (OutsideBusinessHours ExceedsClosing)
  | Post400 MsgInThePast => Some InThePast
  | Post404 => Some ServiceUnavailable
  | Post400 MsgDuration => Some ServiceUnavailable
  | Post400 MsgNotWithinAvailability => Some NotWithinAvailability
  | _ => None
  end.

(** Modelled from the spec: a local date-time that does not exist in the
    zone ("nonexistent civil time", which step 1 is to reject as
    InvalidInput): no instant has these calendar fields as its local time. *)
Definition nonexistentLocalTime (offset : Z -> Z) (y m d hh mm : Z) : Prop :=
  ~ exists t, t + offset t * Luxon.MS_PER_MINUTE = Luxon.objToLocalTS y m d hh mm.

Section Pipeline.

Variable offset : Z -> Z.
Variables (tsNow : Z) (db : Db) (body : BookingBody).

(** The steps of the pipeline, each on its own: [Some] rejection when the
    request fails the step.  A step that needs the local start time does
    not apply to a request without one. *)
Definition onStart (check : Luxon.DateTime -> option Rejection) : option Rejection :=
  match parseOsloDateTime offset tsNow (body_date body) (body_startTime body) with
  | Some start => check start
  | None => None
  end.

(** Step 1 as the handler has it: [!start.isValid]. *)
Definition stepParse : option Rejection :=
  match parseOsloDateTime offset tsNow (body_date body) (body_startTime body) with
  | Some _ => None
  | None => Some InvalidInput
  end.

Definition stepGrid : option Rejection :=
  onStart (fun start => if isAlignedToStep offset start then None else Some NotOnGrid).

Definition stepHours : option Rejection :=
  onStart (fun start =>
             match validateWithinBusinessHours offset start (body_sessions body) with
             | HoursOk => None
             | HoursFail MsgBeforeOpening => Some (OutsideBusinessHours BeforeOpening)
             | HoursFail _ => Some (OutsideBusinessHours ExceedsClosing)
             end).

Definition stepPast : option Rejection :=
  onStart (fun start => if Luxon.toJSDate start <? tsNow then Some InThePast else None).

Definition stepService : option Rejection :=
  match Prisma.serviceFindUnique db (body_serviceId body) with
  | Some service =>
      if isActive service && (durationMin service =? SESSION_MIN) then None
      else Some ServiceUnavailable
  | None => Some ServiceUnavailable
  end.

Definition stepAvailability : option Rejection :=
  onStart (fun start =>
             let startsUtc := buildSessionStartsUtc offset start (body_sessions body) in
             let windows :=
               Prisma.slotsOverlapping db (body_serviceId body)
                                       (sessionEnd (last startsUtc 0)) (hd 0 startsUtc) in
             if forallb (fun s => isSessionCoveredBySlots s (sessionEnd s) windows)
                        startsUtc
             then None else Some NotWithinAvailability).

(** The rejection of the first step that fails, in the given order. *)
Fixpoint firstFailure (steps : list (option Rejection)) : option Rejection :=
  match steps with
  | [] => None
  | Some r :: _ => Some r
  | None :: steps' => firstFailure steps'
  end.

Definition pipeline : list (option Rejection) :=
  [stepParse; stepGrid; stepHours; stepPast; stepService; stepAvailability].

End Pipeline.

(** ** Concrete data for the runs

    The seeded service, one window 09:00-12:00 (Oslo) on 2026-01-15, which is
    08:00Z-11:00Z, and two readings of the clock: 2026-01-09T23:06:40Z and
    2026-01-21T12:53:20Z. *)

Definition demoService : Service :=
  {| service_id := "singing-15"; isActive := true; durationMin := 15 |}.

Definition demoWindow : AvailabilitySlot :=
  {| slot_serviceId := "singing-15";
     slot_startAt := 1768464000000; slot_endAt := 1768474800000 |}.

Definition demoDb : Db :=
  {| services := [demoService]; slots := [demoWindow]; bookings := [] |}.

Definition demoBody (time : string) (sessions : Z) : BookingBody :=
  {| body_serviceId := "singing-15"; body_date := "2026-01-15";
     body_startTime := time; body_sessions := sessions; body_note := None |}.

Definition clockBefore : Z := 1768000000000.
Definition clockAfter : Z := 1769000000000.

(** A booking of user u1 at 11:00 (10:00Z) on 2026-01-15. *)
Definition bookingAt11 (st : BookingStatus) : Booking :=
  {| id := 1; userId := "u1"; serviceId := "singing-15";
     startAt := 1768471200000; endAt := 1768472100000; status := st;
     note := None |}.

(** The demonstration database with three bookings on 2026-01-15: a
    confirmed one at 11:00, a cancelled one at 09:20 (08:20Z) and a
    confirmed one of another service at 10:00 (09:00Z). *)
Definition demoBookedDb : Db :=
  withBookings demoDb
    [ bookingAt11 CONFIRMED;
      {| id := 2; userId := "u2"; serviceId := "singing-15";
         startAt := 1768465200000; endAt := 1768466100000; status := CANCELLED;
         note := None |};
      {| id := 3; userId := "u2"; serviceId := "piano-15";
         startAt := 1768467600000; endAt := 1768468500000; status := CONFIRMED;
         note := None |} ].

(** A database with a second service, "piano-15", open 10:00-11:00 (Oslo) on
    2026-01-15, beside the seeded one. *)
Definition pianoService : Service :=
  {| service_id := "piano-15"; isActive := true; durationMin := 15 |}.

Definition pianoWindow : AvailabilitySlot :=
  {| slot_serviceId := "piano-15";
     slot_startAt := 1768467600000; slot_endAt := 1768471200000 |}.

Definition demoTwoServicesDb : Db :=
  {| services := [demoService; pianoService];
     slots := [demoWindow; pianoWindow];
     bookings := [] |}.

(** ** The authentication middleware (middleware.ts) *)

Inductive Role : Type := ADMIN | USER.

Definition roleEqb (a b : Role) : bool :=
  match a, b with
  | ADMIN, ADMIN => true
  | USER, USER => true
  | _, _ => false
  end.

(** The payload of the access token ([AuthUser]). *)
Record AuthUser : Type := { auth_userId : string; auth_role : Role }.

(** What a middleware does with a request: call [next()] (with [req.user]
    as it then is) or answer. *)
Inductive Guard : Type :=
| GuardNext (user : AuthUser)
| Guard401NotAuthenticated      (* 401 "Not authenticated" *)
| Guard401InvalidToken          (* 401 "Invalid or expired token" *)
| Guard403Forbidden.            (* 403 "Forbidden" *)

Section Middleware.

(** [jwt.verify(token, process.env.JWT_ACCESS_SECRET)]: the payload, or
    [None] when it throws. *)
Variable verify : string -> option AuthUser.

(** [requireAuth]; [access_token] is [req.cookies?.access_token].  An empty
    string is falsy, like a missing cookie. *)
Definition requireAuth (access_token : option string) : Guard :=
  match access_token with
  | None => Guard401NotAuthenticated
  | Some token =>
      if (String.length token =? 0)%nat then Guard401NotAuthenticated
      else
        match verify token with
        | Some payload => GuardNext payload
        | None => Guard401InvalidToken
        end
  end.

(** [requireRole(role)]; [user] is [req.user]. *)
Definition requireRole (role : Role) (user : option AuthUser) : Guard :=
  match user with
  | None => Guard401NotAuthenticated
  | Some u => if roleEqb (auth_role u) role then GuardNext u else Guard403Forbidden
  end.

(** The chain [requireAuth, requireRole("ADMIN")] of the admin routes. *)
Definition adminGuard (access_token : option string) : Guard :=
  match requireAuth access_token with
  | GuardNext u => requireRole ADMIN (Some u)
  | answer => answer
  end.

End Middleware.

(** [req.user?.userId] as the handler of [POST /bookings] tests it: an empty
    string is falsy, like [undefined]. *)
Definition reqUserId (user : AuthUser) : option string :=
  if (String.length (auth_userId user) =? 0)%nat then None
  else Some (auth_userId user).

(** The response of a route behind [requireAuth]. *)
Inductive RouteResponse (A : Type) : Type :=
| Handled (response : A)
| Refused (answer : Guard).

Arguments Handled {A} response.
Arguments Refused {A} answer.

(** The route [router.post("/", requireAuth, handler)] of the booking
    router. *)
Definition postBookingsRoute (verify : string -> option AuthUser)
           (offset : Z -> Z) (tsNow : Z) (insertFault : option StorageError)
           (db : Db) (access_token : option string) (body : BookingBody)
  : RouteResponse PostResponse * Db :=
  match requireAuth verify access_token with
  | GuardNext user =>
      let (response, db') :=
        postBookings offset tsNow insertFault db (reqUserId user) body in
      (Handled response, db')
  | answer => (Refused answer, db)
  end.

(** ** The admin router (admin.ts) *)

(** The body of [POST /admin/services] as received.  A missing field is
    [None]. *)
Record ServiceBody : Type :=
  { serviceBody_name : string;
    serviceBody_description : option string;
    serviceBody_durationMin : option Z;
    serviceBody_isActive : option bool }.

(** The body of [POST /admin/slots].  [startAt] and [endAt] are the
    [new Date(...)] of the strings received, [None] for a string that
    [z.string().datetime()] rejects. *)
Record SlotBody : Type :=
  { slotBody_serviceId : string;
    slotBody_startAt : option Z;
    slotBody_endAt : option Z }.

Inductive AdminServiceResponse : Type :=
| Service400                      (* 400 { errors } *)
| Service201 (service : Service). (* 201, the created service *)

Inductive AdminSlotResponse : Type :=
| Slot400Schema                   (* 400 { errors } *)
| Slot400Order                    (* 400 "startAt must be before endAt" *)
| Slot404                         (* 404 "Service not found" *)
| Slot201 (slot : AvailabilitySlot). (* 201, the created slot *)

(** [createServiceSchema.safeParse(req.body).success] of admin.ts. *)
Definition createServiceSchema (b : ServiceBody) : bool :=
  (1 <=? Z.of_nat (String.length (serviceBody_name b)))
  && match serviceBody_description b with
     | Some d => Z.of_nat (String.length d) <=? 500
     | None => true
     end
  && match serviceBody_durationMin b with
     | Some n => 0 <? n
     | None => true
     end.

(** The handler of [POST /admin/services].  [newId] is the identifier the
    storage layer generates for the row.  The name and the description are
    stored too; no code of the booking flow reads them. *)
Definition postAdminServices (newId : string) (db : Db) (b : ServiceBody)
  : AdminServiceResponse * Db :=
  if negb (createServiceSchema b) then (Service400, db)
  else
    let service :=
      {| service_id := newId;
         isActive := match serviceBody_isActive b with Some a => a | None => true end;
         durationMin := match serviceBody_durationMin b with Some n => n | None => 60 end |} in
    (Service201 service,
     {| services := services db ++ [service]; slots := slots db;
        bookings := bookings db |}).

(** The handler of [POST /admin/slots]. *)
Definition postAdminSlots (db : Db) (b : SlotBody) : AdminSlotResponse * Db :=
  match slotBody_startAt b, slotBody_endAt b with
  | Some startDate, Some endDate =>
      if negb (1 <=? Z.of_nat (String.length (slotBody_serviceId b)))
      then (Slot400Schema, db)
      else if negb (startDate <? endDate) then (Slot400Order, db)
      else
        match Prisma.serviceFindUnique db (slotBody_serviceId b) with
        | None => (Slot404, db)
        | Some _ =>
            let slot := {| slot_serviceId := slotBody_serviceId b;
                           slot_startAt := startDate; slot_endAt := endDate |} in
            (Slot201 slot,
             {| services := services db; slots := slots db ++ [slot];
                bookings := bookings db |})
        end
  | _, _ => (Slot400Schema, db)
  end.

(** The route [router.post("/slots", requireAuth, requireRole("ADMIN"),
    handler)]. *)
Definition postAdminSlotsRoute (verify : string -> option AuthUser)
           (db : Db) (access_token : option string) (b : SlotBody)
  : RouteResponse AdminSlotResponse * Db :=
  match adminGuard verify access_token with
  | GuardNext _ => let (response, db') := postAdminSlots db b in (Handled response, db')
  | answer => (Refused answer, db)
  end.

(** The databases the routes build from one without windows: services and
    windows added by the administrator, bookings by the users. *)
Inductive built (offset : Z -> Z) : Db -> Prop :=
| built_start : forall svcs bs,
    built offset {| services := svcs; slots := []; bookings := bs |}
| built_service : forall db newId b,
    built offset db -> built offset (snd (postAdminServices newId db b))
| built_slot : forall db b,
    built offset db -> built offset (snd (postAdminSlots db b))
| built_booking : forall db tsNow fault user body,
    built offset db ->
    built offset (snd (postBookings offset tsNow fault db user body)).

(** The windows of a database: each starts before it ends and belongs to a
    service of the database. *)
Definition windowsWellFormed (db : Db) : Prop :=
  Forall (fun w => slot_startAt w < slot_endAt w
                   /\ Prisma.serviceFindUnique db (slot_serviceId w) <> None)
         (slots db).

(** ** The earlier booking handler

    The earlier version of bookings.ts: the same handler without the step
    5.1, the check of the sessions against the administrator's windows. *)

Definition validateRequestV1 (offset : Z -> Z) (tsNow : Z) (db : Db)
           (user : option string) (body : BookingBody) : PostResponse + Tx :=
  if negb (createBookingSchema body) then inl Post400Schema
  else
    match user with
    | None => inl Post401
    | Some userId =>
        let serviceId := body_serviceId body in
        let sessions := body_sessions body in
        match parseOsloDateTime offset tsNow (body_date body) (body_startTime body) with
        | None => inl (Post400 MsgInvalidDate)
        | Some startOslo =>
            if negb (isAlignedToStep offset startOslo) then inl (Post400 MsgNotAligned)
            else
              match validateWithinBusinessHours offset startOslo sessions with
              | HoursFail message => inl (Post400 message)
              | HoursOk =>
                  if Luxon.ltb startOslo (Luxon.nowIn offset tsNow)
                  then inl (Post400 MsgInThePast)
                  else
                    match Prisma.serviceFindUnique db serviceId with
                    | None => inl Post404
                    | Some service =>
                        if negb (isActive service) then inl Post404
                        else if negb (durationMin service =? SESSION_MIN)
                        then inl (Post400 MsgDuration)
                        else
                          inr {| tx_userId := userId; tx_serviceId := serviceId;
                                 tx_note := body_note body;
                                 tx_startsUtc :=
                                   buildSessionStartsUtc offset startOslo sessions;
                                 tx_phase := BeforeCheck |}
                    end
              end
        end
    end.

Definition postBookingsV1 (offset : Z -> Z) (tsNow : Z)
           (insertFault : option StorageError) (db : Db) (user : option string)
           (body : BookingBody) : PostResponse * Db :=
  match validateRequestV1 offset tsNow db user body with
  | inl response => (response, db)
  | inr t =>
      match transaction insertFault (bookings db) (tx_userId t) (tx_serviceId t)
                        (tx_note t) (tx_startsUtc t) with
      | (_, inl _) => (Post500, db)
      | (_, inr (TxConflicts conflicts)) =>
          (Post409 (map conflictView conflicts), db)
      | (bs', inr (TxCreated count created)) =>
          (Post201 count (map bookingView created), withBookings db bs')
      end
  end.

(** The session minutes of a request for [sessions] sessions from minute
    [M] of the day. *)
Definition sessionMinutes (M sessions : Z) : list Z :=
  map (fun i => M + STEP_MIN * Z.of_nat i) (seq 0 (Z.to_nat sessions)).

(** Is a time string one of the given ones? *)
Definition inTimes (time : string) (times : list string) : bool :=
  existsb (String.eqb time) times.

(** * Proofs *)

Ltac unfold_ms :=
  unfold Luxon.MS_PER_DAY, Luxon.MS_PER_HOUR, Luxon.MS_PER_MINUTE in *.

Ltac unfold_rules :=
  unfold minuteOfDay, STEP_MIN, SESSION_MIN, BUFFER_MIN, DAY_START, DAY_END in *;
  cbn [hour minute] in *.

Lemma oslo2026_european : EuropeanZone oslo2026.
Proof.
  split.
  - intro t. unfold oslo2026.
    destruct ((1774746000000 <=? t) && (t <? 1792890000000)); lia.
  - intros u t. unfold_ms. intro Ht. unfold oslo2026.
    assert (Hlo : (1774746000000 <=? t) = (1774746000000 <=? u * 86400000 + 3600000)).
    { destruct (Z.leb_spec 1774746000000 t), (Z.leb_spec 1774746000000 (u * 86400000 + 3600000));
        try reflexivity; lia. }
    assert (Hhi : (t <? 1792890000000) = (u * 86400000 + 3600000 <? 1792890000000)).
    { destruct (Z.ltb_spec t 1792890000000), (Z.ltb_spec (u * 86400000 + 3600000) 1792890000000);
        try reflexivity; lia. }
    rewrite Hlo, Hhi. reflexivity.
Qed.

(** Luxon accepts a wall-clock time that a change of offset skips and moves
    it forward: 02:30 on 2026-03-29 is 03:30 (UTC+2). *)
Example fromObject_skipped_time :
  option_map (fun dt => (Luxon.ts dt, Luxon.toFormatHHmm dt))
             (Luxon.fromObject oslo2026 0 2026 3 29 2 30)
  = Some (1774747800000, "03:30"%string).
Proof. vm_compute. reflexivity. Qed.

Section ZoneFacts.

Variable offset : Z -> Z.
Hypothesis zone : EuropeanZone offset.

Lemma offset_range : forall t, 60 <= offset t <= 120.
Proof. exact (proj1 zone). Qed.

Lemma dayOffset_range : forall D, 60 <= dayOffset offset D <= 120.
Proof. intro D. apply offset_range. Qed.

Lemma offset_daytime : forall D t,
    D * 86400000 + 3600000 <= t < (D + 1) * 86400000 + 3600000 ->
    offset t = dayOffset offset D.
Proof.
  intros D t Ht. unfold dayOffset. apply (proj2 zone). unfold_ms. exact Ht.
Qed.

(** From 03:00 local time on, a local time has one instant, whatever the
    first guess. *)
Lemma fixOffset_daytime : forall D M o0,
    180 <= M < 1440 -> 60 <= o0 <= 120 ->
    Luxon.fixOffset offset ((D * 1440 + M) * 60000) o0
    = ((D * 1440 + M - dayOffset offset D) * 60000, dayOffset offset D).
Proof.
  intros D M o0 HM Ho.
  pose proof (dayOffset_range D) as Hc.
  unfold Luxon.fixOffset. unfold_ms.
  rewrite (offset_daytime D ((D * 1440 + M) * 60000 - o0 * 60000)) by lia.
  destruct (Z.eqb_spec o0 (dayOffset offset D)) as [-> | Hne].
  - f_equal. lia.
  - replace ((D * 1440 + M) * 60000 - o0 * 60000
             - (dayOffset offset D - o0) * 60000)
      with ((D * 1440 + M - dayOffset offset D) * 60000) by lia.
    rewrite (offset_daytime D) by lia.
    rewrite Z.eqb_refl. reflexivity.
Qed.

(** At any time the instant found is one to two hours before the local
    timestamp, and the local time of the result is the one asked for or up
    to an hour later. *)
Lemma fixOffset_any : forall l o0,
    60 <= o0 <= 120 ->
    exists a b, Luxon.fixOffset offset l o0 = (l - a * 60000, b)
                /\ 60 <= a /\ a <= b /\ b <= 120.
Proof.
  intros l o0 Ho. unfold Luxon.fixOffset. unfold_ms.
  set (o2 := offset (l - o0 * 60000)).
  set (o3 := offset (l - o0 * 60000 - (o2 - o0) * 60000)).
  pose proof (offset_range (l - o0 * 60000)) as H2. fold o2 in H2.
  pose proof (offset_range (l - o0 * 60000 - (o2 - o0) * 60000)) as H3.
  fold o3 in H3.
  destruct (Z.eqb_spec o0 o2).
  - exists o0, o0. repeat split; try lia.
  - destruct (Z.eqb_spec o2 o3).
    + exists o2, o2. repeat split; try lia. f_equal. lia.
    + exists (Z.min o2 o3), (Z.max o2 o3). repeat split; try lia.
Qed.

Lemma ofLocal_daytime : forall D M o0,
    180 <= M < 1440 -> 60 <= o0 <= 120 ->
    Luxon.ofLocal offset ((D * 1440 + M) * 60000) o0 = atMinute offset D M.
Proof.
  intros D M o0 HM Ho. unfold Luxon.ofLocal.
  rewrite fixOffset_daytime by assumption. reflexivity.
Qed.

Lemma atMinute_onDay : forall D M, 0 <= M < 1440 -> onDay (atMinute offset D M) D M.
Proof.
  intros D M HM. pose proof (dayOffset_range D).
  unfold onDay, atMinute, Luxon.localTS; simpl. unfold_ms. lia.
Qed.

Lemma ofLocal_onDay : forall D M o0,
    0 <= M < 180 -> 60 <= o0 <= 120 ->
    exists M', onDay (Luxon.ofLocal offset ((D * 1440 + M) * 60000) o0) D M'
               /\ M' < 240.
Proof.
  intros D M o0 HM Ho. unfold Luxon.ofLocal.
  destruct (fixOffset_any ((D * 1440 + M) * 60000) o0 Ho) as (a & b & E & Ha & Hab & Hb).
  rewrite E. exists (M + (b - a)).
  unfold onDay, Luxon.localTS; simpl. unfold_ms. lia.
Qed.

(** [set] moves to a daytime minute of the same local day. *)
Lemma set_daytime : forall dt D M hm,
    onDay dt D M -> 180 <= minuteOfDay hm < 1440 ->
    Luxon.set offset dt hm = atMinute offset D (minuteOfDay hm).
Proof.
  intros dt D M hm (HL & HM & Ho) Hhm. unfold Luxon.set. rewrite HL. unfold_ms.
  replace ((D * 1440 + M) * 60000 / 86400000) with D
    by (apply Z.div_unique with (r := M * 60000); lia).
  replace ((D * 1440 + M) * 60000 mod 60000) with 0
    by (apply Z.mod_unique with (q := D * 1440 + M); lia).
  replace (D * 86400000 + (hour hm * 60 + minute hm) * 60000 + 0)
    with ((D * 1440 + minuteOfDay hm) * 60000) by (unfold minuteOfDay; lia).
  apply ofLocal_daytime; assumption.
Qed.

(** [plus] on a daytime [DateTime] that stays within the day. *)
Lemma plusMinutes_daytime : forall D M n,
    180 <= M < 1440 -> 180 <= M + n < 1440 ->
    Luxon.plusMinutes offset (atMinute offset D M) n = atMinute offset D (M + n).
Proof.
  intros D M n HM HMn. pose proof (dayOffset_range D) as Hc.
  unfold Luxon.plusMinutes.
  replace (Luxon.localTS (atMinute offset D M)) with ((D * 1440 + M) * 60000)
    by (unfold Luxon.localTS, atMinute; simpl; unfold_ms; lia).
  simpl Luxon.o. rewrite fixOffset_daytime by assumption.
  destruct (Z.eqb_spec n 0) as [-> | Hn].
  - unfold atMinute. unfold_ms. f_equal. f_equal. lia.
  - unfold atMinute. unfold_ms. rewrite (offset_daytime D) by lia.
    f_equal. lia.
Qed.

End ZoneFacts.

(** ** The grid and business-hours checks in wall-clock terms *)

Section Validators.

Variable offset : Z -> Z.
Hypothesis zone : EuropeanZone offset.

Lemma objToLocalTS_minutes : forall y m d hh mm,
    Luxon.objToLocalTS y m d hh mm
    = (Luxon.daysFromCivil y m d * 1440 + (hh * 60 + mm)) * 60000.
Proof. intros. unfold Luxon.objToLocalTS. unfold_ms. lia. Qed.

Lemma validFields_time : forall y m d hh mm,
    Luxon.validFields y m d hh mm = true ->
    0 <= mm <= 59 /\ (0 <= hh <= 23 \/ (hh = 24 /\ mm = 0)).
Proof.
  intros y m d hh mm H. unfold Luxon.validFields in H.
  repeat rewrite andb_true_iff in H. rewrite orb_true_iff in H.
  repeat rewrite andb_true_iff in H. lia.
Qed.

(** A valid local time from 03:00 on is the daytime minute it names. *)
Lemma fromObject_daytime : forall tsNow y m d hh mm,
    Luxon.validFields y m d hh mm = true ->
    hh <= 23 -> 180 <= hh * 60 + mm ->
    Luxon.fromObject offset tsNow y m d hh mm
    = Some (atMinute offset (Luxon.daysFromCivil y m d) (hh * 60 + mm)).
Proof.
  intros tsNow y m d hh mm Hv Hh HM. unfold Luxon.fromObject. rewrite Hv.
  destruct (validFields_time _ _ _ _ _ Hv) as [Hmm _].
  rewrite objToLocalTS_minutes. f_equal.
  apply ofLocal_daytime; [assumption | lia | apply offset_range; assumption].
Qed.

(** A valid local time before 03:00, or 24:00, is a [DateTime] before
    04:00 of some local day. *)
Lemma fromObject_night : forall tsNow y m d hh mm,
    Luxon.validFields y m d hh mm = true ->
    hh * 60 + mm < 180 \/ hh = 24 ->
    exists dt D M, Luxon.fromObject offset tsNow y m d hh mm = Some dt
                   /\ onDay dt D M /\ M < 240.
Proof.
  intros tsNow y m d hh mm Hv HM. unfold Luxon.fromObject. rewrite Hv.
  destruct (validFields_time _ _ _ _ _ Hv) as [Hmm Hhh].
  rewrite objToLocalTS_minutes.
  pose proof (offset_range offset zone tsNow) as Ho.
  destruct Hhh as [Hhh | [-> ->]].
  - destruct (ofLocal_onDay offset zone (Luxon.daysFromCivil y m d) (hh * 60 + mm)
                            (offset tsNow)) as (M' & H1 & H2); try lia.
    eauto 6.
  - replace ((Luxon.daysFromCivil y m d * 1440 + (24 * 60 + 0)) * 60000)
      with (((Luxon.daysFromCivil y m d + 1) * 1440 + 0) * 60000) by lia.
    destruct (ofLocal_onDay offset zone (Luxon.daysFromCivil y m d + 1) 0
                            (offset tsNow)) as (M' & H1 & H2); try lia.
    eauto 6.
Qed.

Lemma roundDiv_minutes : forall k, Luxon.roundDiv (k * 60000) Luxon.MS_PER_MINUTE = k.
Proof.
  intro k. unfold Luxon.roundDiv. unfold_ms. symmetry.
  apply Z.div_unique with (r := 60000); lia.
Qed.

Lemma isAlignedToStep_daytime : forall D M,
    180 <= M < 1440 ->
    isAlignedToStep offset (atMinute offset D M)
    = (480 <=? M) && ((M - 480) mod 20 =? 0).
Proof.
  intros D M HM. unfold isAlignedToStep.
  rewrite (set_daytime offset zone _ D M)
    by (try apply atMinute_onDay; try assumption; unfold minuteOfDay; simpl; lia).
  unfold Luxon.roundedDiffMinutes.
  replace (Luxon.ts (atMinute offset D M)
           - Luxon.ts (atMinute offset D (minuteOfDay DAY_START)))
    with ((M - 480) * 60000)
    by (unfold atMinute, minuteOfDay; simpl; unfold_ms; lia).
  rewrite roundDiv_minutes.
  destruct (Z.leb_spec 480 M) as [Hge | Hlt].
  - replace (0 <=? M - 480) with true by (symmetry; apply Z.leb_le; lia).
    rewrite Z.rem_mod_nonneg by (unfold STEP_MIN, SESSION_MIN, BUFFER_MIN; lia).
    reflexivity.
  - replace (0 <=? M - 480) with false by (symmetry; apply Z.leb_gt; lia).
    reflexivity.
Qed.

Lemma isAlignedToStep_night : forall dt D M,
    onDay dt D M -> M < 240 -> isAlignedToStep offset dt = false.
Proof.
  intros dt D M Hd HM. unfold isAlignedToStep.
  rewrite (set_daytime offset zone dt D M)
    by (try assumption; unfold minuteOfDay; simpl; lia).
  destruct Hd as (HL & HM' & Ho). unfold Luxon.localTS in HL.
  pose proof (dayOffset_range offset zone D) as Hc.
  unfold Luxon.roundedDiffMinutes.
  replace (Luxon.ts dt - Luxon.ts (atMinute offset D (minuteOfDay DAY_START)))
    with ((M - Luxon.o dt - 480 + dayOffset offset D) * 60000)
    by (unfold atMinute, minuteOfDay; simpl; unfold_ms; lia).
  rewrite roundDiv_minutes.
  replace (0 <=? M - Luxon.o dt - 480 + dayOffset offset D) with false
    by (symmetry; apply Z.leb_gt; lia).
  reflexivity.
Qed.

Lemma plusMinutes_consistent : forall dt n,
    consistent offset dt ->
    Luxon.plusMinutes offset dt n
    = {| Luxon.ts := Luxon.ts dt + n * 60000;
         Luxon.o := offset (Luxon.ts dt + n * 60000) |}.
Proof.
  intros [t o0] n Hc. unfold consistent in Hc. simpl in Hc. subst o0.
  unfold Luxon.plusMinutes, Luxon.fixOffset, Luxon.localTS. simpl. unfold_ms.
  replace (t + offset t * 60000 - offset t * 60000) with t by lia.
  rewrite Z.eqb_refl.
  destruct (Z.eqb_spec n 0) as [-> | Hn]; [| reflexivity].
  replace (t + 0 * 60000) with t by lia. reflexivity.
Qed.

Lemma atMinute_consistent : forall D M,
    180 <= M < 1440 -> consistent offset (atMinute offset D M).
Proof.
  intros D M HM. unfold consistent, atMinute. simpl. unfold_ms.
  pose proof (dayOffset_range offset zone D).
  symmetry. apply offset_daytime; [assumption | lia].
Qed.

Lemma validateWithinBusinessHours_daytime : forall D M sessions,
    180 <= M < 1440 ->
    validateWithinBusinessHours offset (atMinute offset D M) sessions
    = if M <? 480 then HoursFail MsgBeforeOpening
      else if 900 <? M + (sessions - 1) * 20 + 15 then HoursFail MsgExceedsClosing
           else HoursOk.
Proof.
  intros D M sessions HM. unfold validateWithinBusinessHours.
  rewrite !(set_daytime offset zone _ D M)
    by (try apply atMinute_onDay; try assumption; unfold minuteOfDay; simpl; lia).
  unfold Luxon.ltb, Luxon.gtb.
  rewrite (plusMinutes_consistent (atMinute offset D M))
    by (apply atMinute_consistent; assumption).
  rewrite plusMinutes_consistent by reflexivity.
  unfold atMinute, minuteOfDay, STEP_MIN, SESSION_MIN, BUFFER_MIN. simpl. unfold_ms.
  destruct (Z.ltb_spec M 480) as [Hlt | Hge].
  - replace (_ <? _) with true by (symmetry; apply Z.ltb_lt; lia). reflexivity.
  - replace ((D * 1440 + M - dayOffset offset D) * 60000
             <? (D * 1440 + 480 - dayOffset offset D) * 60000)
      with false by (symmetry; apply Z.ltb_ge; lia).
    destruct (Z.ltb_spec 900 (M + (sessions - 1) * 20 + 15)).
    + replace (_ <? _) with true by (symmetry; apply Z.ltb_lt; lia). reflexivity.
    + replace (_ <? _) with false by (symmetry; apply Z.ltb_ge; lia). reflexivity.
Qed.

Lemma validateWithinBusinessHours_night : forall dt D M sessions,
    onDay dt D M -> M < 240 ->
    validateWithinBusinessHours offset dt sessions = HoursFail MsgBeforeOpening.
Proof.
  intros dt D M sessions Hd HM. unfold validateWithinBusinessHours.
  rewrite !(set_daytime offset zone dt D M)
    by (try assumption; unfold minuteOfDay; simpl; lia).
  destruct Hd as (HL & HM' & Ho). unfold Luxon.localTS in HL.
  pose proof (dayOffset_range offset zone D) as Hc.
  unfold Luxon.ltb.
  replace (_ <? _) with true
    by (symmetry; apply Z.ltb_lt; unfold atMinute, minuteOfDay; simpl; unfold_ms; lia).
  reflexivity.
Qed.

End Validators.

(** ** The availability computation *)

Lemma gridMinutes_spec : forall M,
    In M gridMinutes
    <-> minuteOfDay DAY_START <= M < minuteOfDay DAY_END
        /\ (M - minuteOfDay DAY_START) mod STEP_MIN = 0.
Proof.
  intro M. unfold gridMinutes, gridMinute, gridSize, minuteOfDay, STEP_MIN,
             SESSION_MIN, BUFFER_MIN. simpl hour. simpl minute.
  rewrite in_map_iff. split.
  - intros (k & <- & Hk). apply in_seq in Hk. split; [lia |].
    replace (8 * 60 + 0 + (15 + 5) * Z.of_nat k - (8 * 60 + 0))
      with (Z.of_nat k * 20) by lia.
    apply Z.mod_mul. lia.
  - intros [HM Hmod]. exists (Z.to_nat ((M - 480) / 20)).
    assert (E : M - 480 = 20 * ((M - 480) / 20)).
    { replace (8 * 60 + 0) with 480 in Hmod by lia.
      replace (15 + 5) with 20 in Hmod by lia.
      pose proof (Z.div_mod (M - 480) 20). lia. }
    split.
    + rewrite Z2Nat.id by lia. lia.
    + apply in_seq. lia.
Qed.

Lemma gridMinutes_sorted : forall k n,
    StronglySorted Z.lt (map gridMinute (seq k n)).
Proof.
  intros k n. revert k. induction n as [| n IH]; intro k; simpl.
  - constructor.
  - constructor; [apply IH |].
    apply Forall_forall. intros M HM. apply in_map_iff in HM.
    destruct HM as (j & <- & Hj). apply in_seq in Hj.
    unfold gridMinute, STEP_MIN, SESSION_MIN, BUFFER_MIN. lia.
Qed.

Lemma filter_sorted : forall (f : Z -> bool) l,
    StronglySorted Z.lt l -> StronglySorted Z.lt (filter f l).
Proof.
  intros f l H. induction H as [| x l Hs IH Hx]; simpl.
  - constructor.
  - destruct (f x); [| exact IH].
    constructor; [exact IH |].
    apply Forall_forall. intros y Hy. apply filter_In in Hy.
    rewrite Forall_forall in Hx. apply Hx. tauto.
Qed.

Section Digits.

Lemma digitValue_digitChar : forall k,
    0 <= k <= 9 -> Wire.digitValue (Wire.digitChar k) = Some k.
Proof.
  intros k Hk.
  assert (E : k = 0 \/ k = 1 \/ k = 2 \/ k = 3 \/ k = 4 \/ k = 5 \/ k = 6
              \/ k = 7 \/ k = 8 \/ k = 9) by lia.
  repeat (destruct E as [-> | E]; [reflexivity |]). subst k. reflexivity.
Qed.

Lemma number2_pad2 : forall n a b,
    0 <= n <= 99 ->
    Wire.pad2 n = String a (String b EmptyString) ->
    Wire.number2 a b = Some n.
Proof.
  intros n a b Hn E. unfold Wire.pad2 in E. injection E as <- <-.
  unfold Wire.number2.
  rewrite !digitValue_digitChar by (Z.div_mod_to_equations; lia).
  f_equal. Z.div_mod_to_equations. lia.
Qed.

(** A formatted time reads back as its hour and minute. *)
Lemma timeFields_formatHHmm : forall hh mm,
    0 <= hh <= 99 -> 0 <= mm <= 99 ->
    Wire.timeFields (Wire.formatHHmm hh mm) = Some (hh, mm).
Proof.
  intros hh mm Hh Hm. unfold Wire.timeFields, Wire.formatHHmm.
  unfold Wire.pad2 at 1 2. simpl.
  rewrite (number2_pad2 hh) by (assumption || reflexivity).
  rewrite (number2_pad2 mm) by (assumption || reflexivity).
  reflexivity.
Qed.

Lemma timeFields_formatMinute : forall M,
    0 <= M < 1440 ->
    Wire.timeFields (formatMinute M) = Some (M / 60, M mod 60).
Proof.
  intros M HM. unfold formatMinute.
  apply timeFields_formatHHmm; Z.div_mod_to_equations; lia.
Qed.

Lemma formatMinute_inj : forall M N,
    0 <= M < 1440 -> 0 <= N < 1440 -> formatMinute M = formatMinute N -> M = N.
Proof.
  intros M N HM HN E.
  pose proof (timeFields_formatMinute M HM) as EM.
  pose proof (timeFields_formatMinute N HN) as EN.
  rewrite E, EN in EM. injection EM as E1 E2.
  Z.div_mod_to_equations. lia.
Qed.

End Digits.

Section Availability.

Variable offset : Z -> Z.
Hypothesis zone : EuropeanZone offset.

Lemma toFormatHHmm_atMinute : forall D M,
    0 <= M < 1440 -> Luxon.toFormatHHmm (atMinute offset D M) = formatMinute M.
Proof.
  intros D M HM. unfold Luxon.toFormatHHmm, formatMinute.
  replace (Luxon.localTS (atMinute offset D M)) with ((D * 1440 + M) * 60000)
    by (unfold Luxon.localTS, atMinute; simpl; unfold_ms; lia).
  unfold_ms.
  replace ((D * 1440 + M) * 60000 / 60000) with (D * 1440 + M)
    by (apply Z.div_unique with (r := 0); lia).
  replace ((D * 1440 + M) * 60000 / 3600000) with (D * 24 + M / 60)
    by (apply Z.div_unique with (r := (M mod 60) * 60000);
        Z.div_mod_to_equations; lia).
  f_equal.
  - symmetry. apply Z.mod_unique with (q := D); Z.div_mod_to_equations; lia.
  - symmetry. apply Z.mod_unique with (q := D * 24 + M / 60);
      Z.div_mod_to_equations; lia.
Qed.

Lemma validDate_validFields : forall y m d hh mm,
    validDate y m d = true -> 0 <= hh <= 23 -> 0 <= mm <= 59 ->
    Luxon.validFields y m d hh mm = true.
Proof.
  intros y m d hh mm Hd Hh Hm. unfold Luxon.validFields.
  unfold validDate in Hd. rewrite Hd. simpl.
  replace (0 <=? hh) with true by (symmetry; apply Z.leb_le; lia).
  replace (hh <=? 23) with true by (symmetry; apply Z.leb_le; lia).
  replace (0 <=? mm) with true by (symmetry; apply Z.leb_le; lia).
  replace (mm <=? 59) with true by (symmetry; apply Z.leb_le; lia).
  reflexivity.
Qed.

(** A grid time read back from its string is the grid minute of that
    date. *)
Lemma parseOsloDateTime_formatMinute : forall tsNow date y m d M,
    Wire.dateFields date = Some (y, m, d) -> validDate y m d = true ->
    180 <= M < 1440 ->
    parseOsloDateTime offset tsNow date (formatMinute M)
    = Some (atMinute offset (Luxon.daysFromCivil y m d) M).
Proof.
  intros tsNow date y m d M Hdate Hv HM. unfold parseOsloDateTime.
  rewrite Hdate, timeFields_formatMinute by lia.
  rewrite (fromObject_daytime offset zone).
  - do 2 f_equal. Z.div_mod_to_equations. lia.
  - apply validDate_validFields; [assumption | |]; Z.div_mod_to_equations; lia.
  - Z.div_mod_to_equations. lia.
  - Z.div_mod_to_equations. lia.
Qed.

Lemma gridMinute_bounds : forall k,
    (k <= gridSize)%nat -> 480 <= gridMinute k <= 900.
Proof.
  intros k Hk. unfold gridSize in Hk. unfold gridMinute. unfold_rules. lia.
Qed.

(** The walk from the [k]-th grid time to [DAY_END] visits the remaining
    grid times in order and keeps the offered ones. *)
Lemma gridWalk_grid : forall D windows booked n k fuel,
    (k + n = gridSize)%nat -> (n < fuel)%nat ->
    gridWalk offset fuel (atMinute offset D (gridMinute k))
             (atMinute offset D (minuteOfDay DAY_END)) windows booked
    = Some (map formatMinute
                (filter (fun M => offered windows booked (instantOf offset D M))
                        (map gridMinute (seq k n)))).
Proof.
  intros D windows booked n. induction n as [| n IH]; intros k fuel Hk Hfuel.
  - destruct fuel as [| fuel]; [lia |]. simpl.
    replace (Luxon.ltb _ _) with false; [reflexivity |].
    symmetry. apply Z.ltb_ge. unfold atMinute. simpl Luxon.ts.
    replace k with gridSize by lia.
    unfold gridMinute, gridSize. unfold_rules. unfold_ms. lia.
  - destruct fuel as [| fuel]; [lia |].
    pose proof (gridMinute_bounds k ltac:(lia)) as Hb.
    assert (Hlt : gridMinute k < 900).
    { unfold gridSize in Hk. unfold gridMinute. unfold_rules. lia. }
    cbn [gridWalk].
    replace (Luxon.ltb _ _) with true
      by (symmetry; apply Z.ltb_lt; unfold atMinute; cbn [Luxon.ts];
          change (minuteOfDay DAY_END) with 900; unfold_ms; lia).
    rewrite (plusMinutes_daytime offset zone)
      by (unfold STEP_MIN, SESSION_MIN, BUFFER_MIN; lia).
    replace (gridMinute k + STEP_MIN) with (gridMinute (S k))
      by (unfold gridMinute; lia).
    rewrite (IH (S k) fuel) by lia.
    rewrite toFormatHHmm_atMinute by lia.
    cbn [seq map filter].
    unfold offered, isSessionCoveredBySlots, sessionEnd, instantOf, Luxon.toJSDate.
    destruct (existsb _ windows); cbn [negb andb]; [| reflexivity].
    destruct (Prisma.inDates _ booked); reflexivity.
Qed.

Lemma walkFuel_dayStart_dayEnd : forall D,
    walkFuel (atMinute offset D (minuteOfDay DAY_START))
             (atMinute offset D (minuteOfDay DAY_END)) = 23%nat.
Proof.
  intro D. unfold walkFuel, atMinute. cbn [Luxon.ts]. unfold_rules. unfold_ms.
  replace ((D * 1440 + (15 * 60 + 0) - dayOffset offset D) * 60000
           - (D * 1440 + (8 * 60 + 0) - dayOffset offset D) * 60000)
    with 25200000 by lia.
  reflexivity.
Qed.

(** The response of [GET /bookings/availability] for an active 15-minute
    service and a calendar date. *)
Lemma getAvailability_grid : forall tsNow db sid date y m d service,
    sid <> EmptyString ->
    Wire.dateFields date = Some (y, m, d) -> validDate y m d = true ->
    Prisma.serviceFindUnique db sid = Some service ->
    isActive service = true -> durationMin service = SESSION_MIN ->
    let D := Luxon.daysFromCivil y m d in
    let dayStartUtc := instantOf offset D (minuteOfDay DAY_START) in
    let dayEndUtc := instantOf offset D (minuteOfDay DAY_END) in
    getAvailability offset tsNow db sid date
    = Avail200
        (map formatMinute
             (filter (fun M =>
                        offered (Prisma.slotsOverlapping db sid dayEndUtc dayStartUtc)
                                (Prisma.bookedStarts db sid dayStartUtc dayEndUtc)
                                (instantOf offset D M))
                     gridMinutes)).
Proof.
  intros tsNow db sid date y m d service Hsid Hdate Hv Hsvc Hact Hdur D s e.
  unfold getAvailability.
  destruct sid as [| c sid']; [congruence |]. cbn [String.length Nat.eqb].
  rewrite Hdate, Hsvc, Hact, Hdur. rewrite Z.eqb_refl. cbn [negb].
  rewrite !(fromObject_daytime offset zone)
    by (try (apply validDate_validFields; try assumption); simpl; lia).
  replace (hour DAY_START * 60 + minute DAY_START) with (minuteOfDay DAY_START)
    by reflexivity.
  replace (hour DAY_END * 60 + minute DAY_END) with (minuteOfDay DAY_END)
    by reflexivity.
  rewrite walkFuel_dayStart_dayEnd.
  replace (minuteOfDay DAY_START) with (gridMinute 0) at 2
    by (unfold gridMinute; lia).
  rewrite (gridWalk_grid _ _ _ gridSize 0 23) by (unfold gridSize; lia).
  reflexivity.
Qed.

End Availability.

(** ** Properties of the validators and of the availability computation *)

Lemma fromObject_valid : forall offset tsNow y m d hh mm dt,
    Luxon.fromObject offset tsNow y m d hh mm = Some dt ->
    Luxon.validFields y m d hh mm = true.
Proof.
  intros offset tsNow y m d hh mm dt H. unfold Luxon.fromObject in H.
  destruct (Luxon.validFields y m d hh mm); [reflexivity | discriminate].
Qed.

(** C4.  For a valid local start time and a number of sessions the request
    schema admits ([1 <= sessions <= 30]), [validateWithinBusinessHours]
    succeeds exactly when the start is at or after 08:00 and the last session
    ends at or before 15:00, that is
    [start + (sessions - 1) * 20 + 15 <= 15:00] in minutes of the day; a
    batch whose last session ends exactly at 15:00 is accepted.  The bound
    keeps every DateTime of the computation inside the range of a JS Date,
    where [Luxon.plusMinutes] is Luxon's [plus]. *)
Theorem validateWithinBusinessHours_iff :
  forall offset, EuropeanZone offset ->
  forall tsNow date time hh mm start sessions,
    Wire.timeFields time = Some (hh, mm) ->
    parseOsloDateTime offset tsNow date time = Some start ->
    1 <= sessions <= 30 ->
    (validateWithinBusinessHours offset start sessions = HoursOk
     <-> minuteOfDay DAY_START <= hh * 60 + mm
         /\ hh * 60 + mm + (sessions - 1) * STEP_MIN + SESSION_MIN
            <= minuteOfDay DAY_END)
    /\ (minuteOfDay DAY_START <= hh * 60 + mm ->
        hh * 60 + mm + (sessions - 1) * STEP_MIN + SESSION_MIN = minuteOfDay DAY_END ->
        validateWithinBusinessHours offset start sessions = HoursOk).
Proof.
  intros offset zone tsNow date time hh mm start sessions Htime Hparse Hs.
  unfold parseOsloDateTime in Hparse. rewrite Htime in Hparse.
  destruct (Wire.dateFields date) as [[[y m] d] |]; [| discriminate].
  pose proof (fromObject_valid _ _ _ _ _ _ _ _ Hparse) as Hv.
  destruct (validFields_time _ _ _ _ _ Hv) as [Hmm Hhh].
  assert (Hcases : (hh <= 23 /\ 180 <= hh * 60 + mm) \/ (hh * 60 + mm < 180 \/ hh = 24))
    by lia.
  destruct Hcases as [[Hh HM] | Hnight].
  - rewrite (fromObject_daytime offset zone) in Hparse by assumption.
    injection Hparse as <-.
    rewrite (validateWithinBusinessHours_daytime offset zone) by lia.
    unfold_rules.
    destruct (Z.ltb_spec (hh * 60 + mm) 480);
      destruct (Z.ltb_spec 900 (hh * 60 + mm + (sessions - 1) * 20 + 15));
      (split; [split; [intro; try discriminate; lia | intro; try reflexivity; lia]
              | intros; try reflexivity; lia]).
  - destruct (fromObject_night offset zone tsNow y m d hh mm Hv Hnight)
      as (dt & D & M & E & Hd & HM).
    rewrite Hparse in E. injection E as <-.
    rewrite (validateWithinBusinessHours_night offset zone start D M) by assumption.
    unfold_rules.
    split; [split; [intro; discriminate | intro; lia] | intros; lia].
Qed.

(** A single session at 14:45 on 2026-01-15 ends at 15:00 and is accepted. *)
Lemma validateWithinBusinessHours_iff_witness :
  exists start,
    parseOsloDateTime oslo2026 0 "2026-01-15" "14:45" = Some start
    /\ validateWithinBusinessHours oslo2026 start 1 = HoursOk.
Proof.
  eexists. split; [reflexivity |].
  apply (proj2 (validateWithinBusinessHours_iff
                  oslo2026 oslo2026_european 0 "2026-01-15" "14:45" 14 45 _ 1
                  eq_refl eq_refl ltac:(lia))); vm_compute; congruence.
Defined.

Lemma sorted_formatMinute_NoDup : forall l,
    StronglySorted Z.lt l -> (forall M, In M l -> 0 <= M < 1440) ->
    NoDup (map formatMinute l).
Proof.
  intros l H. induction H as [| x l Hs IH Hx]; intro Hb; simpl.
  - constructor.
  - constructor.
    + intro Hin. apply in_map_iff in Hin. destruct Hin as (y & E & Hy).
      rewrite Forall_forall in Hx. pose proof (Hx y Hy).
      apply formatMinute_inj in E; [lia | |]; apply Hb; simpl; auto.
    + apply IH. intros M HM. apply Hb. simpl. auto.
Qed.

(** ** The storage queries *)

Section OrderByFacts.

Context {A : Type} (key : A -> Z).

Lemma insertAsc_In : forall x y l,
    In y (Prisma.insertAsc key x l) <-> y = x \/ In y l.
Proof.
  intros x y l. induction l as [| z l IH]; simpl.
  - intuition.
  - destruct (key z <=? key x); simpl; rewrite ?IH; intuition.
Qed.

Lemma orderByAsc_In : forall y l, In y (Prisma.orderByAsc key l) <-> In y l.
Proof.
  intros y l. unfold Prisma.orderByAsc. rewrite (in_rev l).
  induction (rev l) as [| x r IH]; simpl; [reflexivity |].
  rewrite insertAsc_In, IH. intuition.
Qed.

Lemma insertAsc_sorted : forall x l,
    StronglySorted (fun a b => key a <= key b) l ->
    StronglySorted (fun a b => key a <= key b) (Prisma.insertAsc key x l).
Proof.
  intros x l H. induction H as [| z l Hs IH Hz]; simpl.
  - constructor; constructor.
  - destruct (Z.leb_spec (key z) (key x)).
    + constructor; [exact IH |]. apply Forall_forall. intros y Hy.
      apply insertAsc_In in Hy. rewrite Forall_forall in Hz.
      destruct Hy as [-> | Hy]; [assumption | apply Hz; assumption].
    + constructor; [constructor; assumption |].
      constructor; [lia |]. rewrite Forall_forall in *. intros y Hy.
      pose proof (Hz y Hy). lia.
Qed.

Lemma orderByAsc_sorted : forall l,
    StronglySorted (fun a b => key a <= key b) (Prisma.orderByAsc key l).
Proof.
  intro l. unfold Prisma.orderByAsc.
  induction (rev l) as [| x r IH]; simpl; [constructor |].
  apply insertAsc_sorted. exact IH.
Qed.

(** Rows already in strictly ascending order are returned as they are. *)
Lemma insertAsc_last : forall x l,
    Forall (fun y => key y <= key x) l -> Prisma.insertAsc key x l = l ++ [x].
Proof.
  intros x l H. induction H as [| z l Hz Hl IH]; simpl; [reflexivity |].
  replace (key z <=? key x) with true by (symmetry; apply Z.leb_le; assumption).
  rewrite IH. reflexivity.
Qed.

Lemma orderByAsc_ascending : forall l,
    StronglySorted (fun a b => key a < key b) l -> Prisma.orderByAsc key l = l.
Proof.
  intros l H. unfold Prisma.orderByAsc.
  assert (G : forall r, StronglySorted (fun a b => key b < key a) r ->
                        fold_right (Prisma.insertAsc key) [] r = rev r).
  { intros r Hr. induction Hr as [| x r Hs IH Hx]; simpl; [reflexivity |].
    rewrite IH. apply insertAsc_last.
    apply Forall_forall. intros y Hy. apply in_rev in Hy.
    rewrite Forall_forall in Hx. pose proof (Hx y Hy). lia. }
  rewrite G; [apply rev_involutive |].
  clear G. induction H as [| x l Hs IH Hx]; simpl; [constructor |].
  assert (Happ : forall r, StronglySorted (fun a b => key b < key a) r ->
                           Forall (fun y => key x < key y) r ->
                           StronglySorted (fun a b => key b < key a) (r ++ [x])).
  { intros r Hr. induction Hr as [| z r Hr' IHr Hz]; intro Hall; simpl.
    - constructor; constructor.
    - inversion Hall; subst. constructor; [apply IHr; assumption |].
      apply Forall_app. split; [assumption |]. constructor; [assumption | constructor]. }
  apply Happ; [exact IH |].
  apply Forall_forall. intros y Hy. apply in_rev in Hy.
  rewrite Forall_forall in Hx. apply Hx. assumption.
Qed.

End OrderByFacts.

Lemma filter_none : forall (A : Type) (f : A -> bool) l,
    (forall x, In x l -> f x = false) -> filter f l = [].
Proof.
  intros A f l H. induction l as [| x l IH]; simpl; [reflexivity |].
  rewrite (H x) by (simpl; auto). apply IH. intros y Hy. apply H. simpl. auto.
Qed.

(** The list returned with a 201 is in ascending order of start. *)
Lemma findByUserAndStarts_sorted : forall bs uid sid starts,
    StronglySorted (fun a b => startAt a <= startAt b)
                   (Prisma.findByUserAndStarts bs uid sid starts).
Proof. intros. unfold Prisma.findByUserAndStarts. apply orderByAsc_sorted. Qed.

Lemma inDates_In : forall d ds, Prisma.inDates d ds = true <-> In d ds.
Proof.
  intros d ds. unfold Prisma.inDates. rewrite existsb_exists. split.
  - intros (x & Hx & E). apply Z.eqb_eq in E. subst x. exact Hx.
  - intro H. exists d. split; [exact H | apply Z.eqb_refl].
Qed.

Lemma insertedRows_spec : forall bs uid sid nt starts,
    map startAt (insertedRows bs uid sid nt starts) = starts
    /\ List.length (insertedRows bs uid sid nt starts) = List.length starts
    /\ Forall (fun b => userId b = uid /\ serviceId b = sid /\ note b = nt
                        /\ status b = CONFIRMED
                        /\ endAt b = startAt b + SESSION_MIN * 60 * 1000)
              (insertedRows bs uid sid nt starts).
Proof.
  intros bs uid sid nt starts. unfold insertedRows.
  generalize (Prisma.nextId bs). induction starts as [| s starts IH]; intro n; simpl.
  - repeat split. constructor.
  - destruct (IH (S n)) as (H1 & H2 & H3). rewrite H1, H2. repeat split.
    constructor; [simpl; unfold sessionEnd; repeat split | exact H3].
Qed.

(** ** The commit *)

Section Commit.

Variable offset : Z -> Z.

(** The session starts are [STEP_MIN] minutes apart from one instant. *)
Lemma buildSessionStartsUtc_steps : forall start sessions,
    buildSessionStartsUtc offset start sessions
    = map (fun i => fst (Luxon.fixOffset offset (Luxon.localTS start) (Luxon.o start))
                    + Z.of_nat i * STEP_MIN * 60000)
          (seq 0 (Z.to_nat sessions)).
Proof.
  intros start sessions. unfold buildSessionStartsUtc. apply map_ext. intro i.
  unfold Luxon.plusMinutes, Luxon.toJSDate.
  destruct (Luxon.fixOffset offset (Luxon.localTS start) (Luxon.o start)) as [t o1].
  destruct (Z.eqb_spec (Z.of_nat i * STEP_MIN) 0) as [E | E]; simpl; unfold_ms; lia.
Qed.

Lemma steps_from : forall t k n,
    StronglySorted Z.lt
      (map (fun i => t + Z.of_nat i * STEP_MIN * 60000) (seq k n)).
Proof.
  intros t k n. revert k. induction n as [| n IH]; intro k; simpl.
  - constructor.
  - constructor; [apply IH |]. apply Forall_forall. intros x Hx.
    apply in_map_iff in Hx. destruct Hx as (j & <- & Hj). apply in_seq in Hj.
    unfold_rules. lia.
Qed.

Lemma buildSessionStartsUtc_sorted : forall start sessions,
    StronglySorted Z.lt (buildSessionStartsUtc offset start sessions).
Proof.
  intros. rewrite buildSessionStartsUtc_steps. apply steps_from.
Qed.

Lemma buildSessionStartsUtc_length : forall start sessions,
    List.length (buildSessionStartsUtc offset start sessions) = Z.to_nat sessions.
Proof.
  intros. unfold buildSessionStartsUtc. rewrite length_map, length_seq. reflexivity.
Qed.

(** What the handler has established when it opens the transaction. *)
Lemma validateRequest_inr : forall tsNow db user body t,
    validateRequest offset tsNow db user body = inr t ->
    exists uid startOslo service,
      user = Some uid
      /\ createBookingSchema body = true
      /\ parseOsloDateTime offset tsNow (body_date body) (body_startTime body)
         = Some startOslo
      /\ isAlignedToStep offset startOslo = true
      /\ validateWithinBusinessHours offset startOslo (body_sessions body) = HoursOk
      /\ Luxon.ltb startOslo (Luxon.nowIn offset tsNow) = false
      /\ Prisma.serviceFindUnique db (body_serviceId body) = Some service
      /\ isActive service = true
      /\ durationMin service = SESSION_MIN
      /\ (let startsUtc := buildSessionStartsUtc offset startOslo (body_sessions body) in
          forallb (fun startAt =>
                     isSessionCoveredBySlots
                       startAt (sessionEnd startAt)
                       (Prisma.slotsOverlapping db (body_serviceId body)
                          (sessionEnd (last startsUtc 0)) (hd 0 startsUtc)))
                  startsUtc = true)
      /\ t = {| tx_userId := uid; tx_serviceId := body_serviceId body;
                tx_note := body_note body;
                tx_startsUtc :=
                  buildSessionStartsUtc offset startOslo (body_sessions body);
                tx_phase := BeforeCheck |}.
Proof.
  intros tsNow db user body t H. unfold validateRequest in H.
  destruct (createBookingSchema body); [| discriminate]. cbn [negb] in H.
  destruct user as [uid |]; [| discriminate].
  destruct (parseOsloDateTime offset tsNow (body_date body) (body_startTime body))
    as [startOslo |]; [| discriminate].
  destruct (isAlignedToStep offset startOslo) eqn:Hgrid; [| discriminate].
  cbn [negb] in H.
  destruct (validateWithinBusinessHours offset startOslo (body_sessions body))
    eqn:Hhours; [| discriminate].
  destruct (Luxon.ltb startOslo (Luxon.nowIn offset tsNow)) eqn:Hpast;
    [discriminate |].
  destruct (Prisma.serviceFindUnique db (body_serviceId body)) as [service |];
    [| discriminate].
  destruct (isActive service) eqn:Hact; [| discriminate]. cbn [negb] in H.
  destruct (Z.eqb_spec (durationMin service) SESSION_MIN); [| discriminate].
  cbn [negb] in H.
  destruct (forallb _ _) eqn:Hcov; [| discriminate]. cbn [negb] in H.
  injection H as <-.
  exists uid, startOslo, service. cbv zeta.
  repeat split; try reflexivity; assumption.
Qed.

Lemma transaction_cases : forall fault bs uid sid nt starts,
    (txCheck bs sid starts <> []
     /\ transaction fault bs uid sid nt starts
        = (bs, inr (TxConflicts (txCheck bs sid starts))))
    \/ (txCheck bs sid starts = []
        /\ exists e, fault = Some e
                     /\ transaction fault bs uid sid nt starts = (bs, inl e))
    \/ (txCheck bs sid starts = [] /\ fault = None
        /\ transaction fault bs uid sid nt starts
           = (bs ++ insertedRows bs uid sid nt starts,
              inr (TxCreated (List.length starts)
                     (Prisma.findByUserAndStarts
                        (bs ++ insertedRows bs uid sid nt starts) uid sid starts)))).
Proof.
  intros fault bs uid sid nt starts. unfold transaction.
  destruct (txCheck bs sid starts) as [| c cs] eqn:E.
  - right. simpl. destruct fault as [e |].
    + left. split; [reflexivity |]. exists e. split; reflexivity.
    + right. split; [reflexivity |]. split; [reflexivity |].
      unfold txInsert, insertedRows, Prisma.createMany, newRows.
      rewrite length_map. reflexivity.
  - left. split; [discriminate | reflexivity].
Qed.

(** The responses of the handler once the request is validated. *)
Lemma postBookings_validated : forall tsNow fault db user body t,
    validateRequest offset tsNow db user body = inr t ->
    let bs := bookings db in
    let conflicts := txCheck bs (tx_serviceId t) (tx_startsUtc t) in
    let rows := insertedRows bs (tx_userId t) (tx_serviceId t) (tx_note t)
                             (tx_startsUtc t) in
    (conflicts <> []
     /\ postBookings offset tsNow fault db user body
        = (Post409 (map conflictView conflicts), db))
    \/ (conflicts = [] /\ fault <> None
        /\ postBookings offset tsNow fault db user body = (Post500, db))
    \/ (conflicts = [] /\ fault = None
        /\ postBookings offset tsNow fault db user body
           = (Post201 (List.length (tx_startsUtc t))
                      (map bookingView
                           (Prisma.findByUserAndStarts
                              (bs ++ rows) (tx_userId t) (tx_serviceId t)
                              (tx_startsUtc t))),
              withBookings db (bs ++ rows))).
Proof.
  intros tsNow fault db user body t Hv bs conflicts rows.
  unfold postBookings. rewrite Hv.
  destruct (transaction_cases fault bs (tx_userId t) (tx_serviceId t) (tx_note t)
                              (tx_startsUtc t))
    as [[Hc E] | [[Hc (e & Hf & E)] | (Hc & Hf & E)]]; fold bs; rewrite E.
  - left. split; [exact Hc | reflexivity].
  - right. left. repeat split; [exact Hc | congruence].
  - right. right. repeat split; assumption.
Qed.

End Commit.

(** ** Properties of the commit *)

Lemma validateRequest_inl_not_created : forall offset tsNow db user body r,
    validateRequest offset tsNow db user body = inl r ->
    (forall n l, r <> Post201 n l) /\ (forall c, r <> Post409 c) /\ r <> Post500.
Proof.
  intros offset tsNow db user body r H. unfold validateRequest in H.
  repeat match type of H with
         | context [if ?c then _ else _] => destruct c
         | context [match ?c with _ => _ end] => destruct c
         end;
    try discriminate; injection H as <-;
    (split; [| split]); intros; discriminate.
Qed.

(** A statement of a running transaction leaves the committed table as it
    is or appends the whole batch of that transaction. *)
Lemma stepPool_all_or_nothing : forall i bs txs,
    fst (stepPool i (bs, txs)) = bs
    \/ exists t, nth_error txs i = Some t
                 /\ fst (stepPool i (bs, txs))
                    = bs ++ insertedRows bs (tx_userId t) (tx_serviceId t)
                                         (tx_note t) (tx_startsUtc t).
Proof.
  intros i bs txs. unfold stepPool. cbn [fst snd].
  destruct (nth_error txs i) as [t |] eqn:E; [| left; reflexivity].
  unfold stepTx. destruct (tx_phase t).
  - left. destruct (0 <? _)%nat; reflexivity.
  - right. exists t. split; reflexivity.
  - left. reflexivity.
Qed.

(** C6.  A commit inserts one row for every computed session instant or
    none: after any request the database is either unchanged, or it is the
    old one with exactly one new Booking row per session instant appended
    and the response is 201; with a 409 (conflict) response, and with any
    response other than 201, nothing was inserted.  Also while transactions
    interleave, every statement leaves the committed table unchanged or
    appends the whole batch of one transaction. *)
Theorem postBookings_all_or_nothing :
  forall offset tsNow fault db user body,
    let response := fst (postBookings offset tsNow fault db user body) in
    let db' := snd (postBookings offset tsNow fault db user body) in
    ((db' = db /\ forall n l, response <> Post201 n l)
     \/ (exists startOslo rows created,
            parseOsloDateTime offset tsNow (body_date body) (body_startTime body)
            = Some startOslo
            /\ db' = withBookings db (bookings db ++ rows)
            /\ map startAt rows
               = buildSessionStartsUtc offset startOslo (body_sessions body)
            /\ List.length rows = Z.to_nat (body_sessions body)
            /\ response = Post201 (List.length rows) created))
    /\ (forall conflicts, response = Post409 conflicts -> db' = db)
    /\ (forall i bs txs,
           fst (stepPool i (bs, txs)) = bs
           \/ exists t, nth_error txs i = Some t
                        /\ fst (stepPool i (bs, txs))
                           = bs ++ insertedRows bs (tx_userId t) (tx_serviceId t)
                                                (tx_note t) (tx_startsUtc t)).
Proof.
  intros offset tsNow fault db user body response db'.
  rewrite <- and_assoc. split; [| apply stepPool_all_or_nothing].
  destruct (validateRequest offset tsNow db user body) as [r | t] eqn:Hv.
  - assert (E : postBookings offset tsNow fault db user body = (r, db))
      by (unfold postBookings; rewrite Hv; reflexivity).
    unfold response, db'. rewrite E. simpl.
    destruct (validateRequest_inl_not_created _ _ _ _ _ _ Hv) as (H1 & H2 & H3).
    split; [left; split; [reflexivity | exact H1] | reflexivity].
  - destruct (validateRequest_inr _ _ _ _ _ _ Hv)
      as (uid & startOslo & service & _ & _ & Hparse & _ & _ & _ & _ & _ & _ & _ & Ht).
    destruct (postBookings_validated offset tsNow fault db user body t Hv)
      as [[_ E] | [(_ & _ & E) | (_ & _ & E)]];
      unfold response, db'; rewrite E; simpl.
    + split; [left; split; [reflexivity | discriminate] | reflexivity].
    + split; [left; split; [reflexivity | discriminate] | discriminate].
    + split; [| discriminate]. right.
      destruct (insertedRows_spec (bookings db) (tx_userId t) (tx_serviceId t)
                                  (tx_note t) (tx_startsUtc t)) as (Hs & Hl & _).
      eexists startOslo, _, _. split; [exact Hparse |].
      split; [reflexivity |]. rewrite Hs, Hl. subst t. simpl.
      rewrite buildSessionStartsUtc_length. repeat split.
Qed.

(** C5, as the code has it.  When the storage layer throws during the
    insert of a validated request whose conflict query found nothing
    (whatever the error, a uniqueness violation included), the handler
    answers 500 "Server error" and nothing is inserted. *)
Theorem postBookings_storage_error :
  forall offset tsNow db user body t e,
    validateRequest offset tsNow db user body = inr t ->
    txCheck (bookings db) (tx_serviceId t) (tx_startsUtc t) = [] ->
    postBookings offset tsNow (Some e) db user body = (Post500, db).
Proof.
  intros offset tsNow db user body t e Hv Hc.
  destruct (postBookings_validated offset tsNow (Some e) db user body t Hv)
    as [[Hn _] | [(_ & _ & E) | (_ & Hf & _)]].
  - contradiction.
  - exact E.
  - discriminate.
Qed.

(** A uniqueness violation during the insert of two sessions at 11:00. *)
Lemma postBookings_storage_error_witness :
  postBookings oslo2026 clockBefore (Some UniqueConstraintViolation) demoDb
               (Some "u1"%string) (demoBody "11:00" 2)
  = (Post500, demoDb).
Proof.
  eapply postBookings_storage_error; vm_compute; reflexivity.
Defined.

(** C5 as stated fails: a uniqueness violation thrown during the insert of
    a validated request without pre-detected conflict is answered with 500,
    not with the 409 conflict response. *)
Lemma unique_violation_not_reported_as_conflict :
  (exists t, validateRequest oslo2026 clockBefore demoDb (Some "u1"%string)
                             (demoBody "11:00" 2) = inr t
             /\ txCheck (bookings demoDb) (tx_serviceId t) (tx_startsUtc t) = [])
  /\ fst (postBookings oslo2026 clockBefore (Some UniqueConstraintViolation) demoDb
                       (Some "u1"%string) (demoBody "11:00" 2)) = Post500
  /\ ~ (exists conflicts,
           fst (postBookings oslo2026 clockBefore (Some UniqueConstraintViolation)
                             demoDb (Some "u1"%string) (demoBody "11:00" 2))
           = Post409 conflicts).
Proof.
  split; [eexists; split; vm_compute; reflexivity |].
  split; [vm_compute; reflexivity |].
  intros [conflicts H]. vm_compute in H. discriminate.
Qed.

(** C8, as the code has it.  When the conflict query of a validated request
    finds rows, nothing is inserted and the response is 409 with, for every
    non-cancelled booking of the service whose start instant is one of the
    computed instants, its [id] and its [startAt] instant as stored. *)
Theorem postBookings_conflict :
  forall offset tsNow fault db user body t,
    validateRequest offset tsNow db user body = inr t ->
    Prisma.findConflicts (bookings db) (tx_serviceId t) (tx_startsUtc t) <> [] ->
    postBookings offset tsNow fault db user body
    = (Post409 (map conflictView
                    (Prisma.findConflicts (bookings db) (tx_serviceId t)
                                          (tx_startsUtc t))),
       db)
    /\ (forall b, In b (Prisma.findConflicts (bookings db) (tx_serviceId t)
                                             (tx_startsUtc t))
                  <-> In b (bookings db) /\ serviceId b = tx_serviceId t
                      /\ status b <> CANCELLED /\ In (startAt b) (tx_startsUtc t)).
Proof.
  intros offset tsNow fault db user body t Hv Hc. split.
  - destruct (postBookings_validated offset tsNow fault db user body t Hv)
      as [[_ E] | [(Hn & _) | (Hn & _)]]; [exact E | |]; contradiction.
  - intro b. unfold Prisma.findConflicts. rewrite filter_In.
    rewrite !andb_true_iff, negb_true_iff, inDates_In, String.eqb_eq.
    assert (Hs : isCancelled (status b) = false <-> status b <> CANCELLED)
      by (destruct (status b); simpl; split; congruence).
    rewrite Hs. tauto.
Qed.

(** User u2 asks for 11:00 and 11:20 when 11:00 is booked. *)
Lemma postBookings_conflict_witness :
  postBookings oslo2026 clockBefore None
               (withBookings demoDb [bookingAt11 CONFIRMED])
               (Some "u2"%string) (demoBody "11:00" 2)
  = (Post409 [ {| conflict_id := 1; conflict_startAt := 1768471200000 |} ],
     withBookings demoDb [bookingAt11 CONFIRMED]).
Proof.
  exact (proj1 (postBookings_conflict oslo2026 clockBefore None
                  (withBookings demoDb [bookingAt11 CONFIRMED])
                  (Some "u2"%string) (demoBody "11:00" 2)
                  {| tx_userId := "u2"; tx_serviceId := "singing-15";
                     tx_note := None;
                     tx_startsUtc := [1768471200000; 1768472400000];
                     tx_phase := BeforeCheck |}
                  ltac:(vm_compute; reflexivity)
                  ltac:(vm_compute; discriminate))).
Defined.

(** C8 as stated fails: the conflict list carries the stored instant, which
    goes on the wire in UTC (10:00 here), not the local time of day of the
    claimed slot (11:00). *)
Lemma conflict_instants_not_local_time :
  fst (postBookings oslo2026 clockBefore None
                    (withBookings demoDb [bookingAt11 CONFIRMED])
                    (Some "u2"%string) (demoBody "11:00" 1))
  = Post409 [ {| conflict_id := 1; conflict_startAt := 1768471200000 |} ]
  /\ utcTimeOfDay 1768471200000 = "10:00"%string
  /\ localTimeOfDay oslo2026 1768471200000 = "11:00"%string
  /\ utcTimeOfDay 1768471200000 <> localTimeOfDay oslo2026 1768471200000.
Proof.
  repeat split; try (vm_compute; reflexivity). vm_compute. discriminate.
Qed.

(** C7 at the failing input: user u1 has a cancelled booking at 11:00 and
    books 11:00 again.  One row is inserted ([count] is 1), and the returned
    list has two rows: the old cancelled one and the new one. *)
Theorem created_list_includes_cancelled_row :
  postBookings oslo2026 clockBefore None
               (withBookings demoDb [bookingAt11 CANCELLED])
               (Some "u1"%string) (demoBody "11:00" 1)
  = (Post201 1
       [ {| view_id := 1; view_startAt := 1768471200000;
            view_endAt := 1768472100000; view_status := CANCELLED |};
         {| view_id := 2; view_startAt := 1768471200000;
            view_endAt := 1768472100000; view_status := CONFIRMED |} ],
     withBookings demoDb
       [ bookingAt11 CANCELLED;
         {| id := 2; userId := "u1"; serviceId := "singing-15";
            startAt := 1768471200000; endAt := 1768472100000;
            status := CONFIRMED; note := None |} ]).
Proof. vm_compute. reflexivity. Qed.

(** What does hold for C7: the inserted rows are one per session instant,
    CONFIRMED, with the request's user, service and note and
    [endAt = startAt + 15 min]; and when the user had no row of this service
    at these instants, the returned list is exactly the inserted rows, in
    ascending order of start. *)
Lemma postBookings_created : forall offset tsNow db user body t,
    validateRequest offset tsNow db user body = inr t ->
    txCheck (bookings db) (tx_serviceId t) (tx_startsUtc t) = [] ->
    let rows := insertedRows (bookings db) (tx_userId t) (tx_serviceId t)
                             (tx_note t) (tx_startsUtc t) in
    snd (postBookings offset tsNow None db user body)
    = withBookings db (bookings db ++ rows)
    /\ map startAt rows = tx_startsUtc t
    /\ Forall (fun b => userId b = tx_userId t /\ serviceId b = tx_serviceId t
                        /\ note b = tx_note t /\ status b = CONFIRMED
                        /\ endAt b = startAt b + SESSION_MIN * 60 * 1000) rows
    /\ ((forall b, In b (bookings db) -> userId b = tx_userId t ->
                   serviceId b = tx_serviceId t ->
                   ~ In (startAt b) (tx_startsUtc t)) ->
        fst (postBookings offset tsNow None db user body)
        = Post201 (List.length rows) (map bookingView rows)).
Proof.
  intros offset tsNow db user body t Hv Hc rows.
  destruct (insertedRows_spec (bookings db) (tx_userId t) (tx_serviceId t)
                              (tx_note t) (tx_startsUtc t)) as (Hs & Hl & Hf).
  fold rows in Hs, Hl, Hf.
  destruct (postBookings_validated offset tsNow None db user body t Hv)
    as [[Hn _] | [(_ & Hn & _) | (_ & _ & E)]]; try contradiction.
  rewrite E. simpl. fold rows. repeat split; try assumption.
  intro Hnone. rewrite Hl. do 2 f_equal.
  unfold Prisma.findByUserAndStarts. rewrite filter_app.
  assert (E1 : filter (fun b => String.eqb (userId b) (tx_userId t)
                                && String.eqb (serviceId b) (tx_serviceId t)
                                && Prisma.inDates (startAt b) (tx_startsUtc t))
                      (bookings db) = []).
  { apply filter_none. intros b Hb.
    destruct (String.eqb_spec (userId b) (tx_userId t)); [| reflexivity].
    destruct (String.eqb_spec (serviceId b) (tx_serviceId t)); [| reflexivity].
    simpl.
    destruct (Prisma.inDates (startAt b) (tx_startsUtc t)) eqn:Ei; [| reflexivity].
    apply inDates_In in Ei. exfalso. apply (Hnone b); assumption. }
  assert (E2 : filter (fun b => String.eqb (userId b) (tx_userId t)
                                && String.eqb (serviceId b) (tx_serviceId t)
                                && Prisma.inDates (startAt b) (tx_startsUtc t))
                      rows = rows).
  { apply forallb_filter_id. apply forallb_forall. intros b Hb.
    rewrite Forall_forall in Hf. destruct (Hf b Hb) as (-> & -> & _).
    rewrite !String.eqb_refl. simpl. apply inDates_In. rewrite <- Hs.
    apply in_map. exact Hb. }
  rewrite E1, E2. simpl. apply orderByAsc_ascending.
  destruct (validateRequest_inr _ _ _ _ _ _ Hv)
    as (uid & startOslo & service & _ & _ & _ & _ & _ & _ & _ & _ & _ & _ & Ht).
  assert (Hsorted : StronglySorted Z.lt (map startAt rows)).
  { rewrite Hs. subst t. simpl. apply buildSessionStartsUtc_sorted. }
  clear - Hsorted. induction rows as [| r rows IH]; [constructor |].
  simpl in Hsorted. inversion Hsorted as [| ? ? Hs' Hall]; subst.
  constructor; [apply IH; assumption |].
  rewrite Forall_forall in *. intros b Hb. apply Hall. apply in_map. exact Hb.
Qed.

(** ** No double booking *)

Lemma sorted_NoDup : forall l, StronglySorted Z.lt l -> NoDup l.
Proof.
  intros l H. induction H as [| x l Hs IH Hx]; constructor; [| exact IH].
  intro Hin. rewrite Forall_forall in Hx. pose proof (Hx x Hin). lia.
Qed.

Lemma liveBookings_inserted : forall bs uid sid nt starts,
    liveBookings (insertedRows bs uid sid nt starts)
    = insertedRows bs uid sid nt starts.
Proof.
  intros. apply forallb_filter_id. apply forallb_forall. intros b Hb.
  destruct (insertedRows_spec bs uid sid nt starts) as (_ & _ & Hf).
  rewrite Forall_forall in Hf. destruct (Hf b Hb) as (_ & _ & _ & -> & _).
  reflexivity.
Qed.

Lemma slotKey_inserted : forall bs uid sid nt starts,
    map slotKey (insertedRows bs uid sid nt starts) = map (fun s => (sid, s)) starts.
Proof.
  intros bs uid sid nt starts. unfold insertedRows.
  generalize (Prisma.nextId bs). induction starts as [| s starts IH]; intro n; simpl.
  - reflexivity.
  - rewrite IH. reflexivity.
Qed.

(** A commit whose conflict query found nothing keeps the bookings free of
    double booking, when its instants are distinct. *)
Lemma insert_keeps_noDoubleBooking : forall bs uid sid nt starts,
    noDoubleBooking bs -> NoDup starts -> txCheck bs sid starts = [] ->
    noDoubleBooking (bs ++ insertedRows bs uid sid nt starts).
Proof.
  intros bs uid sid nt starts Hinv Hnd Hc. unfold noDoubleBooking, liveBookings.
  rewrite filter_app, map_app.
  change (filter (fun b => negb (isCancelled (status b)))
                 (insertedRows bs uid sid nt starts))
    with (liveBookings (insertedRows bs uid sid nt starts)).
  rewrite liveBookings_inserted, slotKey_inserted.
  apply NoDup_app.
  - exact Hinv.
  - apply NoDup_map_NoDup_ForallPairs; [| exact Hnd].
    intros x y _ _ E. congruence.
  - intros [s' t'] Hin1 Hin2.
    apply in_map_iff in Hin1. destruct Hin1 as (b & Eb & Hb).
    apply filter_In in Hb. destruct Hb as [Hb Hlive].
    apply in_map_iff in Hin2. destruct Hin2 as (s & Es & Hs).
    unfold slotKey in Eb. injection Eb as E1 E2. injection Es as E3 E4.
    assert (Hconf : In b (txCheck bs sid starts)).
    { unfold txCheck, Prisma.findConflicts. apply filter_In. split; [exact Hb |].
      rewrite Hlive. rewrite (proj2 (String.eqb_eq _ _)) by congruence.
      simpl. apply inDates_In. congruence. }
    rewrite Hc in Hconf. contradiction.
Qed.

Lemma cancelBooking_keys : forall bid bs k,
    In k (map slotKey (liveBookings (cancelBooking bid bs))) ->
    In k (map slotKey (liveBookings bs)).
Proof.
  intros bid bs k. induction bs as [| b bs IH]; simpl; [tauto |].
  destruct (Nat.eqb (id b) bid); simpl.
  - intro H. destruct (negb (isCancelled (status b))); simpl; auto.
  - destruct (negb (isCancelled (status b))); simpl; [| exact IH].
    intros [H | H]; auto.
Qed.

Lemma cancel_keeps_noDoubleBooking : forall bid bs,
    noDoubleBooking bs -> noDoubleBooking (cancelBooking bid bs).
Proof.
  intros bid bs. unfold noDoubleBooking.
  induction bs as [| b bs IH]; simpl; [tauto |].
  destruct (Nat.eqb (id b) bid); simpl.
  - destruct (negb (isCancelled (status b))); simpl; [| exact IH].
    intro H. inversion H; subst. apply IH. assumption.
  - destruct (negb (isCancelled (status b))); simpl; [| exact IH].
    intro H. inversion H as [| ? ? Hnin Hnd]; subst. constructor.
    + intro Hin. apply Hnin. apply cancelBooking_keys with (bid := bid). exact Hin.
    + apply IH. exact Hnd.
Qed.

Lemma postBookings_keeps_noDoubleBooking :
  forall offset tsNow fault db user body,
    noDoubleBooking (bookings db) ->
    noDoubleBooking (bookings (snd (postBookings offset tsNow fault db user body))).
Proof.
  intros offset tsNow fault db user body Hinv.
  destruct (validateRequest offset tsNow db user body) as [r | t] eqn:Hv.
  - unfold postBookings. rewrite Hv. exact Hinv.
  - destruct (postBookings_validated offset tsNow fault db user body t Hv)
      as [[_ E] | [(_ & _ & E) | (Hc & _ & E)]]; rewrite E; simpl; try exact Hinv.
    apply insert_keeps_noDoubleBooking; try assumption.
    destruct (validateRequest_inr _ _ _ _ _ _ Hv)
      as (uid & startOslo & service & _ & _ & _ & _ & _ & _ & _ & _ & _ & _ & Ht).
    subst t. simpl. apply sorted_NoDup. apply buildSessionStartsUtc_sorted.
Qed.

(** C1, as the code has it.  In every database reached by handling requests
    one after another (each transaction running alone), among the bookings
    of a service that are not cancelled the start instants are unique. *)
Theorem reachable_noDoubleBooking :
  forall offset db, reachable offset db -> noDoubleBooking (bookings db).
Proof.
  intros offset db H. induction H; simpl.
  - constructor.
  - apply postBookings_keeps_noDoubleBooking. assumption.
  - apply cancel_keeps_noDoubleBooking. assumption.
  - assumption.
Qed.

(** The store after one commit of two sessions. *)
Lemma reachable_noDoubleBooking_witness :
  noDoubleBooking
    (bookings (snd (postBookings oslo2026 clockBefore None demoDb
                                 (Some "u1"%string) (demoBody "11:00" 2)))).
Proof.
  apply (reachable_noDoubleBooking oslo2026).
  apply reach_post. apply (reach_empty oslo2026 [demoService] [demoWindow]).
Defined.

(** C1 as stated fails.  The migration declares no key or unique index on
    Booking within (serviceId, startAt, status), and two requests for the
    same slot whose transactions interleave (both conflict queries, then
    both inserts) leave two CONFIRMED bookings with the same service and
    start instant. *)
Lemma double_booking_by_interleaving :
  declaresUniqueOn "Booking" ["serviceId"%string; "startAt"%string; "status"%string]
  = false
  /\ exists t1 t2,
      validateRequest oslo2026 clockBefore demoDb (Some "u1"%string)
                      (demoBody "11:00" 1) = inr t1
      /\ validateRequest oslo2026 clockBefore demoDb (Some "u2"%string)
                         (demoBody "11:00" 1) = inr t2
      /\ map (fun b => (userId b, slotKey b, status b))
             (fst (runSchedule [0; 1; 0; 1]%nat (bookings demoDb, [t1; t2])))
         = [ ("u1"%string, ("singing-15"%string, 1768471200000), CONFIRMED);
             ("u2"%string, ("singing-15"%string, 1768471200000), CONFIRMED) ]
      /\ ~ noDoubleBooking
             (fst (runSchedule [0; 1; 0; 1]%nat (bookings demoDb, [t1; t2]))).
Proof.
  split; [vm_compute; reflexivity |].
  eexists. eexists.
  split; [vm_compute; reflexivity |].
  split; [vm_compute; reflexivity |].
  split; [vm_compute; reflexivity |].
  unfold noDoubleBooking. vm_compute. intro H.
  inversion H as [| ? ? Hnin _]; subst. apply Hnin. left. reflexivity.
Qed.

(** ** From the availability list to the commit *)

Lemma getAvailability_200 : forall offset tsNow db sid date times,
    getAvailability offset tsNow db sid date = Avail200 times ->
    sid <> EmptyString
    /\ exists y m d service,
        Wire.dateFields date = Some (y, m, d) /\ validDate y m d = true
        /\ Prisma.serviceFindUnique db sid = Some service
        /\ isActive service = true /\ durationMin service = SESSION_MIN.
Proof.
  intros offset tsNow db sid date times H. unfold getAvailability in H.
  destruct sid as [| c sid']; [discriminate |]. cbn [String.length Nat.eqb] in H.
  split; [discriminate |].
  destruct (Wire.dateFields date) as [[[y m] d] |]; [| discriminate].
  destruct (Prisma.serviceFindUnique db (String c sid')) as [service |];
    [| discriminate].
  destruct (isActive service) eqn:Hact; [| discriminate]. cbn [negb] in H.
  destruct (Z.eqb_spec (durationMin service) SESSION_MIN) as [Hdur | Hdur];
    [| discriminate].
  cbn [negb] in H.
  destruct (Luxon.fromObject offset tsNow y m d (hour DAY_START) (minute DAY_START))
    as [dayStartOslo |] eqn:Hstart; [| discriminate].
  apply fromObject_valid in Hstart.
  exists y, m, d, service. repeat split; try assumption.
  unfold Luxon.validFields in Hstart. unfold validDate.
  rewrite !andb_true_iff in Hstart. rewrite !andb_true_iff. tauto.
Qed.

Section RoundTrip.

Variable offset : Z -> Z.
Hypothesis zone : EuropeanZone offset.

Lemma buildSessionStartsUtc_one : forall D M,
    180 <= M < 1440 ->
    buildSessionStartsUtc offset (atMinute offset D M) 1 = [instantOf offset D M].
Proof.
  intros D M HM. unfold buildSessionStartsUtc.
  change (Z.to_nat 1) with 1%nat. cbn [seq map].
  rewrite (plusMinutes_consistent offset)
    by (apply atMinute_consistent; assumption).
  unfold Luxon.toJSDate, instantOf. cbn [Luxon.ts].
  f_equal. change (Z.of_nat 0) with 0. lia.
Qed.

Lemma gridMinutes_last_fits : forall M, In M gridMinutes -> 480 <= M <= 880.
Proof.
  intros M HM. unfold gridMinutes, gridSize in HM. apply in_map_iff in HM.
  destruct HM as (k & <- & Hk). apply in_seq in Hk.
  unfold gridMinute. unfold_rules. lia.
Qed.

(** The validation of a request for one session at a grid time that some
    window of the service contains: only the clock can reject it. *)
Lemma validateRequest_offered :
  forall tsNow db sid date y m d service M uid nt w,
    sid <> EmptyString ->
    Wire.dateFields date = Some (y, m, d) -> validDate y m d = true ->
    Prisma.serviceFindUnique db sid = Some service ->
    isActive service = true -> durationMin service = SESSION_MIN ->
    noteAccepted nt ->
    In M gridMinutes ->
    let cs := instantOf offset (Luxon.daysFromCivil y m d) M in
    In w (slots db) -> slot_serviceId w = sid ->
    slot_startAt w <= cs -> sessionEnd cs <= slot_endAt w ->
    validateRequest offset tsNow db (Some uid)
                    (bodyFor sid date (formatMinute M) 1 nt)
    = if cs <? tsNow then inl (Post400 MsgInThePast)
      else inr {| tx_userId := uid; tx_serviceId := sid; tx_note := nt;
                  tx_startsUtc := [cs]; tx_phase := BeforeCheck |}.
Proof.
  intros tsNow db sid date y m d service M uid nt w Hsid Hdate Hv Hsvc Hact Hdur
         Hnote HM cs Hw Hwsid Hws Hwe.
  pose proof (gridMinutes_last_fits M HM) as Hb.
  apply gridMinutes_spec in HM. destruct HM as [_ Hmod]. unfold_rules.
  change (8 * 60 + 0) with 480 in Hmod. change (15 + 5) with 20 in Hmod.
  unfold validateRequest.
  assert (Hschema : createBookingSchema (bodyFor sid date (formatMinute M) 1 nt) = true).
  { unfold createBookingSchema, bodyFor. cbn [body_serviceId body_date body_startTime
                                         body_sessions body_note].
    rewrite Hdate, timeFields_formatMinute by lia.
    replace (1 <=? Z.of_nat (String.length sid)) with true
      by (symmetry; apply Z.leb_le; destruct sid; [congruence | simpl; lia]).
    destruct nt as [n |]; cbn [andb]; [| reflexivity].
    apply Z.leb_le. exact Hnote. }
  rewrite Hschema. cbn [negb].
  unfold bodyFor. cbn [body_serviceId body_date body_startTime body_sessions body_note].
  rewrite (parseOsloDateTime_formatMinute offset zone tsNow date y m d M)
    by (assumption || lia).
  rewrite (isAlignedToStep_daytime offset zone) by lia.
  replace (480 <=? M) with true by (symmetry; apply Z.leb_le; lia).
  replace ((M - 480) mod 20 =? 0) with true
    by (symmetry; apply Z.eqb_eq; lia).
  cbn [andb negb].
  rewrite (validateWithinBusinessHours_daytime offset zone) by lia.
  replace (M <? 480) with false by (symmetry; apply Z.ltb_ge; lia).
  replace (900 <? M + (1 - 1) * 20 + 15) with false
    by (symmetry; apply Z.ltb_ge; lia).
  unfold Luxon.ltb, Luxon.nowIn. cbn [Luxon.ts].
  change (Luxon.ts (atMinute offset (Luxon.daysFromCivil y m d) M)) with cs.
  destruct (cs <? tsNow); [reflexivity |].
  rewrite Hsvc, Hact, Hdur, Z.eqb_refl. cbn [negb].
  rewrite (buildSessionStartsUtc_one (Luxon.daysFromCivil y m d) M) by lia.
  fold cs. cbn [hd last forallb].
  replace (isSessionCoveredBySlots cs (sessionEnd cs)
             (Prisma.slotsOverlapping db sid (sessionEnd cs) cs)) with true;
    [reflexivity |].
  symmetry. unfold isSessionCoveredBySlots. apply existsb_exists. exists w. split.
  - unfold Prisma.slotsOverlapping. apply orderByAsc_In. apply filter_In.
    split; [exact Hw |]. rewrite Hwsid, String.eqb_refl. cbn [andb].
    apply andb_true_iff. unfold sessionEnd in *. unfold_rules.
    split; apply Z.ltb_lt; lia.
  - apply andb_true_iff. split; apply Z.leb_le; assumption.
Qed.

(** What an offered time means for the database. *)
Lemma offered_time : forall tsNow db sid date times time,
    getAvailability offset tsNow db sid date = Avail200 times ->
    In time times ->
    exists y m d service M w,
      sid <> EmptyString
      /\ Wire.dateFields date = Some (y, m, d) /\ validDate y m d = true
      /\ Prisma.serviceFindUnique db sid = Some service
      /\ isActive service = true /\ durationMin service = SESSION_MIN
      /\ time = formatMinute M /\ In M gridMinutes
      /\ In w (slots db) /\ slot_serviceId w = sid
      /\ slot_startAt w <= instantOf offset (Luxon.daysFromCivil y m d) M
      /\ sessionEnd (instantOf offset (Luxon.daysFromCivil y m d) M) <= slot_endAt w
      /\ txCheck (bookings db) sid
                 [instantOf offset (Luxon.daysFromCivil y m d) M] = [].
Proof.
  intros tsNow db sid date times time Havail Hin.
  destruct (getAvailability_200 _ _ _ _ _ _ Havail)
    as (Hsid & y & m & d & service & Hdate & Hv & Hsvc & Hact & Hdur).
  rewrite (getAvailability_grid offset zone tsNow db sid date y m d service)
    in Havail by assumption.
  apply (f_equal (fun r => match r with Avail200 l => l | _ => [] end)) in Havail.
  cbv beta iota in Havail. subst times.
  apply in_map_iff in Hin. destruct Hin as (M & <- & HM).
  apply filter_In in HM. destruct HM as [HM Hoff].
  unfold offered in Hoff. apply andb_true_iff in Hoff. destruct Hoff as [Hcov Hfree].
  unfold isSessionCoveredBySlots in Hcov. apply existsb_exists in Hcov.
  destruct Hcov as (w & Hw & Hwc).
  unfold Prisma.slotsOverlapping in Hw. apply orderByAsc_In in Hw.
  apply filter_In in Hw. destruct Hw as [Hw Hwf].
  rewrite !andb_true_iff in Hwf. destruct Hwf as [[Hwsid _] _].
  apply String.eqb_eq in Hwsid.
  apply andb_true_iff in Hwc. destruct Hwc as [Hws Hwe].
  apply Z.leb_le in Hws. apply Z.leb_le in Hwe.
  exists y, m, d, service, M, w. repeat split; try assumption.
  unfold txCheck, Prisma.findConflicts. apply filter_none. intros b Hb.
  destruct (String.eqb_spec (serviceId b) sid) as [Hbs | Hbs]; [| reflexivity].
  destruct (isCancelled (status b)) eqn:Hbc; [reflexivity |].
  cbn [negb andb]. unfold Prisma.inDates. cbn [existsb]. rewrite orb_false_r.
  destruct (Z.eqb_spec (startAt b) (instantOf offset (Luxon.daysFromCivil y m d) M))
    as [Heq | Hne]; [| reflexivity].
  exfalso. apply negb_true_iff in Hfree.
  assert (Hbooked : Prisma.inDates (instantOf offset (Luxon.daysFromCivil y m d) M)
                      (Prisma.bookedStarts db sid
                         (instantOf offset (Luxon.daysFromCivil y m d)
                                    (minuteOfDay DAY_START))
                         (instantOf offset (Luxon.daysFromCivil y m d)
                                    (minuteOfDay DAY_END))) = true).
  { apply inDates_In. unfold Prisma.bookedStarts. rewrite <- Heq.
    apply in_map. apply filter_In. split; [exact Hb |].
    rewrite (proj2 (String.eqb_eq _ _) Hbs), Hbc. cbn [negb andb].
    pose proof (gridMinutes_last_fits M HM) as HMb.
    rewrite Heq. unfold instantOf, atMinute. cbn [Luxon.ts]. unfold_rules. unfold_ms.
    apply andb_true_iff. split; [apply Z.leb_le | apply Z.ltb_lt]; lia. }
  congruence.
Qed.

End RoundTrip.

(** C2, as the code has it.  With no other request running, no storage
    failure and an authenticated user: every time of day returned by the
    availability computation, passed at once to [POST /bookings] for the same
    service and date with one session, is booked, provided its start instant
    is not before the clock reading of the commit.  The response is 201 with
    count 1, exactly one Booking row is inserted, its start instant is the
    instant of that time of day on that date, and it is in the returned
    list. *)
Theorem availability_then_commit :
  forall offset, EuropeanZone offset ->
  forall tsNow db sid date times time tsCommit uid nt,
    getAvailability offset tsNow db sid date = Avail200 times ->
    In time times ->
    noteAccepted nt ->
    (forall start, parseOsloDateTime offset tsCommit date time = Some start ->
                   tsCommit <= Luxon.toJSDate start) ->
    exists start b created,
      parseOsloDateTime offset tsCommit date time = Some start
      /\ postBookings offset tsCommit None db (Some uid) (bodyFor sid date time 1 nt)
         = (Post201 1 created, withBookings db (bookings db ++ [b]))
      /\ startAt b = Luxon.toJSDate start
      /\ endAt b = startAt b + SESSION_MIN * 60 * 1000
      /\ userId b = uid /\ serviceId b = sid /\ note b = nt
      /\ status b = CONFIRMED
      /\ In (bookingView b) created.
Proof.
  intros offset zone tsNow db sid date times time tsCommit uid nt Havail Hin Hnote
         Hfuture.
  destruct (offered_time offset zone tsNow db sid date times time Havail Hin)
    as (y & m & d & service & M & w & Hsid & Hdate & Hv & Hsvc & Hact & Hdur
        & -> & HM & Hw & Hwsid & Hws & Hwe & Hfree).
  pose proof (gridMinutes_last_fits M HM) as Hb.
  set (D := Luxon.daysFromCivil y m d) in *.
  set (cs := instantOf offset D M) in *.
  assert (Hparse : parseOsloDateTime offset tsCommit date (formatMinute M)
                   = Some (atMinute offset D M))
    by (apply (parseOsloDateTime_formatMinute offset zone); assumption || lia).
  pose proof (Hfuture _ Hparse) as Hnow. unfold Luxon.toJSDate in Hnow.
  change (Luxon.ts (atMinute offset D M)) with cs in Hnow.
  pose proof (validateRequest_offered offset zone tsCommit db sid date y m d service
                M uid nt w Hsid Hdate Hv Hsvc Hact Hdur Hnote HM Hw Hwsid Hws Hwe)
    as Hval.
  cbv zeta in Hval. fold D in Hval. fold cs in Hval.
  replace (cs <? tsCommit) with false in Hval by (symmetry; apply Z.ltb_ge; lia).
  destruct (postBookings_validated offset tsCommit None db (Some uid)
              (bodyFor sid date (formatMinute M) 1 nt) _ Hval)
    as [[Hc _] | [(_ & Hf & _) | (_ & _ & E)]].
  - simpl in Hc. contradiction.
  - contradiction.
  - cbn [tx_userId tx_serviceId tx_note tx_startsUtc] in E.
    exists (atMinute offset D M).
    exists {| id := Prisma.nextId (bookings db); userId := uid; serviceId := sid;
              startAt := cs; endAt := sessionEnd cs; status := CONFIRMED;
              note := nt |}.
    eexists. split; [exact Hparse |]. split; [exact E |].
    repeat split.
    apply in_map. unfold Prisma.findByUserAndStarts. apply orderByAsc_In.
    apply filter_In. split.
    + apply in_or_app. right. left. reflexivity.
    + cbn [userId serviceId startAt]. rewrite !String.eqb_refl. cbn [andb].
      apply inDates_In. left. reflexivity.
Qed.

(** The offered time 09:20, booked six days ahead. *)
Lemma availability_then_commit_witness :
  exists start b created,
    parseOsloDateTime oslo2026 clockBefore "2026-01-15" "09:20" = Some start
    /\ postBookings oslo2026 clockBefore None demoDb (Some "u1"%string)
                    (bodyFor "singing-15" "2026-01-15" "09:20" 1 None)
       = (Post201 1 created, withBookings demoDb (bookings demoDb ++ [b]))
    /\ startAt b = Luxon.toJSDate start
    /\ endAt b = startAt b + SESSION_MIN * 60 * 1000
    /\ userId b = "u1"%string /\ serviceId b = "singing-15"%string /\ note b = None
    /\ status b = CONFIRMED
    /\ In (bookingView b) created.
Proof.
  apply (availability_then_commit oslo2026 oslo2026_european clockBefore demoDb
           "singing-15" "2026-01-15"
           ["09:00"; "09:20"; "09:40"; "10:00"; "10:20"; "10:40"; "11:00"; "11:20";
            "11:40"]%string).
  - vm_compute. reflexivity.
  - simpl. auto.
  - exact I.
  - intros start H. vm_compute in H. injection H as <-. vm_compute. discriminate.
Defined.

(** C2 as stated fails: on 2026-01-21 the availability computation still
    returns the open times of 2026-01-15, and the commit of the first of
    them is rejected as being in the past. *)
Lemma round_trip_fails_in_the_past :
  getAvailability oslo2026 clockAfter demoDb "singing-15" "2026-01-15"
  = Avail200 ["09:00"; "09:20"; "09:40"; "10:00"; "10:20"; "10:40"; "11:00";
              "11:20"; "11:40"]%string
  /\ postBookings oslo2026 clockAfter None demoDb (Some "u1"%string)
                  (bodyFor "singing-15" "2026-01-15" "09:00" 1 None)
     = (Post400 MsgInThePast, demoDb).
Proof. split; vm_compute; reflexivity. Qed.

(** C10.  Every time of day the availability computation returns is on the
    grid ([isAlignedToStep]) and fits the business hours for one session.
    The computation does not compare with the clock: it returns the same
    list at every clock reading, also after the date, although
    [POST /bookings] rejects each returned time whose start is before its
    clock reading as being in the past. *)
Theorem availability_ignores_clock :
  forall offset, EuropeanZone offset ->
  forall tsNow db sid date times time,
    getAvailability offset tsNow db sid date = Avail200 times ->
    In time times ->
    (forall tsLater, getAvailability offset tsLater db sid date = Avail200 times)
    /\ exists start,
        (forall tsAny, parseOsloDateTime offset tsAny date time = Some start)
        /\ isAlignedToStep offset start = true
        /\ validateWithinBusinessHours offset start 1 = HoursOk
        /\ (forall tsCommit fault uid nt,
               noteAccepted nt ->
               Luxon.toJSDate start < tsCommit ->
               postBookings offset tsCommit fault db (Some uid)
                            (bodyFor sid date time 1 nt)
               = (Post400 MsgInThePast, db)).
Proof.
  intros offset zone tsNow db sid date times time Havail Hin.
  destruct (offered_time offset zone tsNow db sid date times time Havail Hin)
    as (y & m & d & service & M & w & Hsid & Hdate & Hv & Hsvc & Hact & Hdur
        & -> & HM & Hw & Hwsid & Hws & Hwe & Hfree).
  pose proof (gridMinutes_last_fits M HM) as Hb.
  split.
  - intro tsLater.
    rewrite (getAvailability_grid offset zone tsNow db sid date y m d service)
      in Havail by assumption.
    rewrite (getAvailability_grid offset zone tsLater db sid date y m d service)
      by assumption.
    exact Havail.
  - exists (atMinute offset (Luxon.daysFromCivil y m d) M).
    split; [| split; [| split]].
    + intro tsAny. apply (parseOsloDateTime_formatMinute offset zone); assumption || lia.
    + rewrite (isAlignedToStep_daytime offset zone) by lia.
      apply gridMinutes_spec in HM. destruct HM as [_ Hmod]. unfold_rules.
      change (8 * 60 + 0) with 480 in Hmod. change (15 + 5) with 20 in Hmod.
      rewrite Hmod. replace (480 <=? M) with true by (symmetry; apply Z.leb_le; lia).
      reflexivity.
    + rewrite (validateWithinBusinessHours_daytime offset zone) by lia.
      replace (M <? 480) with false by (symmetry; apply Z.ltb_ge; lia).
      replace (900 <? M + (1 - 1) * 20 + 15) with false
        by (symmetry; apply Z.ltb_ge; lia).
      reflexivity.
    + intros tsCommit fault uid nt Hnote Hpast.
      pose proof (validateRequest_offered offset zone tsCommit db sid date y m d
                    service M uid nt w Hsid Hdate Hv Hsvc Hact Hdur Hnote HM Hw
                    Hwsid Hws Hwe) as Hval.
      cbv zeta in Hval. unfold Luxon.toJSDate in Hpast.
      change (Luxon.ts (atMinute offset (Luxon.daysFromCivil y m d) M))
        with (instantOf offset (Luxon.daysFromCivil y m d) M) in Hpast.
      replace (instantOf offset (Luxon.daysFromCivil y m d) M <? tsCommit)
        with true in Hval by (symmetry; apply Z.ltb_lt; lia).
      unfold postBookings. rewrite Hval. reflexivity.
Qed.

(** Six days after 2026-01-15 its open times are still returned, and 11:40
    is rejected by the commit at every later clock reading. *)
Lemma availability_ignores_clock_witness :
  getAvailability oslo2026 clockAfter demoDb "singing-15" "2026-01-15"
  = Avail200 ["09:00"; "09:20"; "09:40"; "10:00"; "10:20"; "10:40"; "11:00";
              "11:20"; "11:40"]%string
  /\ exists start,
      (forall tsAny, parseOsloDateTime oslo2026 tsAny "2026-01-15" "11:40"
                     = Some start)
      /\ isAlignedToStep oslo2026 start = true
      /\ validateWithinBusinessHours oslo2026 start 1 = HoursOk
      /\ (forall tsCommit fault uid nt,
             noteAccepted nt ->
             Luxon.toJSDate start < tsCommit ->
             postBookings oslo2026 tsCommit fault demoDb (Some uid)
                          (bodyFor "singing-15" "2026-01-15" "11:40" 1 nt)
             = (Post400 MsgInThePast, demoDb)).
Proof.
  destruct (availability_ignores_clock oslo2026 oslo2026_european clockBefore demoDb
              "singing-15" "2026-01-15"
              ["09:00"; "09:20"; "09:40"; "10:00"; "10:20"; "10:40"; "11:00";
               "11:20"; "11:40"]%string "11:40"
              ltac:(vm_compute; reflexivity) ltac:(simpl; tauto)) as [H1 H2].
  split; [apply H1 | exact H2].
Defined.

(** ** The order of the validation steps *)

Lemma validateWithinBusinessHours_messages : forall offset start sessions,
    validateWithinBusinessHours offset start sessions = HoursOk
    \/ validateWithinBusinessHours offset start sessions = HoursFail MsgBeforeOpening
    \/ validateWithinBusinessHours offset start sessions = HoursFail MsgExceedsClosing.
Proof.
  intros offset start sessions. unfold validateWithinBusinessHours.
  destruct (Luxon.ltb start (Luxon.set offset start DAY_START)); [tauto |].
  destruct (Luxon.gtb _ _); tauto.
Qed.

(** C9, as the code has it.  For a request of the schema's shape from an
    authenticated user, the handler rejects with the error of the first
    failing step in the order InvalidInput, NotOnGrid, OutsideBusinessHours
    (before opening or exceeds closing), InThePast (start strictly before
    the clock reading), ServiceUnavailable (missing, inactive or duration
    other than 15), NotWithinAvailability, whatever the later steps would
    say; it opens the transaction exactly when no step fails.  Step 1 fails
    exactly when the calendar fields are out of range for Luxon (month, day
    of the month, hour, minute); whether the local time exists in the zone
    plays no part in it. *)
Theorem validateRequest_first_failure :
  forall offset tsNow db uid body,
    createBookingSchema body = true ->
    (stepParse offset tsNow body = Some InvalidInput
     <-> exists y m d hh mm,
        Wire.dateFields (body_date body) = Some (y, m, d)
        /\ Wire.timeFields (body_startTime body) = Some (hh, mm)
        /\ Luxon.validFields y m d hh mm = false)
    /\ match validateRequest offset tsNow db (Some uid) body with
       | inl response =>
           rejectionOf response <> None
           /\ rejectionOf response = firstFailure (pipeline offset tsNow db body)
       | inr _ => firstFailure (pipeline offset tsNow db body) = None
       end.
Proof.
  intros offset tsNow db uid body Hschema. split.
  - unfold createBookingSchema in Hschema.
    repeat (apply andb_true_iff in Hschema; destruct Hschema as [Hschema ?]).
    unfold stepParse, parseOsloDateTime, Luxon.fromObject.
    destruct (Wire.dateFields (body_date body)) as [[[y m] d] |]; [| discriminate].
    destruct (Wire.timeFields (body_startTime body)) as [[hh mm] |];
      [| discriminate].
    split.
    + intro Hs. exists y, m, d, hh, mm.
      destruct (Luxon.validFields y m d hh mm); [discriminate | auto].
    + intros (y' & m' & d' & hh' & mm' & E1 & E2 & Hv).
      injection E1 as <- <- <-. injection E2 as <- <-.
      rewrite Hv. reflexivity.
  - unfold validateRequest, pipeline, stepParse, stepGrid, stepHours, stepPast,
      stepService, stepAvailability, onStart.
    rewrite Hschema. cbn [negb].
    destruct (parseOsloDateTime offset tsNow (body_date body) (body_startTime body))
      as [start |]; cbn [firstFailure]; [| split; [discriminate | reflexivity]].
    destruct (isAlignedToStep offset start); cbn [negb firstFailure];
      [| split; [discriminate | reflexivity]].
    destruct (validateWithinBusinessHours_messages offset start (body_sessions body))
      as [E | [E | E]]; rewrite E; cbn [firstFailure];
      [| split; [discriminate | reflexivity] ..].
    unfold Luxon.ltb, Luxon.nowIn, Luxon.toJSDate. cbn [Luxon.ts].
    destruct (Luxon.ts start <? tsNow); cbn [firstFailure];
      [split; [discriminate | reflexivity] |].
    destruct (Prisma.serviceFindUnique db (body_serviceId body)) as [service |];
      cbn [firstFailure]; [| split; [discriminate | reflexivity]].
    destruct (isActive service); cbn [negb andb firstFailure];
      [| split; [discriminate | reflexivity]].
    destruct (durationMin service =? SESSION_MIN); cbn [negb firstFailure];
      [| split; [discriminate | reflexivity]].
    destruct (forallb _ _); cbn [negb firstFailure];
      [reflexivity | split; [discriminate | reflexivity]].
Qed.

(** C9, as the specification words it, fails.  02:30 on 2026-03-29 does not
    exist in Europe/Oslo: the clocks go from 02:00 to 03:00.  The
    specification has step 1 reject a nonexistent local date-time as
    InvalidInput; Luxon moves the time forward to 03:30, the handler goes
    on to step 2 and answers that the start is not on the grid. *)
Lemma skipped_local_time_not_invalid_input :
  createBookingSchema (bodyFor "singing-15" "2026-03-29" "02:30" 1 None) = true
  /\ Wire.dateFields "2026-03-29" = Some (2026, 3, 29)
  /\ Wire.timeFields "02:30" = Some (2, 30)
  /\ nonexistentLocalTime oslo2026 2026 3 29 2 30
  /\ option_map Luxon.toFormatHHmm
                (parseOsloDateTime oslo2026 clockBefore "2026-03-29" "02:30")
     = Some "03:30"%string
  /\ validateRequest oslo2026 clockBefore demoDb (Some "u1"%string)
                     (bodyFor "singing-15" "2026-03-29" "02:30" 1 None)
     = inl (Post400 MsgNotAligned)
  /\ rejectionOf (Post400 MsgNotAligned) = Some NotOnGrid
  /\ rejectionOf (Post400 MsgNotAligned) <> Some InvalidInput.
Proof.
  split; [vm_compute; reflexivity |].
  split; [vm_compute; reflexivity |].
  split; [vm_compute; reflexivity |].
  split.
  - unfold nonexistentLocalTime. intros [t Ht].
    change (Luxon.objToLocalTS 2026 3 29 2 30) with 1774751400000 in Ht.
    change Luxon.MS_PER_MINUTE with 60000 in Ht.
    unfold oslo2026 in Ht.
    destruct (Z.leb_spec 1774746000000 t); destruct (Z.ltb_spec t 1792890000000);
      cbn [andb] in Ht; lia.
  - split; [vm_compute; reflexivity |].
    split; [vm_compute; reflexivity |].
    split; [reflexivity | discriminate].
Qed.

(** A request that fails five steps at once (not on the grid, before
    opening, in the past, unknown service, outside every window) is rejected
    as not on the grid. *)
Lemma validateRequest_first_failure_witness :
  validateRequest oslo2026 clockAfter demoDb (Some "u1"%string)
                  (bodyFor "absent" "2026-01-15" "07:40" 1 None)
  = inl (Post400 MsgNotAligned)
  /\ firstFailure (pipeline oslo2026 clockAfter demoDb
                            (bodyFor "absent" "2026-01-15" "07:40" 1 None))
     = Some NotOnGrid
  /\ pipeline oslo2026 clockAfter demoDb (bodyFor "absent" "2026-01-15" "07:40" 1 None)
     = [ None; Some NotOnGrid; Some (OutsideBusinessHours BeforeOpening);
         Some InThePast; Some ServiceUnavailable; Some NotWithinAvailability ].
Proof.
  pose proof (validateRequest_first_failure
                oslo2026 clockAfter demoDb "u1"
                (bodyFor "absent" "2026-01-15" "07:40" 1 None) eq_refl) as H.
  assert (E : validateRequest oslo2026 clockAfter demoDb (Some "u1"%string)
                              (bodyFor "absent" "2026-01-15" "07:40" 1 None)
              = inl (Post400 MsgNotAligned)) by (vm_compute; reflexivity).
  destruct H as [_ H]. rewrite E in H. destruct H as [_ H].
  split; [exact E |]. split; [symmetry; exact H | vm_compute; reflexivity].
Defined.

(** C3.  For an active service of 15 minutes and a calendar date, the
    availability computation returns exactly the candidates of the grid from
    08:00, every 20 minutes, before 15:00, for which some row of the window
    table, of this service and overlapping the business day (the fetched
    windows), contains the session [start, start + 15 min], and whose start
    instant is not the start of a row of the booking table of this service
    that is not cancelled and starts within the business day (the fetched
    bookings); in ascending order of time of day and without duplicates.
    The instant of a candidate is the one its time string denotes on that
    date. *)
Theorem getAvailability_exact :
  forall offset, EuropeanZone offset ->
  forall tsNow db sid date y m d service,
    sid <> EmptyString ->
    Wire.dateFields date = Some (y, m, d) -> validDate y m d = true ->
    Prisma.serviceFindUnique db sid = Some service ->
    isActive service = true -> durationMin service = SESSION_MIN ->
    let D := Luxon.daysFromCivil y m d in
    let dayStartUtc := instantOf offset D (minuteOfDay DAY_START) in
    let dayEndUtc := instantOf offset D (minuteOfDay DAY_END) in
    exists open,
      getAvailability offset tsNow db sid date = Avail200 (map formatMinute open)
      /\ (forall M,
             In M open <->
             (minuteOfDay DAY_START <= M < minuteOfDay DAY_END
              /\ (M - minuteOfDay DAY_START) mod STEP_MIN = 0)
             /\ (exists w, In w (slots db)
                           /\ slot_serviceId w = sid
                           /\ slot_startAt w < dayEndUtc
                           /\ dayStartUtc < slot_endAt w
                           /\ slot_startAt w <= instantOf offset D M
                           /\ instantOf offset D M + SESSION_MIN * 60 * 1000
                              <= slot_endAt w)
             /\ ~ (exists b, In b (bookings db)
                             /\ serviceId b = sid
                             /\ status b <> CANCELLED
                             /\ dayStartUtc <= startAt b < dayEndUtc
                             /\ startAt b = instantOf offset D M))
      /\ (forall M, In M open ->
                    option_map Luxon.toJSDate
                               (parseOsloDateTime offset tsNow date (formatMinute M))
                    = Some (instantOf offset D M))
      /\ StronglySorted Z.lt open
      /\ NoDup (map formatMinute open).
Proof.
  intros offset zone tsNow db sid date y m d service Hsid Hdate Hv Hsvc Hact Hdur
         D dayStartUtc dayEndUtc.
  set (windows := Prisma.slotsOverlapping db sid dayEndUtc dayStartUtc).
  set (booked := Prisma.bookedStarts db sid dayStartUtc dayEndUtc).
  set (open := filter (fun M => offered windows booked (instantOf offset D M))
                      gridMinutes).
  assert (Hgrid : forall M, In M open -> 480 <= M < 900).
  { intros M HM. apply filter_In in HM. destruct HM as [HM _].
    apply gridMinutes_spec in HM. unfold_rules. lia. }
  exists open. split; [| split; [| split; [| split]]].
  - apply (getAvailability_grid offset zone) with (service := service); assumption.
  - intro M. unfold open. rewrite filter_In, gridMinutes_spec.
    unfold offered, isSessionCoveredBySlots, sessionEnd, Prisma.inDates.
    rewrite andb_true_iff, negb_true_iff.
    split.
    + intros (Hg & Hw & Hb). split; [exact Hg |]. split.
      * apply existsb_exists in Hw. destruct Hw as (w & Hin & Hc).
        unfold windows, Prisma.slotsOverlapping in Hin.
        apply orderByAsc_In in Hin. apply filter_In in Hin.
        destruct Hin as [Hin Hq].
        apply andb_true_iff in Hq. destruct Hq as [Hq H3].
        apply andb_true_iff in Hq. destruct Hq as [H1 H2].
        apply andb_true_iff in Hc. destruct Hc as [H4 H5].
        apply String.eqb_eq in H1. apply Z.ltb_lt in H2, H3.
        apply Z.leb_le in H4, H5.
        exists w. repeat split; assumption.
      * intros (b & Hin & Hs & Hst & [Hlo Hhi] & He).
        assert (Ht : existsb (Z.eqb (instantOf offset D M)) booked = true).
        { apply existsb_exists. exists (startAt b). split.
          - unfold booked, Prisma.bookedStarts. apply in_map. apply filter_In.
            split; [exact Hin |].
            apply String.eqb_eq in Hs. apply Z.leb_le in Hlo. apply Z.ltb_lt in Hhi.
            rewrite Hs, Hlo, Hhi.
            destruct (status b); [reflexivity | reflexivity | congruence].
          - rewrite He. apply Z.eqb_refl. }
        congruence.
    + intros (Hg & (w & Hin & H1 & H2 & H3 & H4 & H5) & Hnb).
      split; [exact Hg |]. split.
      * apply existsb_exists. exists w. split.
        -- unfold windows, Prisma.slotsOverlapping.
           apply orderByAsc_In. apply filter_In. split; [exact Hin |].
           apply String.eqb_eq in H1. apply Z.ltb_lt in H2, H3.
           rewrite H1, H2, H3. reflexivity.
        -- apply Z.leb_le in H4, H5. rewrite H4, H5. reflexivity.
      * destruct (existsb (Z.eqb (instantOf offset D M)) booked) eqn:E;
          [| reflexivity].
        exfalso. apply Hnb.
        apply existsb_exists in E. destruct E as (x & Hx & Ex).
        apply Z.eqb_eq in Ex. subst x.
        unfold booked, Prisma.bookedStarts in Hx.
        apply in_map_iff in Hx. destruct Hx as (b & Hb & Hfb).
        apply filter_In in Hfb. destruct Hfb as [Hfb Hq].
        apply andb_true_iff in Hq. destruct Hq as [Hq Q4].
        apply andb_true_iff in Hq. destruct Hq as [Hq Q3].
        apply andb_true_iff in Hq. destruct Hq as [Q1 Q2].
        apply String.eqb_eq in Q1. apply Z.leb_le in Q3. apply Z.ltb_lt in Q4.
        exists b. repeat split; try assumption.
        intro Hc. rewrite Hc in Q2. discriminate.
  - intros M HM. pose proof (Hgrid M HM).
    rewrite (parseOsloDateTime_formatMinute offset zone _ _ y m d) by (assumption || lia).
    reflexivity.
  - apply filter_sorted. apply gridMinutes_sorted.
  - apply sorted_formatMinute_NoDup.
    + apply filter_sorted. apply gridMinutes_sorted.
    + intros M HM. pose proof (Hgrid M HM). lia.
Qed.

(** One window 09:00-12:00 and three bookings on 2026-01-15: the confirmed
    booking at 11:00 removes that time, the cancelled one at 09:20 and the
    one of another service at 10:00 remove nothing. *)
Lemma getAvailability_exact_witness :
  exists open,
    getAvailability oslo2026 clockBefore demoBookedDb "singing-15" "2026-01-15"
    = Avail200 (map formatMinute open)
    /\ map formatMinute open
       = ["09:00"; "09:20"; "09:40"; "10:00"; "10:20"; "10:40"; "11:20";
          "11:40"]%string
    /\ ~ In 660 open.
Proof.
  destruct (getAvailability_exact
              oslo2026 oslo2026_european clockBefore demoBookedDb
              "singing-15" "2026-01-15" 2026 1 15 demoService
              ltac:(discriminate) eq_refl eq_refl eq_refl eq_refl eq_refl)
    as (open & Hget & Hmem & _).
  exists open. split; [exact Hget |]. split.
  - assert (E : getAvailability oslo2026 clockBefore demoBookedDb
                                "singing-15" "2026-01-15"
                = Avail200 ["09:00"; "09:20"; "09:40"; "10:00"; "10:20"; "10:40";
                            "11:20"; "11:40"]%string)
      by (vm_compute; reflexivity).
    rewrite E in Hget.
    exact (f_equal (fun r => match r with Avail200 l => l | _ => [] end)
                   (eq_sym Hget)).
  - intro Hin. apply Hmem in Hin. destruct Hin as (_ & _ & Hnb).
    apply Hnb. exists (bookingAt11 CONFIRMED).
    split; [left; reflexivity |].
    split; [reflexivity |].
    split; [discriminate |].
    split; [vm_compute; split; [discriminate | reflexivity] | vm_compute; reflexivity].
Defined.

(** * Further properties of the routers *)

(** ** The grid check and the session instants *)

Lemma parseOsloDateTime_fields : forall offset tsNow date time start,
    parseOsloDateTime offset tsNow date time = Some start ->
    exists y m d hh mm,
      Wire.dateFields date = Some (y, m, d)
      /\ Wire.timeFields time = Some (hh, mm)
      /\ Luxon.fromObject offset tsNow y m d hh mm = Some start
      /\ Luxon.validFields y m d hh mm = true.
Proof.
  intros offset tsNow date time start H. unfold parseOsloDateTime in H.
  destruct (Wire.dateFields date) as [[[y m] d] |]; [| discriminate].
  destruct (Wire.timeFields time) as [[hh mm] |]; [| discriminate].
  exists y, m, d, hh, mm. repeat split; try assumption.
  apply fromObject_valid in H. exact H.
Qed.

Lemma validFields_validDate : forall y m d hh mm,
    Luxon.validFields y m d hh mm = true -> validDate y m d = true.
Proof.
  intros y m d hh mm H. unfold Luxon.validFields in H. unfold validDate.
  rewrite !andb_true_iff in H. rewrite !andb_true_iff. tauto.
Qed.

(** A start the grid check accepts is a grid minute of its date. *)
Lemma aligned_start : forall offset, EuropeanZone offset ->
  forall tsNow date time start,
    parseOsloDateTime offset tsNow date time = Some start ->
    isAlignedToStep offset start = true ->
    exists y m d hh mm,
      Wire.dateFields date = Some (y, m, d)
      /\ Wire.timeFields time = Some (hh, mm)
      /\ validDate y m d = true
      /\ hh <= 23 /\ 480 <= hh * 60 + mm < 1440
      /\ (hh * 60 + mm - 480) mod 20 = 0
      /\ start = atMinute offset (Luxon.daysFromCivil y m d) (hh * 60 + mm).
Proof.
  intros offset zone tsNow date time start Hparse Hal.
  destruct (parseOsloDateTime_fields _ _ _ _ _ Hparse)
    as (y & m & d & hh & mm & Hdate & Htime & Hfrom & Hv).
  destruct (validFields_time _ _ _ _ _ Hv) as [Hmm Hhh].
  assert (Hcases : (hh <= 23 /\ 180 <= hh * 60 + mm) \/ (hh * 60 + mm < 180 \/ hh = 24))
    by lia.
  destruct Hcases as [[Hh HM] | Hnight].
  - rewrite (fromObject_daytime offset zone) in Hfrom by assumption.
    injection Hfrom as <-.
    rewrite (isAlignedToStep_daytime offset zone) in Hal by lia.
    apply andb_true_iff in Hal. destruct Hal as [H1 H2].
    apply Z.leb_le in H1. apply Z.eqb_eq in H2.
    exists y, m, d, hh, mm. repeat split; try assumption; try lia.
    apply validFields_validDate with (hh := hh) (mm := mm). exact Hv.
  - destruct (fromObject_night offset zone tsNow y m d hh mm Hv Hnight)
      as (dt & D & M & E & Hd & HM).
    rewrite Hfrom in E. injection E as <-.
    rewrite (isAlignedToStep_night offset zone start D M) in Hal by assumption.
    discriminate.
Qed.

(** X1.  For a start time that [parseOsloDateTime] accepts, the grid check
    holds exactly when the hour is at most 23, the time is 08:00 or later and
    a whole number of 20-minute steps after 08:00.  (24:00 is a valid time
    for the parser and is not on the grid.) *)
Theorem isAlignedToStep_iff :
  forall offset, EuropeanZone offset ->
  forall tsNow date time hh mm start,
    Wire.timeFields time = Some (hh, mm) ->
    parseOsloDateTime offset tsNow date time = Some start ->
    (isAlignedToStep offset start = true
     <-> hh <= 23 /\ minuteOfDay DAY_START <= hh * 60 + mm
         /\ (hh * 60 + mm - minuteOfDay DAY_START) mod STEP_MIN = 0).
Proof.
  intros offset zone tsNow date time hh mm start Htime Hparse. unfold_rules.
  change (8 * 60 + 0) with 480. change (15 + 5) with 20. split.
  - intro Hal.
    destruct (aligned_start offset zone _ _ _ _ Hparse Hal)
      as (y & m & d & hh' & mm' & _ & Htime' & _ & Hh & HM & Hmod & _).
    rewrite Htime in Htime'. injection Htime' as <- <-. lia.
  - intros (Hh & HM & Hmod).
    destruct (parseOsloDateTime_fields _ _ _ _ _ Hparse)
      as (y & m & d & hh' & mm' & _ & Htime' & Hfrom & Hv).
    rewrite Htime in Htime'. injection Htime' as <- <-.
    destruct (validFields_time _ _ _ _ _ Hv) as [Hmm _].
    rewrite (fromObject_daytime offset zone) in Hfrom by (assumption || lia).
    injection Hfrom as <-.
    rewrite (isAlignedToStep_daytime offset zone) by lia.
    rewrite Hmod. replace (480 <=? hh * 60 + mm) with true
      by (symmetry; apply Z.leb_le; lia).
    reflexivity.
Qed.

(** 14:40, the last grid time of the day, and 24:00, which is not on the
    grid. *)
Lemma isAlignedToStep_iff_witness :
  (exists start, parseOsloDateTime oslo2026 clockBefore "2026-01-15" "14:40" = Some start
                 /\ isAlignedToStep oslo2026 start = true)
  /\ (exists start, parseOsloDateTime oslo2026 clockBefore "2026-01-15" "24:00" = Some start
                    /\ isAlignedToStep oslo2026 start <> true).
Proof.
  split; eexists; (split; [reflexivity |]).
  - apply (proj2 (isAlignedToStep_iff oslo2026 oslo2026_european clockBefore
                    "2026-01-15" "14:40" 14 40 _ eq_refl eq_refl)).
    vm_compute. repeat split; congruence.
  - intro H.
    apply (proj1 (isAlignedToStep_iff oslo2026 oslo2026_european clockBefore
                    "2026-01-15" "24:00" 24 0 _ eq_refl eq_refl)) in H.
    lia.
Defined.

(** X2.  In every zone, also across a change of offset, the session starts
    of a request are instants exactly 20 minutes apart in request order: as
    many as [sessions], strictly ascending, and none when [sessions] is not
    positive. *)
Theorem buildSessionStartsUtc_spacing :
  forall offset start sessions,
    exists first,
      buildSessionStartsUtc offset start sessions
      = map (fun i => first + Z.of_nat i * (STEP_MIN * 60 * 1000))
            (seq 0 (Z.to_nat sessions))
      /\ List.length (buildSessionStartsUtc offset start sessions) = Z.to_nat sessions
      /\ StronglySorted Z.lt (buildSessionStartsUtc offset start sessions)
      /\ (sessions <= 0 -> buildSessionStartsUtc offset start sessions = []).
Proof.
  intros offset start sessions.
  exists (fst (Luxon.fixOffset offset (Luxon.localTS start) (Luxon.o start))).
  split; [| split; [| split]].
  - rewrite buildSessionStartsUtc_steps. apply map_ext. intro i. lia.
  - apply buildSessionStartsUtc_length.
  - apply buildSessionStartsUtc_sorted.
  - intro H. unfold buildSessionStartsUtc.
    replace (Z.to_nat sessions) with 0%nat by lia. reflexivity.
Qed.

Lemma sessionMinutes_grid : forall M sessions,
    480 <= M -> (M - 480) mod 20 = 0 -> M + (sessions - 1) * 20 + 15 <= 900 ->
    Forall (fun Mi => In Mi gridMinutes) (sessionMinutes M sessions).
Proof.
  intros M sessions HM Hmod Hend. apply Forall_forall. intros Mi Hin.
  unfold sessionMinutes in Hin. apply in_map_iff in Hin.
  destruct Hin as (i & <- & Hi). apply in_seq in Hi.
  apply gridMinutes_spec. unfold_rules.
  change (8 * 60 + 0) with 480. change (15 * 60 + 0) with 900. change (15 + 5) with 20.
  split; [lia |].
  replace (M + 20 * Z.of_nat i - 480) with (M - 480 + Z.of_nat i * 20) by lia.
  rewrite Z.mod_add by lia. exact Hmod.
Qed.

Lemma buildSessionStartsUtc_minutes : forall offset, EuropeanZone offset ->
  forall D M sessions,
    180 <= M < 1440 ->
    buildSessionStartsUtc offset (atMinute offset D M) sessions
    = map (instantOf offset D) (sessionMinutes M sessions).
Proof.
  intros offset zone D M sessions HM.
  unfold buildSessionStartsUtc, sessionMinutes. rewrite map_map.
  apply map_ext. intro i.
  rewrite (plusMinutes_consistent offset)
    by (apply atMinute_consistent; assumption).
  unfold Luxon.toJSDate, instantOf, atMinute. cbn [Luxon.ts]. unfold_rules. unfold_ms.
  lia.
Qed.

(** What a validated request is, in minutes of its day. *)
Lemma validated_request : forall offset, EuropeanZone offset ->
  forall tsNow db user body t,
    validateRequest offset tsNow db user body = inr t ->
    exists y m d hh mm service,
      Wire.dateFields (body_date body) = Some (y, m, d)
      /\ Wire.timeFields (body_startTime body) = Some (hh, mm)
      /\ validDate y m d = true
      /\ hh <= 23 /\ 480 <= hh * 60 + mm /\ (hh * 60 + mm - 480) mod 20 = 0
      /\ 1 <= body_sessions body
      /\ hh * 60 + mm + (body_sessions body - 1) * 20 + 15 <= 900
      /\ body_serviceId body <> EmptyString
      /\ Prisma.serviceFindUnique db (body_serviceId body) = Some service
      /\ isActive service = true /\ durationMin service = SESSION_MIN
      /\ tx_serviceId t = body_serviceId body
      /\ tx_startsUtc t
         = map (instantOf offset (Luxon.daysFromCivil y m d))
               (sessionMinutes (hh * 60 + mm) (body_sessions body)).
Proof.
  intros offset zone tsNow db user body t Hv.
  destruct (validateRequest_inr _ _ _ _ _ _ Hv)
    as (uid & start & service & _ & Hschema & Hparse & Hal & Hhours & _ & Hsvc
        & Hact & Hdur & _ & Ht).
  destruct (aligned_start offset zone _ _ _ _ Hparse Hal)
    as (y & m & d & hh & mm & Hdate & Htime & Hvd & Hh & HM & Hmod & ->).
  rewrite (validateWithinBusinessHours_daytime offset zone) in Hhours by lia.
  replace (hh * 60 + mm <? 480) with false in Hhours
    by (symmetry; apply Z.ltb_ge; lia).
  destruct (Z.ltb_spec 900 (hh * 60 + mm + (body_sessions body - 1) * 20 + 15))
    as [Hgt | Hle]; [discriminate |].
  unfold createBookingSchema in Hschema. rewrite !andb_true_iff in Hschema.
  destruct Hschema as [[[[Hsid _] _] Hs] _].
  apply Z.leb_le in Hsid. destruct Hs as [Hs1 _]. apply Z.leb_le in Hs1.
  exists y, m, d, hh, mm, service. subst t. cbn [tx_serviceId tx_startsUtc].
  repeat split; try assumption; try lia.
  - intro E. rewrite E in Hsid. simpl in Hsid. lia.
  - apply (buildSessionStartsUtc_minutes offset zone). lia.
Qed.

(** X3.  A request that reaches the transaction is for at most 21 sessions,
    and every session start is the instant of a grid time of the requested
    date (08:00, 08:20, ..., 14:40), 20 minutes after the one before. *)
Theorem validated_sessions_on_grid :
  forall offset, EuropeanZone offset ->
  forall tsNow db user body t,
    validateRequest offset tsNow db user body = inr t ->
    exists y m d hh mm,
      Wire.dateFields (body_date body) = Some (y, m, d)
      /\ Wire.timeFields (body_startTime body) = Some (hh, mm)
      /\ 1 <= body_sessions body <= Z.of_nat gridSize
      /\ tx_startsUtc t
         = map (instantOf offset (Luxon.daysFromCivil y m d))
               (sessionMinutes (hh * 60 + mm) (body_sessions body))
      /\ Forall (fun M => In M gridMinutes)
                (sessionMinutes (hh * 60 + mm) (body_sessions body)).
Proof.
  intros offset zone tsNow db user body t Hv.
  destruct (validated_request offset zone _ _ _ _ _ Hv)
    as (y & m & d & hh & mm & service & Hdate & Htime & _ & Hh & HM & Hmod & Hs
        & Hend & _ & _ & _ & _ & _ & Hstarts).
  exists y, m, d, hh, mm. unfold gridSize.
  repeat split; try assumption; try lia.
  apply sessionMinutes_grid; assumption.
Qed.

(** Two sessions from 11:00. *)
Lemma validated_sessions_on_grid_witness :
  exists t,
    validateRequest oslo2026 clockBefore demoDb (Some "u1"%string) (demoBody "11:00" 2)
    = inr t
    /\ tx_startsUtc t
       = map (instantOf oslo2026 (Luxon.daysFromCivil 2026 1 15)) [660; 680].
Proof.
  eexists. split; [vm_compute; reflexivity |].
  destruct (validated_sessions_on_grid
              oslo2026 oslo2026_european clockBefore demoDb (Some "u1"%string)
              (demoBody "11:00" 2) _ ltac:(vm_compute; reflexivity))
    as (y & m & d & hh & mm & Hd & Ht & _ & Hs & _).
  vm_compute in Hd. vm_compute in Ht.
  injection Hd as <- <- <-. injection Ht as <- <-.
  exact Hs.
Defined.

(** ** What the handler of POST /bookings never answers *)

Lemma validateRequest_inl_not_before_opening :
  forall offset, EuropeanZone offset ->
  forall tsNow db user body r,
    validateRequest offset tsNow db user body = inl r ->
    r <> Post400 MsgBeforeOpening.
Proof.
  intros offset zone tsNow db user body r H. unfold validateRequest in H.
  destruct (createBookingSchema body); [| injection H as <-; discriminate].
  cbn [negb] in H.
  destruct user as [uid |]; [| injection H as <-; discriminate].
  destruct (parseOsloDateTime offset tsNow (body_date body) (body_startTime body))
    as [start |] eqn:Hparse; [| injection H as <-; discriminate].
  destruct (isAlignedToStep offset start) eqn:Hal;
    [| injection H as <-; discriminate].
  cbn [negb] in H.
  destruct (aligned_start offset zone _ _ _ _ Hparse Hal)
    as (y & m & d & hh & mm & _ & _ & _ & Hh & HM & _ & ->).
  rewrite (validateWithinBusinessHours_daytime offset zone) in H by lia.
  replace (hh * 60 + mm <? 480) with false in H by (symmetry; apply Z.ltb_ge; lia).
  destruct (900 <? hh * 60 + mm + (body_sessions body - 1) * 20 + 15);
    [injection H as <-; discriminate |].
  repeat match type of H with
         | context [if ?c then _ else _] => destruct c
         | context [match ?c with _ => _ end] => destruct c
         end;
    try discriminate; injection H as <-; discriminate.
Qed.

(** X4.  [POST /bookings] never answers "Start time is before opening hours
    (08:00).": a start before 08:00 is already rejected by the grid check, as
    not aligned. *)
Theorem postBookings_never_before_opening :
  forall offset, EuropeanZone offset ->
  forall tsNow fault db user body,
    fst (postBookings offset tsNow fault db user body) <> Post400 MsgBeforeOpening.
Proof.
  intros offset zone tsNow fault db user body.
  destruct (validateRequest offset tsNow db user body) as [r | t] eqn:Hv.
  - unfold postBookings. rewrite Hv. simpl.
    apply (validateRequest_inl_not_before_opening offset zone _ _ _ _ _ Hv).
  - destruct (postBookings_validated offset tsNow fault db user body t Hv)
      as [[_ E] | [(_ & _ & E) | (_ & _ & E)]]; rewrite E; simpl; discriminate.
Qed.

(** A request for 07:40 is answered "not aligned". *)
Lemma postBookings_never_before_opening_witness :
  fst (postBookings oslo2026 clockBefore None demoDb (Some "u1"%string)
                    (demoBody "07:40" 1)) = Post400 MsgNotAligned
  /\ fst (postBookings oslo2026 clockBefore None demoDb (Some "u1"%string)
                       (demoBody "07:40" 1)) <> Post400 MsgBeforeOpening.
Proof.
  split; [vm_compute; reflexivity |].
  apply (postBookings_never_before_opening oslo2026 oslo2026_european).
Defined.

(** ** Availability after a commit *)

(** What a 201 response says about the request. *)
Lemma postBookings_201 : forall offset tsNow fault db user body n created db',
    postBookings offset tsNow fault db user body = (Post201 n created, db') ->
    exists t,
      validateRequest offset tsNow db user body = inr t
      /\ txCheck (bookings db) (tx_serviceId t) (tx_startsUtc t) = []
      /\ db' = withBookings db
                 (bookings db ++ insertedRows (bookings db) (tx_userId t)
                                              (tx_serviceId t) (tx_note t)
                                              (tx_startsUtc t))
      /\ created = map bookingView
                       (Prisma.findByUserAndStarts
                          (bookings db' ) (tx_userId t) (tx_serviceId t)
                          (tx_startsUtc t)).
Proof.
  intros offset tsNow fault db user body n created db' H.
  destruct (validateRequest offset tsNow db user body) as [r | t] eqn:Hv.
  - unfold postBookings in H. rewrite Hv in H. injection H as Hr _.
    destruct (validateRequest_inl_not_created _ _ _ _ _ _ Hv) as (H1 & _).
    exfalso. apply (H1 n created). exact Hr.
  - exists t. split; [reflexivity |].
    destruct (postBookings_validated offset tsNow fault db user body t Hv)
      as [[_ E] | [(_ & _ & E) | (Hc & _ & E)]]; rewrite E in H;
      try discriminate.
    injection H as _ Hcr Hdb. subst db'. split; [exact Hc |].
    split; [reflexivity |]. symmetry. exact Hcr.
Qed.

Lemma bookedStarts_after_insert : forall db sid lo hi rows,
    Forall (fun b => serviceId b = sid /\ status b = CONFIRMED
                     /\ lo <= startAt b < hi) rows ->
    Prisma.bookedStarts (withBookings db (bookings db ++ rows)) sid lo hi
    = Prisma.bookedStarts db sid lo hi ++ map startAt rows.
Proof.
  intros db sid lo hi rows H. unfold Prisma.bookedStarts, withBookings.
  cbn [bookings]. rewrite filter_app, map_app. do 2 f_equal.
  apply forallb_filter_id. apply forallb_forall. intros b Hb.
  rewrite Forall_forall in H. destruct (H b Hb) as (-> & -> & Hlo & Hhi).
  rewrite String.eqb_refl. cbn [isCancelled negb andb].
  apply andb_true_iff. split; [apply Z.leb_le | apply Z.ltb_lt]; assumption.
Qed.

Lemma filter_andb : forall (A : Type) (f g : A -> bool) l,
    filter (fun x => f x && g x) l = filter g (filter f l).
Proof.
  intros A f g l. induction l as [| x l IH]; simpl; [reflexivity |].
  destruct (f x); simpl; [destruct (g x) |]; rewrite IH; reflexivity.
Qed.

Lemma existsb_same : forall (A : Type) (p : A -> bool) l1 l2,
    (forall x, In x l1 <-> In x l2) -> existsb p l1 = existsb p l2.
Proof.
  intros A p l1 l2 H.
  destruct (existsb p l1) eqn:E1; destruct (existsb p l2) eqn:E2;
    try reflexivity.
  - apply existsb_exists in E1. destruct E1 as (x & Hx & Hp).
    assert (existsb p l2 = true) by (apply existsb_exists; exists x; split;
                                     [apply H; exact Hx | exact Hp]).
    congruence.
  - apply existsb_exists in E2. destruct E2 as (x & Hx & Hp).
    assert (existsb p l1 = true) by (apply existsb_exists; exists x; split;
                                     [apply H; exact Hx | exact Hp]).
    congruence.
Qed.

Lemma instantOf_inj : forall offset D M N,
    instantOf offset D M = instantOf offset D N -> M = N.
Proof.
  intros offset D M N H. unfold instantOf, atMinute in H. cbn [Luxon.ts] in H.
  unfold_ms. lia.
Qed.

Lemma localTimeOfDay_instantOf : forall offset, EuropeanZone offset ->
  forall D M, 180 <= M < 1440 ->
    localTimeOfDay offset (instantOf offset D M) = formatMinute M.
Proof.
  intros offset zone D M HM. unfold localTimeOfDay, Luxon.nowIn, instantOf.
  pose proof (atMinute_consistent offset zone D M HM) as Hc.
  unfold consistent in Hc. rewrite <- Hc.
  replace {| Luxon.ts := Luxon.ts (atMinute offset D M);
             Luxon.o := Luxon.o (atMinute offset D M) |}
    with (atMinute offset D M) by reflexivity.
  apply (toFormatHHmm_atMinute offset). lia.
Qed.

(** Among minutes of a day, a formatted time is one of the formatted
    minutes exactly when the minute is one of them. *)
Lemma inTimes_formatMinute : forall M R,
    0 <= M < 1440 -> (forall N, In N R -> 0 <= N < 1440) ->
    inTimes (formatMinute M) (map formatMinute R) = existsb (Z.eqb M) R.
Proof.
  intros M R HM HR. unfold inTimes.
  induction R as [| N R IH]; cbn [map existsb]; [reflexivity |].
  rewrite IH by (intros; apply HR; simpl; auto). f_equal.
  destruct (Z.eqb_spec M N) as [-> | Hne]; [apply String.eqb_refl |].
  apply String.eqb_neq. intro E. apply Hne.
  apply formatMinute_inj; try assumption. apply HR. simpl. auto.
Qed.

Lemma inDates_instantOf : forall offset D M R,
    Prisma.inDates (instantOf offset D M) (map (instantOf offset D) R)
    = existsb (Z.eqb M) R.
Proof.
  intros offset D M R. unfold Prisma.inDates.
  induction R as [| N R IH]; cbn [map existsb]; [reflexivity |]. rewrite IH. f_equal.
  destruct (Z.eqb_spec M N) as [-> | Hne]; [apply Z.eqb_refl |].
  apply Z.eqb_neq. intro E. apply Hne. apply instantOf_inj in E. exact E.
Qed.

Lemma map_filter_formatMinute : forall l R,
    (forall M, In M l -> 0 <= M < 1440) -> (forall N, In N R -> 0 <= N < 1440) ->
    map formatMinute (filter (fun M => negb (existsb (Z.eqb M) R)) l)
    = filter (fun time => negb (inTimes time (map formatMinute R)))
             (map formatMinute l).
Proof.
  intros l R Hl HR. induction l as [| M l IH]; cbn [map filter]; [reflexivity |].
  rewrite (inTimes_formatMinute M R) by (try apply Hl; simpl; auto).
  destruct (existsb (Z.eqb M) R); cbn [negb map];
    rewrite IH by (intros; apply Hl; simpl; auto); reflexivity.
Qed.

Lemma offered_app : forall windows booked more startUtc,
    offered windows (booked ++ more) startUtc
    = offered windows booked startUtc && negb (Prisma.inDates startUtc more).
Proof.
  intros. unfold offered, Prisma.inDates. rewrite existsb_app, negb_orb.
  apply andb_assoc.
Qed.

Lemma gridMinute_instant_in_day : forall offset D M,
    In M gridMinutes ->
    instantOf offset D (minuteOfDay DAY_START) <= instantOf offset D M
    < instantOf offset D (minuteOfDay DAY_END).
Proof.
  intros offset D M HM. apply gridMinutes_spec in HM. destruct HM as [HM _].
  unfold instantOf, atMinute. cbn [Luxon.ts]. unfold_rules. unfold_ms. lia.
Qed.

(** X5.  After a 201, the availability of the booked service on the
    booked date is the list from before the commit without the local times
    of the returned bookings; every other time stays, in the same order. *)
Theorem availability_after_commit :
  forall offset, EuropeanZone offset ->
  forall tsNow fault db user body n created db' tsBefore tsAfter times,
    postBookings offset tsNow fault db user body = (Post201 n created, db') ->
    getAvailability offset tsBefore db (body_serviceId body) (body_date body)
    = Avail200 times ->
    getAvailability offset tsAfter db' (body_serviceId body) (body_date body)
    = Avail200
        (filter (fun time =>
                   negb (inTimes time
                           (map (fun v => localTimeOfDay offset (view_startAt v))
                                created)))
                times).
Proof.
  intros offset zone tsNow fault db user body n created db' tsBefore tsAfter times
         Hpost Havail.
  destruct (postBookings_201 _ _ _ _ _ _ _ _ _ Hpost) as (t & Hv & Hc & Hdb & Hcr).
  destruct (validated_request offset zone _ _ _ _ _ Hv)
    as (y & m & d & hh & mm & service & Hdate & Htime & Hvd & Hh & HM & Hmod & Hs
        & Hend & Hsid & Hsvc & Hact & Hdur & Htsid & Hstarts).
  set (sid := body_serviceId body) in *.
  set (D := Luxon.daysFromCivil y m d) in *.
  set (minutes := sessionMinutes (hh * 60 + mm) (body_sessions body)) in *.
  pose proof (sessionMinutes_grid (hh * 60 + mm) (body_sessions body) HM Hmod Hend)
    as Hgrid. fold minutes in Hgrid. rewrite Forall_forall in Hgrid.
  set (rows := insertedRows (bookings db) (tx_userId t) (tx_serviceId t) (tx_note t)
                            (tx_startsUtc t)) in *.
  destruct (insertedRows_spec (bookings db) (tx_userId t) (tx_serviceId t)
                              (tx_note t) (tx_startsUtc t)) as (Hrs & _ & Hrf).
  fold rows in Hrs, Hrf. rewrite Forall_forall in Hrf.
  rewrite (getAvailability_grid offset zone tsBefore db sid (body_date body) y m d
                                service) in Havail by assumption.
  apply (f_equal (fun r => match r with Avail200 l => l | _ => [] end)) in Havail.
  cbv beta iota in Havail. subst times.
  assert (Hsvc' : Prisma.serviceFindUnique db' sid = Some service)
    by (subst db'; exact Hsvc).
  rewrite (getAvailability_grid offset zone tsAfter db' sid (body_date body) y m d
                                service) by assumption.
  fold D. f_equal.
  set (dayStartUtc := instantOf offset D (minuteOfDay DAY_START)).
  set (dayEndUtc := instantOf offset D (minuteOfDay DAY_END)).
  assert (Hw : Prisma.slotsOverlapping db' sid dayEndUtc dayStartUtc
               = Prisma.slotsOverlapping db sid dayEndUtc dayStartUtc)
    by (subst db'; reflexivity).
  assert (Hbk : Prisma.bookedStarts db' sid dayStartUtc dayEndUtc
               = Prisma.bookedStarts db sid dayStartUtc dayEndUtc
                 ++ map (instantOf offset D) minutes).
  { subst db'. rewrite <- Hstarts, <- Hrs. apply bookedStarts_after_insert.
    apply Forall_forall. intros b Hb. destruct (Hrf b Hb) as (_ & Hbs & _ & Hbst & _).
    split; [congruence |]. split; [exact Hbst |].
    assert (Hin : In (startAt b) (map (instantOf offset D) minutes)).
    { rewrite <- Hstarts, <- Hrs. apply in_map. exact Hb. }
    apply in_map_iff in Hin. destruct Hin as (Mi & <- & HMi).
    apply gridMinute_instant_in_day. apply Hgrid. exact HMi. }
  rewrite Hw, Hbk.
  rewrite (filter_ext _ (fun M =>
             offered (Prisma.slotsOverlapping db sid dayEndUtc dayStartUtc)
                     (Prisma.bookedStarts db sid dayStartUtc dayEndUtc)
                     (instantOf offset D M)
             && negb (existsb (Z.eqb M) minutes)))
    by (intro M; rewrite offered_app, inDates_instantOf; reflexivity).
  rewrite filter_andb.
  rewrite map_filter_formatMinute.
  - apply filter_ext. intro time. f_equal. unfold inTimes. apply existsb_same.
    intro x. rewrite Hcr. rewrite !in_map_iff. split.
    + intros (Mi & <- & HMi).
      assert (Hin : In (instantOf offset D Mi) (map startAt rows)).
      { rewrite Hrs, Hstarts. apply in_map. exact HMi. }
      apply in_map_iff in Hin. destruct Hin as (b & Hbst & Hb).
      exists (bookingView b). split.
      * cbn [bookingView view_startAt]. rewrite Hbst.
        pose proof (gridMinutes_last_fits _ (Hgrid Mi HMi)).
        apply (localTimeOfDay_instantOf offset zone). lia.
      * apply in_map. unfold Prisma.findByUserAndStarts.
        apply orderByAsc_In. apply filter_In. split.
        -- subst db'. cbn [withBookings bookings]. apply in_or_app. right. exact Hb.
        -- destruct (Hrf b Hb) as (-> & -> & _). rewrite !String.eqb_refl.
           cbn [andb]. apply inDates_In. rewrite <- Hrs. apply in_map. exact Hb.
    + intros (v & <- & Hv'). apply in_map_iff in Hv'. destruct Hv' as (b & <- & Hb).
      unfold Prisma.findByUserAndStarts in Hb. apply orderByAsc_In in Hb.
      apply filter_In in Hb. destruct Hb as [_ Hb].
      rewrite !andb_true_iff in Hb. destruct Hb as [_ Hb].
      apply inDates_In in Hb. rewrite Hstarts in Hb.
      apply in_map_iff in Hb. destruct Hb as (Mi & Hbst & HMi).
      exists Mi. split; [| exact HMi].
      cbn [bookingView view_startAt]. rewrite <- Hbst.
      pose proof (gridMinutes_last_fits _ (Hgrid Mi HMi)).
      symmetry. apply (localTimeOfDay_instantOf offset zone). lia.
  - intros M HM'. apply filter_In in HM'. destruct HM' as [HM' _].
    pose proof (gridMinutes_last_fits M HM'). lia.
  - intros N HN. pose proof (gridMinutes_last_fits _ (Hgrid N HN)). lia.
Qed.

(** The example of the specification: two sessions from 11:00 take 11:00 and
    11:20 off the list. *)
Lemma availability_after_commit_witness :
  getAvailability oslo2026 clockBefore
                  (snd (postBookings oslo2026 clockBefore None demoDb
                                     (Some "u1"%string) (demoBody "11:00" 2)))
                  "singing-15" "2026-01-15"
  = Avail200 ["09:00"; "09:20"; "09:40"; "10:00"; "10:20"; "10:40"; "11:40"]%string.
Proof.
  etransitivity.
  - eapply (availability_after_commit
              oslo2026 oslo2026_european clockBefore None demoDb (Some "u1"%string)
              (demoBody "11:00" 2) _ _ _ clockBefore clockBefore).
    + compute. reflexivity.
    + vm_compute. reflexivity.
  - vm_compute. reflexivity.
Defined.

(** ** A second request for the same slot *)

Lemma txCheck_after_insert : forall bs uid sid nt starts,
    txCheck bs sid starts = [] ->
    txCheck (bs ++ insertedRows bs uid sid nt starts) sid starts
    = insertedRows bs uid sid nt starts.
Proof.
  intros bs uid sid nt starts Hc. unfold txCheck, Prisma.findConflicts in *.
  rewrite filter_app, Hc. cbn [app].
  apply forallb_filter_id. apply forallb_forall. intros b Hb.
  destruct (insertedRows_spec bs uid sid nt starts) as (Hs & _ & Hf).
  rewrite Forall_forall in Hf. destruct (Hf b Hb) as (_ & -> & _ & -> & _).
  rewrite String.eqb_refl. cbn [isCancelled negb andb].
  apply inDates_In. rewrite <- Hs. apply in_map. exact Hb.
Qed.

(** X6.  After a 201, a later request for the same service, date, start
    time and number of sessions (by any user, with any note, at any clock
    reading) that passes the validation, and whose conflict query is
    answered by the storage layer, is answered 409: the conflict list holds
    exactly the rows the first request inserted, one per session, and
    nothing is inserted.  The insert is not reached, so [faultLater], what
    it would have thrown, plays no part. *)
Theorem resubmission_conflicts :
  forall offset, EuropeanZone offset ->
  forall tsNow fault db user body n created db' tsLater faultLater userLater
         body2 t2,
    postBookings offset tsNow fault db user body = (Post201 n created, db') ->
    body_serviceId body2 = body_serviceId body ->
    body_date body2 = body_date body ->
    body_startTime body2 = body_startTime body ->
    body_sessions body2 = body_sessions body ->
    validateRequest offset tsLater db' userLater body2 = inr t2 ->
    exists rows conflicts,
      bookings db' = bookings db ++ rows
      /\ List.length rows = Z.to_nat (body_sessions body)
      /\ Permutation conflicts (map conflictView rows)
      /\ postBookings offset tsLater faultLater db' userLater body2
         = (Post409 conflicts, db').
Proof.
  intros offset zone tsNow fault db user body n created db' tsLater faultLater
         userLater body2 t2 Hpost Esid Edate Etime Esess Hv2.
  destruct (postBookings_201 _ _ _ _ _ _ _ _ _ Hpost) as (t & Hv & Hc & Hdb & _).
  destruct (validated_request offset zone _ _ _ _ _ Hv)
    as (y & m & d & hh & mm & service & Hdate & Htime & _ & _ & _ & _ & Hs & _ & _
        & _ & _ & _ & Htsid & Hstarts).
  destruct (validated_request offset zone _ _ _ _ _ Hv2)
    as (y2 & m2 & d2 & hh2 & mm2 & service2 & Hdate2 & Htime2 & _ & _ & _ & _ & _
        & _ & _ & _ & _ & _ & Htsid2 & Hstarts2).
  rewrite Edate, Hdate in Hdate2. injection Hdate2 as <- <- <-.
  rewrite Etime, Htime in Htime2. injection Htime2 as <- <-.
  rewrite Esid in Htsid2. rewrite Esess in Hstarts2.
  set (rows := insertedRows (bookings db) (tx_userId t) (tx_serviceId t) (tx_note t)
                            (tx_startsUtc t)) in *.
  exists rows, (map conflictView rows).
  destruct (insertedRows_spec (bookings db) (tx_userId t) (tx_serviceId t)
                              (tx_note t) (tx_startsUtc t)) as (_ & Hl & _).
  fold rows in Hl.
  assert (Hlen : List.length rows = Z.to_nat (body_sessions body)).
  { rewrite Hl, Hstarts. unfold sessionMinutes. rewrite !length_map, length_seq.
    reflexivity. }
  split; [subst db'; reflexivity |]. split; [exact Hlen |].
  split; [apply Permutation_refl |].
  assert (Hconf : txCheck (bookings db') (tx_serviceId t2) (tx_startsUtc t2) = rows).
  { subst db'. cbn [withBookings bookings].
    rewrite Htsid2, <- Htsid, Hstarts2, <- Hstarts.
    apply txCheck_after_insert. exact Hc. }
  destruct (postBookings_validated offset tsLater faultLater db' userLater body2 t2 Hv2)
    as [[_ E] | [(Hn & _) | (Hn & _)]].
  - rewrite E, Hconf. reflexivity.
  - rewrite Hconf in Hn. rewrite Hn in Hlen. simpl in Hlen. lia.
  - rewrite Hconf in Hn. rewrite Hn in Hlen. simpl in Hlen. lia.
Qed.

(** User u2 asks, with a note, for the two sessions user u1 has just
    booked. *)
Lemma resubmission_conflicts_witness :
  exists rows conflicts,
    bookings (snd (postBookings oslo2026 clockBefore None demoDb (Some "u1"%string)
                                (demoBody "11:00" 2)))
    = bookings demoDb ++ rows
    /\ List.length rows = 2%nat
    /\ Permutation conflicts (map conflictView rows)
    /\ postBookings oslo2026 clockBefore None
                    (snd (postBookings oslo2026 clockBefore None demoDb
                                       (Some "u1"%string) (demoBody "11:00" 2)))
                    (Some "u2"%string)
                    (bodyFor "singing-15" "2026-01-15" "11:00" 2 (Some "mine"%string))
       = (Post409 conflicts,
          snd (postBookings oslo2026 clockBefore None demoDb (Some "u1"%string)
                            (demoBody "11:00" 2))).
Proof.
  eapply (resubmission_conflicts
            oslo2026 oslo2026_european clockBefore None demoDb (Some "u1"%string)
            (demoBody "11:00" 2) _ _ _ clockBefore None (Some "u2"%string)
            (bodyFor "singing-15" "2026-01-15" "11:00" 2 (Some "mine"%string))).
  - compute. reflexivity.
  - reflexivity.
  - reflexivity.
  - reflexivity.
  - reflexivity.
  - compute. reflexivity.
Defined.

(** ** Which bookings the availability of a service depends on *)

Lemma getAvailability_bookings : forall offset ts db bs sid date,
    (forall lo hi,
        Prisma.bookedStarts (withBookings db bs) sid lo hi
        = Prisma.bookedStarts db sid lo hi) ->
    getAvailability offset ts (withBookings db bs) sid date
    = getAvailability offset ts db sid date.
Proof.
  intros offset ts db bs sid date H. unfold getAvailability.
  destruct (String.length sid =? 0)%nat; [reflexivity |].
  destruct (Wire.dateFields date) as [[[y m] d] |]; [| reflexivity].
  change (Prisma.serviceFindUnique (withBookings db bs) sid)
    with (Prisma.serviceFindUnique db sid).
  destruct (Prisma.serviceFindUnique db sid) as [service |]; [| reflexivity].
  destruct (negb (isActive service)); [reflexivity |].
  destruct (negb (durationMin service =? SESSION_MIN)); [reflexivity |].
  destruct (Luxon.fromObject offset ts y m d (hour DAY_START) (minute DAY_START))
    as [dayStartOslo |]; [| reflexivity].
  destruct (Luxon.fromObject offset ts y m d (hour DAY_END) (minute DAY_END))
    as [dayEndOslo |]; [| reflexivity].
  rewrite H. reflexivity.
Qed.

Lemma postBookings_table : forall offset tsNow fault db user body,
    snd (postBookings offset tsNow fault db user body) = db
    \/ exists t,
        validateRequest offset tsNow db user body = inr t
        /\ snd (postBookings offset tsNow fault db user body)
           = withBookings db
               (bookings db ++ insertedRows (bookings db) (tx_userId t)
                                            (tx_serviceId t) (tx_note t)
                                            (tx_startsUtc t)).
Proof.
  intros offset tsNow fault db user body.
  destruct (validateRequest offset tsNow db user body) as [r | t] eqn:Hv.
  - left. unfold postBookings. rewrite Hv. reflexivity.
  - destruct (postBookings_validated offset tsNow fault db user body t Hv)
      as [[_ E] | [(_ & _ & E) | (_ & _ & E)]]; rewrite E; cbn [snd].
    + left. reflexivity.
    + left. reflexivity.
    + right. exists t. split; reflexivity.
Qed.

(** X7.  A request to [POST /bookings], whatever its outcome, leaves the
    availability of every other service as it was, on every date. *)
Theorem other_service_availability_unchanged :
  forall offset ts tsNow fault db user body sid date,
    sid <> body_serviceId body ->
    getAvailability offset ts (snd (postBookings offset tsNow fault db user body))
                    sid date
    = getAvailability offset ts db sid date.
Proof.
  intros offset ts tsNow fault db user body sid date Hsid.
  destruct (postBookings_table offset tsNow fault db user body)
    as [E | (t & Hv & E)]; rewrite E; [reflexivity |].
  apply getAvailability_bookings. intros lo hi.
  unfold Prisma.bookedStarts, withBookings. cbn [bookings].
  rewrite filter_app, map_app.
  rewrite (filter_none _ _ (insertedRows _ _ _ _ _)); [apply app_nil_r |].
  intros b Hb.
  destruct (insertedRows_spec (bookings db) (tx_userId t) (tx_serviceId t)
                              (tx_note t) (tx_startsUtc t)) as (_ & _ & Hf).
  rewrite Forall_forall in Hf. destruct (Hf b Hb) as (_ & Hbs & _).
  destruct (validateRequest_inr _ _ _ _ _ _ Hv)
    as (uid & start & service & _ & _ & _ & _ & _ & _ & _ & _ & _ & _ & Ht).
  subst t. cbn [tx_serviceId] in Hbs.
  destruct (String.eqb_spec (serviceId b) sid) as [Eb | Eb]; [| reflexivity].
  congruence.
Qed.

(** User u1 books 10:00 and 10:20 of the seeded service; the service
    "piano-15", open 10:00-11:00, offers 10:00, 10:20 and 10:40 before and
    after. *)
Lemma other_service_availability_unchanged_witness :
  fst (postBookings oslo2026 clockBefore None demoTwoServicesDb
                    (Some "u1"%string) (demoBody "10:00" 2))
  = Post201 2 [ {| view_id := 1; view_startAt := 1768467600000;
                   view_endAt := 1768468500000; view_status := CONFIRMED |};
                {| view_id := 2; view_startAt := 1768468800000;
                   view_endAt := 1768469700000; view_status := CONFIRMED |} ]
  /\ getAvailability oslo2026 clockBefore demoTwoServicesDb "piano-15" "2026-01-15"
     = Avail200 ["10:00"; "10:20"; "10:40"]%string
  /\ getAvailability oslo2026 clockBefore
                     (snd (postBookings oslo2026 clockBefore None demoTwoServicesDb
                                        (Some "u1"%string) (demoBody "10:00" 2)))
                     "piano-15" "2026-01-15"
     = Avail200 ["10:00"; "10:20"; "10:40"]%string.
Proof.
  split; [vm_compute; reflexivity |].
  split; [vm_compute; reflexivity |].
  rewrite (other_service_availability_unchanged
             oslo2026 clockBefore clockBefore None demoTwoServicesDb
             (Some "u1"%string) (demoBody "10:00" 2) "piano-15" "2026-01-15"
             ltac:(vm_compute; discriminate)).
  vm_compute. reflexivity.
Defined.

(** X8.  Cancelled bookings are invisible to the availability computation
    and to the conflict query of the commit: both give what they give on the
    table without its cancelled rows.  (A PENDING booking counts like a
    CONFIRMED one.) *)
Theorem cancelled_bookings_do_not_block :
  forall offset ts db sid date starts,
    getAvailability offset ts (withBookings db (liveBookings (bookings db))) sid date
    = getAvailability offset ts db sid date
    /\ txCheck (liveBookings (bookings db)) sid starts
       = txCheck (bookings db) sid starts.
Proof.
  intros offset ts db sid date starts.
  assert (Hff : forall (f : Booking -> bool) bs,
             (forall b, f b = true -> isCancelled (status b) = false) ->
             filter f (liveBookings bs) = filter f bs).
  { intros f bs Hf. unfold liveBookings. induction bs as [| b bs IH]; [reflexivity |].
    cbn [filter]. destruct (f b) eqn:Eb.
    - rewrite (Hf b Eb). cbn [negb filter]. rewrite Eb, IH. reflexivity.
    - destruct (negb (isCancelled (status b))); cbn [filter]; rewrite ?Eb; exact IH. }
  split.
  - apply getAvailability_bookings. intros lo hi.
    unfold Prisma.bookedStarts, withBookings. cbn [bookings]. f_equal.
    apply Hff. intros b Hb. rewrite !andb_true_iff in Hb.
    destruct Hb as [[[_ Hb] _] _]. apply negb_true_iff in Hb. exact Hb.
  - unfold txCheck, Prisma.findConflicts. apply Hff. intros b Hb.
    rewrite !andb_true_iff in Hb. destruct Hb as [[_ Hb] _].
    apply negb_true_iff in Hb. exact Hb.
Qed.

(** ** The admin router and the booking flow *)

Lemma postAdminSlots_cases : forall db b,
    snd (postAdminSlots db b) = db
    \/ exists startDate endDate service,
        slotBody_startAt b = Some startDate /\ slotBody_endAt b = Some endDate
        /\ startDate < endDate
        /\ slotBody_serviceId b <> EmptyString
        /\ Prisma.serviceFindUnique db (slotBody_serviceId b) = Some service
        /\ postAdminSlots db b
           = (Slot201 {| slot_serviceId := slotBody_serviceId b;
                         slot_startAt := startDate; slot_endAt := endDate |},
              {| services := services db;
                 slots := slots db ++ [ {| slot_serviceId := slotBody_serviceId b;
                                           slot_startAt := startDate;
                                           slot_endAt := endDate |} ];
                 bookings := bookings db |}).
Proof.
  intros db b. unfold postAdminSlots.
  destruct (slotBody_startAt b) as [startDate |]; [| left; reflexivity].
  destruct (slotBody_endAt b) as [endDate |]; [| left; reflexivity].
  destruct (Z.leb_spec 1 (Z.of_nat (String.length (slotBody_serviceId b))))
    as [Hlen | Hlen]; cbn [negb]; [| left; reflexivity].
  destruct (Z.ltb_spec startDate endDate) as [Hlt | Hge]; cbn [negb];
    [| left; reflexivity].
  destruct (Prisma.serviceFindUnique db (slotBody_serviceId b)) as [service |];
    [| left; reflexivity].
  right. exists startDate, endDate, service.
  repeat split; try reflexivity; try assumption.
  intro E. rewrite E in Hlen. simpl in Hlen. lia.
Qed.

(** X9.  A window added with [POST /admin/slots] never takes a time off an
    availability list: whatever the request and its outcome, every time
    offered before is offered afterwards, for every service and date. *)
Theorem new_window_keeps_times :
  forall offset, EuropeanZone offset ->
  forall ts db b sid date times,
    getAvailability offset ts db sid date = Avail200 times ->
    exists times',
      getAvailability offset ts (snd (postAdminSlots db b)) sid date = Avail200 times'
      /\ forall time, In time times -> In time times'.
Proof.
  intros offset zone ts db b sid date times Havail.
  destruct (postAdminSlots_cases db b)
    as [E | (startDate & endDate & svc & _ & _ & _ & _ & _ & E)].
  - rewrite E. exists times. split; [exact Havail | auto].
  - rewrite E. cbn [snd].
    destruct (getAvailability_200 _ _ _ _ _ _ Havail)
      as (Hsid & y & m & d & service & Hdate & Hv & Hsvc & Hact & Hdur).
    rewrite (getAvailability_grid offset zone ts db sid date y m d service)
      in Havail by assumption.
    apply (f_equal (fun r => match r with Avail200 l => l | _ => [] end)) in Havail.
    cbv beta iota in Havail. subst times.
    set (db2 := {| services := services db;
                   slots := slots db ++ [ {| slot_serviceId := slotBody_serviceId b;
                                             slot_startAt := startDate;
                                             slot_endAt := endDate |} ];
                   bookings := bookings db |}).
    eexists. split.
    + exact (getAvailability_grid
               offset zone ts db2 sid date y m d service Hsid Hdate Hv
               (Hsvc : Prisma.serviceFindUnique db2 sid = Some service) Hact Hdur).
    + intros time Hin. apply in_map_iff in Hin. destruct Hin as (M & <- & HM).
      apply in_map. apply filter_In in HM. destruct HM as [HM Hoff].
      apply filter_In. split; [exact HM |].
      unfold offered in *. apply andb_true_iff in Hoff. destruct Hoff as [Hcov Hfree].
      apply andb_true_iff. split; [| exact Hfree].
      unfold isSessionCoveredBySlots in *. apply existsb_exists in Hcov.
      destruct Hcov as (w & Hw & Hwc). apply existsb_exists. exists w.
      split; [| exact Hwc].
      unfold Prisma.slotsOverlapping in *. apply orderByAsc_In in Hw.
      apply orderByAsc_In. apply filter_In in Hw. destruct Hw as [Hw Hwf].
      apply filter_In. split; [| exact Hwf].
      cbn [slots]. apply in_or_app. left. exact Hw.
Qed.

(** A second window 12:00-14:00 keeps the nine times of the first. *)
Lemma new_window_keeps_times_witness :
  exists times',
    getAvailability oslo2026 clockBefore
                    (snd (postAdminSlots demoDb
                            {| slotBody_serviceId := "singing-15";
                               slotBody_startAt := Some 1768474800000;
                               slotBody_endAt := Some 1768482000000 |}))
                    "singing-15" "2026-01-15"
    = Avail200 times'
    /\ forall time,
        In time ["09:00"; "09:20"; "09:40"; "10:00"; "10:20"; "10:40"; "11:00";
                 "11:20"; "11:40"]%string -> In time times'.
Proof.
  apply (new_window_keeps_times oslo2026 oslo2026_european).
  vm_compute. reflexivity.
Defined.

Lemma serviceFindUnique_added : forall db sid more service,
    Prisma.serviceFindUnique db sid = Some service ->
    find (fun s => String.eqb (service_id s) sid) (services db ++ more) = Some service.
Proof.
  intros db sid more service H. unfold Prisma.serviceFindUnique in H.
  induction (services db) as [| s l IH]; [discriminate |].
  cbn [app find] in *. destruct (String.eqb (service_id s) sid); [exact H | auto].
Qed.

(** X10.  In every database built by the routes from one without windows
    ([POST /admin/services], [POST /admin/slots], [POST /bookings]), every
    availability window starts strictly before it ends and names a service
    that exists. *)
Theorem built_windows_well_formed :
  forall offset db, built offset db -> windowsWellFormed db.
Proof.
  intros offset db H. unfold windowsWellFormed. induction H.
  - constructor.
  - unfold postAdminServices. destruct (negb (createServiceSchema b)); [exact IHbuilt |].
    cbn [snd slots]. apply Forall_forall. intros w Hw.
    rewrite Forall_forall in IHbuilt. destruct (IHbuilt w Hw) as [Hlt Hsvc].
    split; [exact Hlt |].
    destruct (Prisma.serviceFindUnique db (slot_serviceId w)) as [service |] eqn:E;
      [| contradiction].
    unfold Prisma.serviceFindUnique. cbn [services].
    rewrite (serviceFindUnique_added db _ _ service E). discriminate.
  - destruct (postAdminSlots_cases db b)
      as [E | (startDate & endDate & svc & _ & _ & Hlt & _ & Hsvc & E)];
      rewrite E; [exact IHbuilt |].
    cbn [snd slots]. apply Forall_app. split.
    + exact IHbuilt.
    + constructor; [| constructor]. cbn [slot_startAt slot_endAt slot_serviceId].
      split; [exact Hlt |].
      change (Prisma.serviceFindUnique db (slotBody_serviceId b) <> None).
      rewrite Hsvc. discriminate.
  - destruct (postBookings_table offset tsNow fault db user body)
      as [E | (t & _ & E)]; rewrite E; exact IHbuilt.
Qed.

(** The seeded service with one window. *)
Lemma built_windows_well_formed_witness : windowsWellFormed demoDb.
Proof.
  apply (built_windows_well_formed oslo2026).
  apply (built_slot oslo2026
           {| services := [demoService]; slots := []; bookings := [] |}
           {| slotBody_serviceId := "singing-15";
              slotBody_startAt := Some 1768464000000;
              slotBody_endAt := Some 1768474800000 |}).
  apply built_start.
Defined.

Lemma serviceFindUnique_new : forall db service,
    Prisma.serviceFindUnique db (service_id service) = None ->
    find (fun s => String.eqb (service_id s) (service_id service))
         (services db ++ [service]) = Some service.
Proof.
  intros db service H. unfold Prisma.serviceFindUnique in H.
  induction (services db) as [| s l IH].
  - cbn [app find]. rewrite String.eqb_refl. reflexivity.
  - cbn [app find] in *.
    destruct (String.eqb (service_id s) (service_id service)); [discriminate | auto].
Qed.

(** X11.  A service created with [POST /admin/services] without a duration
    gets 60 minutes, and the booking flow refuses it: the availability route
    never answers 200 for it and [POST /bookings] never answers 201. *)
Theorem default_duration_service_unbookable :
  forall offset newId db b service db',
    serviceBody_durationMin b = None ->
    Prisma.serviceFindUnique db newId = None ->
    postAdminServices newId db b = (Service201 service, db') ->
    durationMin service = 60
    /\ (forall ts date times,
           getAvailability offset ts db' newId date <> Avail200 times)
    /\ (forall tsNow fault user body n created,
           body_serviceId body = newId ->
           fst (postBookings offset tsNow fault db' user body) <> Post201 n created).
Proof.
  intros offset newId db b service db' Hdur Hfresh Hpost.
  unfold postAdminServices in Hpost.
  destruct (negb (createServiceSchema b)); [discriminate |].
  rewrite Hdur in Hpost. injection Hpost as Hservice Hdb.
  assert (Hid : service_id service = newId) by (subst service; reflexivity).
  assert (H60 : durationMin service = 60) by (subst service; reflexivity).
  assert (Hfind : Prisma.serviceFindUnique db' newId = Some service).
  { subst db'. unfold Prisma.serviceFindUnique. cbn [services].
    rewrite Hservice. rewrite <- Hid. apply serviceFindUnique_new.
    rewrite Hid. exact Hfresh. }
  split; [exact H60 |]. split.
  - intros ts date times Havail.
    destruct (getAvailability_200 _ _ _ _ _ _ Havail)
      as (_ & y & m & d & service' & _ & _ & Hsvc & _ & Hd).
    rewrite Hfind in Hsvc. injection Hsvc as <-.
    rewrite H60 in Hd. discriminate.
  - intros tsNow fault user body n created Hsid Hresp.
    destruct (postBookings offset tsNow fault db' user body) as [r db''] eqn:E.
    cbn [fst] in Hresp. subst r.
    destruct (postBookings_201 _ _ _ _ _ _ _ _ _ E) as (t & Hv & _).
    destruct (validateRequest_inr _ _ _ _ _ _ Hv)
      as (uid & start & service' & _ & _ & _ & _ & _ & _ & Hsvc & _ & Hd & _).
    rewrite Hsid, Hfind in Hsvc. injection Hsvc as <-.
    rewrite H60 in Hd. discriminate.
Qed.

(** A service "piano" created with a name only. *)
Lemma default_duration_service_unbookable_witness :
  ~ exists times,
      getAvailability oslo2026 clockBefore
        (snd (postAdminServices "piano" demoDb
                {| serviceBody_name := "Piano"; serviceBody_description := None;
                   serviceBody_durationMin := None; serviceBody_isActive := None |}))
        "piano" "2026-01-15"
      = Avail200 times.
Proof.
  intros [times H]. revert H.
  apply (proj1 (proj2 (default_duration_service_unbookable
                         oslo2026 "piano" demoDb
                         {| serviceBody_name := "Piano";
                            serviceBody_description := None;
                            serviceBody_durationMin := None;
                            serviceBody_isActive := None |}
                         _ _ eq_refl eq_refl eq_refl))).
Defined.

(** ** Who changes the database *)

(** X12.  Through the route [POST /bookings] the database changes only for
    a request whose access token verifies, and every booking it inserts has
    the [userId] of the token's payload; without a cookie (or with an empty
    one) the answer is 401 "Not authenticated", with a token that does not
    verify 401 "Invalid or expired token", and nothing changes. *)
Theorem bookings_belong_to_token_user :
  forall verify offset tsNow fault db access_token body,
    let response :=
      fst (postBookingsRoute verify offset tsNow fault db access_token body) in
    let db' :=
      snd (postBookingsRoute verify offset tsNow fault db access_token body) in
    (db' = db
     \/ exists token payload rows,
         access_token = Some token /\ verify token = Some payload
         /\ db' = withBookings db (bookings db ++ rows)
         /\ Forall (fun b => userId b = auth_userId payload) rows)
    /\ ((access_token = None \/ access_token = Some EmptyString) ->
        response = Refused Guard401NotAuthenticated /\ db' = db)
    /\ (forall token, access_token = Some token -> token <> EmptyString ->
                      verify token = None ->
                      response = Refused Guard401InvalidToken /\ db' = db).
Proof.
  intros verify offset tsNow fault db access_token body response db'.
  unfold response, db', postBookingsRoute, requireAuth.
  destruct access_token as [token |].
  - destruct token as [| c token'].
    + cbn. split; [left; reflexivity |]. split; [auto |].
      intros token E Hne. injection E as <-. contradiction.
    + cbn [String.length Nat.eqb].
      destruct (verify (String c token')) as [payload |] eqn:Hverify.
      * destruct (postBookings offset tsNow fault db (reqUserId payload) body)
          as [r db1] eqn:E. cbn [fst snd].
        split; [| split].
        -- destruct (postBookings_table offset tsNow fault db (reqUserId payload) body)
             as [E1 | (t & Hv & E1)]; rewrite E in E1; cbn [snd] in E1.
           ++ left. exact E1.
           ++ right. exists (String c token'), payload. eexists.
              split; [reflexivity |]. split; [exact Hverify |].
              split; [exact E1 |].
              destruct (insertedRows_spec (bookings db) (tx_userId t) (tx_serviceId t)
                                          (tx_note t) (tx_startsUtc t))
                as (_ & _ & Hf).
              apply Forall_forall. intros b Hb. rewrite Forall_forall in Hf.
              destruct (Hf b Hb) as (Hu & _). rewrite Hu.
              destruct (validateRequest_inr _ _ _ _ _ _ Hv)
                as (uid & start & service & Huser & _ & _ & _ & _ & _ & _ & _ & _
                    & _ & Ht).
              subst t. cbn [tx_userId]. unfold reqUserId in Huser.
              destruct (String.length (auth_userId payload) =? 0)%nat;
                [discriminate |].
              injection Huser as <-. reflexivity.
        -- intros [H | H]; discriminate.
        -- intros token Etok _ Hnone. injection Etok as <-. congruence.
      * cbn [fst snd]. split; [left; reflexivity |]. split.
        -- intros [H | H]; discriminate.
        -- intros. split; reflexivity.
  - cbn. split; [left; reflexivity |]. split; [auto |].
    intros token E. discriminate.
Qed.

(** X13.  Through the route [POST /admin/slots] the windows change only for
    a request whose access token verifies with the role ADMIN; a verified
    token of a USER is answered 403 "Forbidden" and changes nothing. *)
Theorem only_admin_adds_windows :
  forall verify db access_token b,
    let response := fst (postAdminSlotsRoute verify db access_token b) in
    let db' := snd (postAdminSlotsRoute verify db access_token b) in
    (db' = db
     \/ exists token payload,
         access_token = Some token /\ verify token = Some payload
         /\ auth_role payload = ADMIN)
    /\ (forall token payload,
           access_token = Some token -> token <> EmptyString ->
           verify token = Some payload -> auth_role payload = USER ->
           response = Refused Guard403Forbidden /\ db' = db).
Proof.
  intros verify db access_token b response db'.
  unfold response, db', postAdminSlotsRoute, adminGuard, requireAuth, requireRole.
  destruct access_token as [token |]; [| cbn; split; [left; reflexivity |];
                                         intros; discriminate].
  destruct token as [| c token'].
  - cbn. split; [left; reflexivity |]. intros token payload E Hne.
    injection E as <-. contradiction.
  - cbn [String.length Nat.eqb].
    destruct (verify (String c token')) as [payload |] eqn:Hverify.
    + destruct (auth_role payload) eqn:Hrole; cbn [roleEqb].
      * destruct (postAdminSlots db b) as [r db1]. cbn [fst snd]. split.
        -- right. exists (String c token'), payload. repeat split; assumption.
        -- intros token p E _ Hv Hr. injection E as <-.
           rewrite Hverify in Hv. injection Hv as <-. congruence.
      * cbn [fst snd]. split; [left; reflexivity |]. intros. split; reflexivity.
    + cbn [fst snd]. split; [left; reflexivity |].
      intros token p E _ Hv. injection E as <-. congruence.
Qed.

(** ** The earlier handler and the current one *)

(** X14.  The current handler of [POST /bookings] answers and stores what
    the earlier handler (without the window check) does, except when it
    rejects the request as outside the administrator's availability: the
    earlier handler took such a request to the transaction. *)
Theorem window_check_is_the_only_difference :
  forall offset tsNow fault db user body,
    postBookings offset tsNow fault db user body
    = postBookingsV1 offset tsNow fault db user body
    \/ (postBookings offset tsNow fault db user body
        = (Post400 MsgNotWithinAvailability, db)
        /\ exists t, validateRequestV1 offset tsNow db user body = inr t).
Proof.
  intros offset tsNow fault db user body.
  unfold postBookings, postBookingsV1, validateRequest, validateRequestV1.
  destruct (negb (createBookingSchema body)); [left; reflexivity |].
  destruct user as [uid |]; [| left; reflexivity].
  destruct (parseOsloDateTime offset tsNow (body_date body) (body_startTime body))
    as [start |]; [| left; reflexivity].
  destruct (negb (isAlignedToStep offset start)); [left; reflexivity |].
  destruct (validateWithinBusinessHours offset start (body_sessions body));
    [| left; reflexivity].
  destruct (Luxon.ltb start (Luxon.nowIn offset tsNow)); [left; reflexivity |].
  destruct (Prisma.serviceFindUnique db (body_serviceId body)) as [service |];
    [| left; reflexivity].
  destruct (negb (isActive service)); [left; reflexivity |].
  destruct (negb (durationMin service =? SESSION_MIN)); [left; reflexivity |].
  destruct (negb (forallb _ _)).
  - right. split; [reflexivity |]. eexists. reflexivity.
  - left. reflexivity.
Qed.

(** ** Time strings *)

Lemma digitValue_inv : forall a x,
    Wire.digitValue a = Some x -> 0 <= x <= 9 /\ a = Wire.digitChar x.
Proof.
  intros a x H. unfold Wire.digitValue in H. cbv zeta in H.
  remember (Z.of_nat (nat_of_ascii a)) as n eqn:En.
  destruct (Z.leb_spec 48 n); [| discriminate].
  destruct (Z.leb_spec n 57); [| discriminate].
  cbn [andb] in H. injection H as <-. split; [clear En; lia |].
  unfold Wire.digitChar.
  replace (48 + (n - 48)) with n by (clear En; lia).
  rewrite En, Nat2Z.id. symmetry. apply ascii_nat_embedding.
Qed.

Lemma number2_inv : forall a b n,
    Wire.number2 a b = Some n ->
    0 <= n <= 99 /\ Wire.pad2 n = String a (String b EmptyString).
Proof.
  intros a b n H. unfold Wire.number2 in H.
  destruct (Wire.digitValue a) as [x |] eqn:Ea; [| discriminate].
  destruct (Wire.digitValue b) as [y |] eqn:Eb; [| discriminate].
  assert (Hn : n = 10 * x + y) by congruence. subst n. clear H.
  destruct (digitValue_inv _ _ Ea) as [Hx ->].
  destruct (digitValue_inv _ _ Eb) as [Hy ->].
  split; [lia |]. unfold Wire.pad2.
  replace ((10 * x + y) / 10) with x by (Z.div_mod_to_equations; lia).
  replace ((10 * x + y) mod 10) with y by (Z.div_mod_to_equations; lia).
  reflexivity.
Qed.

(** X15.  The strings the schema accepts as [startTime] are exactly the
    strings [toFormat("HH:mm")] writes: a string reads as hour [hh] and
    minute [mm] exactly when both are between 0 and 99 and the string is
    their two-digit, zero-padded form; so every time the availability route
    returns reads back as the same hour and minute. *)
Theorem timeFields_iff : forall time hh mm,
    Wire.timeFields time = Some (hh, mm)
    <-> 0 <= hh <= 99 /\ 0 <= mm <= 99 /\ time = Wire.formatHHmm hh mm.
Proof.
  intros time hh mm. split.
  - intro H. unfold Wire.timeFields in H.
    destruct time as [| h1 [| h2 [| c [| m1 [| m2 [| x rest]]]]]];
      cbn [list_ascii_of_string] in H; try discriminate;
      destruct c as [b0 b1 b2 b3 b4 b5 b6 b7];
      destruct b0, b1, b2, b3, b4, b5, b6, b7; cbv beta iota in H;
      try discriminate.
    destruct (Wire.number2 h1 h2) as [h |] eqn:Eh; [| discriminate].
    destruct (Wire.number2 m1 m2) as [mi |] eqn:Em; [| discriminate].
    injection H as <- <-.
    destruct (number2_inv _ _ _ Eh) as [Hh Ph].
    destruct (number2_inv _ _ _ Em) as [Hm Pm].
    split; [exact Hh |]. split; [exact Hm |].
    unfold Wire.formatHHmm. rewrite Ph, Pm. reflexivity.
  - intros (Hh & Hm & ->). apply timeFields_formatHHmm; assumption.
Qed.
